(* ===== verification/_CoqProject ===== *)
-Q . S2P
Prelude.v
JsLib.v
EcmaDate.v
DateUtil.v
TaskStore.v
Recurrence.v
Grid.v
Agenda.v
Codec.v
Json.v
JsonGrammar.v
App.v
Session.v
