(* ===== verification/Prelude.v ===== *)
(** * A verification library for the browser calendar [src/script.js]

    ** The program

    [src/script.js] is a single-page calendar.  Its state is a handful of
    globals (l. 27-39): [currentDate] (the month shown), [selectedDate]
    and [selectedTime] (the day and hour slot the user opened), the
    one-time task index [tasks] (date key -> hour key -> array of
    [{desc}]), the array [recurringTasks] of weekly and yearly rules, and
    the journal text.  Its functions split into
    - date utilities: [formatDate] (l. 50-52), [convertTo12Hour]
      (l. 59-65);
    - the month grid [renderCalendar] (l. 71-134), which asks [hasTasks]
      (l. 141-167) about every day of the month;
    - the day agenda [renderDayView] (l. 191-288): the one-time tasks and
      the matching rules of the 24 hour slots, each with a delete button;
    - the mutations [addTask] (l. 315-362), [deleteTask] (l. 370-383) and
      [deleteRecurringTask] (l. 389-396), each followed by a save to
      [localStorage] ([saveTasks], [saveRecurringTasks], l. 401-410,
      through [JSON.stringify]) and a re-render;
    - the handlers of navigation, modals and journal ([changeMonth],
      [openDayModal], [closeDayModal], [openTaskModal], [closeTaskModal],
      [toggleJournal], [saveJournal]) and the listeners of l. 422-458;
    - the start of the script, which reads the store back with
      [JSON.parse] (l. 32-35) and renders the grid (l. 461).
    Every date computation goes through the JavaScript [Date] object and
    the persistence through [JSON], so the library models the parts of
    ECMA-262 the program relies on.

    ** The library (files in dependency order)

    - [Prelude] (this file): the [js_scope] notations ([+++] for string
      append, [===] for JavaScript equality of possibly-[NaN] numbers),
      the tactics [zdiv_elim], [zcase], [zenum], [zif] for case analysis
      on [Z] arithmetic, the hint databases [calendar] and [calendar_rw],
      and the list, string, option and [Z] lemmas the components share.
    - [JsLib]: the ECMAScript built-ins the program calls, from ECMA-262:
      [Number::toString] on integers ([js_int_to_string]),
      [padStart], [split], [trim], [parseInt], [Array.prototype.splice]
      with one deleted element ([js_splice1]), [%] and [||] on numbers.
    - [EcmaDate]: ECMA-262's day arithmetic ([DayFromYear],
      [YearFromDay], [MonthFromDay], [DateFromDay], [WeekDay],
      [MakeDay]), [new Date(y, m, d)], [setMonth] ([js_set_month]) and
      the parser of ["YYYY-MM-DD"], read as UTC midnight
      ([js_date_of_key]).  The local time zone is a fixed offset [tz]
      (minutes east of UTC); daylight saving is not modelled.
    - [DateUtil]: [formatDate], [convertTo12Hour] and the slot key
      [time24_of_hour] over the [JsLib] built-ins.
    - [TaskStore]: the stored objects ([Task], [Recurring]), the store
      [Store] = [tasks] + [recurringTasks], the state changes of
      [addTask] ([add_one_time], [weekly_rule], [yearly_rule], [addTask]),
      [deleteTask] and [deleteRecurringTask], the pruning invariant
      [tasks_wf] and the slot view [slot_of].
    - [Recurrence]: [hasTasks] with its rule test [rule_matches] and the
      fields [key_fields] of a date key, the abstract specification
      [spec_has_task] of spec section 4.3 over calendar dates [CalDate],
      and [recurring_at], the rules of a slot.
    - [Grid]: [renderCalendar] as the list of its 42 [Cell]s
      ([calendar_cell], [firstDay], [daysInMonth], [prevMonthDays]) and
      its specification [spec_cell].
    - [Agenda]: [renderDayView] as the list of its 24 [Slot]s
      ([day_slot], [one_time_entries], [recurring_entries]), each entry
      with the [DeleteAction] its button calls.
    - [Codec]: the persistence interface, the typeclasses [JsonCodec]
      ([JSON.stringify] / [JSON.parse]) and [JsonCodecLaws] (the round
      trip), with [load_json] and [save_json] for [localStorage].
    - [Json]: JSON values, [JSON.stringify] ([json_to_string], with
      QuoteJSONString) and [JSON.parse] ([json_parse_text], the grammar by
      mutual recursion on fuel), the encoders of the stored shapes, the
      schema [index_type] of the stored index, and the instances of
      [Codec] for the index and the rule array.  [json_parse_text]
      reads the fragment of JSON whose values the model represents
      (integers without fraction or exponent, strings of code units up
      to [0xFF]), which contains every text the program writes.
    - [JsonGrammar]: the whole JSON grammar as the recognizer
      [json_valid], with the proof that every text [json_parse_text]
      reads is JSON; a text [json_valid] refuses is one on which
      [JSON.parse] throws.
    - [App]: the page as a state machine.  [AppState] holds the globals,
      the visibility of the modals and the journal, the rendered grid and
      day view and [localStorage]; each handler is a function on it
      ([addTask_handler], [deleteTask_handler], ...) calling the renders
      and saves where the source does; [Event], [dispatch], [enabled],
      [step] and [reachable] (first visit, events, reloads).  The handlers
      are proved against the [Codec] interface, so the whole state
      machine holds for any codec with the round trip.
    - [Session]: runs of several events ([steps]) and what a user can
      always achieve from a reachable state.

    ** What the theorems show (claim ids C1-C36 in PROJECT.json)

    - the state machine: every reachable state satisfies [app_inv] (the
      store pruned and keyed by day keys and slot keys, modals open
      exactly with their selection, both views up to date,
      [localStorage] holding the printed store and the journal); a reload
      restores the store and the journal; a delete button removes exactly
      the task or rule it shows; a grid cell is marked exactly when its
      day view lists something; [changeMonth] from the 31st skips a month;
      a stored text that is not JSON stops the script, and a loaded date
      object whose slot arrays are all empty, which the program never
      writes, marks a day whose view is empty;
    - liveness and undo: from every reachable state the three clicks that
      add a task are enabled and the day view shows the task at once, and
      its delete button gives the store of before back; a weekly task
      shows in the day view of every date with its weekday, and east of
      UTC a yearly task on every date with its month and day;
    - the stored data: the text under ["tasks"] is JSON of the schema
      [{date: {time: [{desc: string}, ...]}}] with day keys and slot keys.
      The laws of the JSON model itself ([parse_print_lemma], the round
      trips of the stored shapes that discharge [JsonCodecLaws]) are
      library lemmas, not claims about the program;
    - refinements: [hasTasks] against the specification "a non-empty
      slot or a matching rule", [renderCalendar] against the 42 days from
      [firstDay] days before the 1st, the day view's recurring loop against
      [recurring_at], the agenda entries against spec section 4.4;
    - the store operations: [deleteTask] and [addTask] keep the pruning
      invariant; an add then a delete of the same entry restore the index;
      [deleteTask] splices exactly one slot, deletes from the end for a
      negative index and nothing past the end; the other modes of
      [addTask] append one rule;
    - dates: [formatDate] keys parse back to their day (years from 1000),
      [new Date(y, m + 1, 0).getDate()] is the length of month [m], the
      recurrence tests read the previous day west of UTC and the same day
      east of it, a weekly rule recurs every seventh day,
      and [convertTo12Hour] and the slot labels.

    ** Bounds and fuel

    Numbers are unbounded [Z]: the program only handles years, months,
    days, hours and indexes, far below 2^53, where IEEE doubles are exact
    integers, so no wrap-around arises.  Two functions run on fuel.  The
    digit printer [le_digits] of [JsLib] gets the bit length plus one,
    proved sufficient.  [json_parse_text] gives the parser twice the
    length of the text plus one: [parse_value] spends one unit and
    [parse_elems] or [parse_members] another per bracket, and every value
    consumes a character; [Json.json_parse_total] proves that any larger
    fuel gives the same result, and [JsonGrammar.json_valid_total] the
    same for the recognizer, so the fuel never turns a text into a
    failure.

    ** Not modelled

    DOM construction and styling, the modal chrome and heading texts,
    [toLocaleDateString] (the month title), the form widgets (a submission
    is modelled by its two strings), daylight-saving transitions, the
    key order of printed objects (the [gmap] order, not insertion order;
    the parsed value is the same), and the prototype keys of plain
    objects ([tasks["constructor"]]), which no key built by [formatDate]
    hits.  Approximations, each disclosed where it is made:
    - stored text outside the represented fragment (a number with a
      fraction or an exponent, a [\u] escape above [0xFF]) or of another
      shape (a [tasks] that is a number, a task without a string [desc])
      makes [init] fail as if the script stopped, whereas [JSON.parse]
      returns a value and the script runs on with it; the program never
      writes such text, and [init_parse_error] is stated for texts that
      are not JSON at all, where the script does stop;
    - [new Date(key)] on a string outside the date-only format (a key
      [formatDate] makes for a year below 1000) is Invalid Date in the
      model; ECMA-262 leaves such strings to the engine;
    - [renderCalendar] reads [new Date()] once per render, not once per
      cell (l. 113), so a render across midnight is not modelled;
    - [trim()] strips ASCII white space only, not the other Unicode
      white space ([U+00A0], [U+FEFF], ...).
    [script.js] registers no listener on the task form; the model assumes
    the page routes its [submit] event to [addTask]. *)

From Stdlib Require Export Ascii String.
From stdpp Require Export base gmap strings list.
From Stdlib Require Export ZArith Lia.

Declare Scope js_scope.
Delimit Scope js_scope with js.
Open Scope js_scope.

(** String concatenation, the [+] of JavaScript strings and template
    literals. *)
Notation "s1 +++ s2" := (String.append s1 s2)
  (at level 60, right associativity) : js_scope.

(** [undefined] / [NaN] as [None]: the strict equality of the program on
    numbers that may be absent or NaN. *)
Definition js_eq_num (a b : option Z) : bool :=
  match a, b with
  | Some x, Some y => Z.eqb x y
  | _, _ => false
  end.
Notation "a === b" := (js_eq_num a b) (at level 70, no associativity) : js_scope.

Create HintDb calendar.
Create Rewrite HintDb calendar_rw.

(** ** Tactics *)

(** Replace every [a / c] and [a mod c] (with [c] a positive constant)
    by fresh variables with their Euclidean constraints, so that [lia]
    sees a linear problem. *)
Ltac zdiv_elim_at a c :=
  let Hc := fresh "Hc" in
  assert (Hc : (0 < c)%Z) by lia;
  let Hd := fresh "Hd" in let Hb := fresh "Hb" in
  pose proof (Z.div_mod a c ltac:(lia)) as Hd;
  pose proof (Z.mod_pos_bound a c Hc) as Hb;
  let q := fresh "q" in let r := fresh "r" in
  set (q := Z.div a c) in *; set (r := Z.modulo a c) in *;
  clearbody q r; clear Hc.

Ltac zdiv_elim :=
  repeat match goal with
  | |- context [Z.div ?a ?c] => zdiv_elim_at a c
  | |- context [Z.modulo ?a ?c] => zdiv_elim_at a c
  | H : context [Z.div ?a ?c] |- _ => zdiv_elim_at a c
  | H : context [Z.modulo ?a ?c] |- _ => zdiv_elim_at a c
  end.

(** Case analysis on the boolean comparisons of [Z] in the goal, each
    branch with the proposition it decides. *)
Ltac zcase :=
  repeat match goal with
  | |- context [Z.eqb ?a ?b] => destruct (Z.eqb_spec a b)
  | |- context [Z.ltb ?a ?b] => destruct (Z.ltb_spec a b)
  | |- context [Z.leb ?a ?b] => destruct (Z.leb_spec a b)
  end.

(** ** Generic lemmas *)

Section ListLemmas.
Context {A : Type}.

Lemma take_drop_length_pos (l : list A) (i : nat) :
  (i < length l)%nat ->
  length (take i l ++ drop (S i) l) = pred (length l).
Proof. intros. rewrite length_app, length_take, length_drop. lia. Qed.

Lemma take_drop_S_lookup (l : list A) (i : nat) (x : A) :
  l !! i = Some x -> l = take i l ++ x :: drop (S i) l.
Proof.
  intros Hx. rewrite <- (take_drop i l) at 1. f_equal.
  erewrite drop_S; eauto.
Qed.

Lemma app_take_drop_snoc (l : list A) (x : A) :
  take (length l) (l ++ [x]) ++ drop (S (length l)) (l ++ [x]) = l.
Proof.
  rewrite take_app_length, drop_app_ge by lia.
  rewrite Nat.sub_succ_l, Nat.sub_diag by lia. rewrite app_nil_r. done.
Qed.

(** Membership in [List.map], stated on [map] itself: the renders build
    their lists with [map] over [seq], and going through stdpp's [fmap]
    makes the kernel unfold those concrete lists. *)
Lemma elem_of_map_iff {B} (f : A -> B) (l : list A) y :
  y ∈ map f l <-> exists x, y = f x /\ x ∈ l.
Proof.
  induction l as [|x l IH]; simpl.
  - split; [intros Hy; by apply elem_of_nil in Hy | intros (? & _ & Hx); by apply elem_of_nil in Hx].
  - rewrite elem_of_cons, IH. setoid_rewrite elem_of_cons. naive_solver.
Qed.

Lemma elem_of_map_2 {B} (f : A -> B) (l : list A) x : x ∈ l -> f x ∈ map f l.
Proof. intros Hx. apply elem_of_map_iff. eauto. Qed.

(** The Standard Library's [map] is stdpp's [fmap]. *)
Lemma map_fmap {B} (f : A -> B) (l : list A) : map f l = f <$> l.
Proof. induction l as [|x l IH]; [done | by rewrite map_cons, IH]. Qed.
End ListLemmas.

(** ** Strings *)

(** [String.append] does not unfold under [simpl] once stdpp is loaded:
    its two equations. *)
Lemma append_String c s t : String c s +++ t = String c (s +++ t).
Proof. reflexivity. Qed.

Lemma append_EmptyString t : EmptyString +++ t = t.
Proof. reflexivity. Qed.

#[export] Hint Rewrite append_String append_EmptyString : calendar_rw.

Lemma string_app_assoc s1 s2 s3 : (s1 +++ s2) +++ s3 = s1 +++ (s2 +++ s3).
Proof. induction s1 as [|c s1 IH]; [done |]. by rewrite !append_String, IH. Qed.

Lemma string_app_nil_r s : s +++ EmptyString = s.
Proof. induction s as [|c s IH]; [done |]. by rewrite append_String, IH. Qed.

Lemma string_length_app s1 s2 : String.length (s1 +++ s2) = (String.length s1 + String.length s2)%nat.
Proof. induction s1 as [|c s1 IH]; [done |]. rewrite append_String. simpl. by rewrite IH. Qed.

(** A string that ends with a character is not empty. *)
Lemma string_app_cons_neq_nil s c r : s +++ String c r <> EmptyString.
Proof. destruct s as [|c' s]; [discriminate | rewrite append_String; discriminate]. Qed.

Lemma js_eq_num_true a b : (a === b) = true <-> exists x, a = Some x /\ b = Some x.
Proof.
  destruct a as [x|], b as [y|]; simpl; split; intros H;
    try destruct H as (? & ? & ?); try discriminate.
  - apply Z.eqb_eq in H. subst. eauto.
  - simplify_eq. apply Z.eqb_refl.
Qed.

Lemma js_eq_num_Some x y : (Some x === Some y) = Z.eqb x y.
Proof. reflexivity. Qed.

#[export] Hint Rewrite js_eq_num_Some : calendar_rw.

(** Split a goal on every value of [x] in [lo .. hi - 1] (small constant
    bounds that [lia] proves from the context).  Each step keeps a single
    interval hypothesis, so [lia] never sees more than one disequality. *)
Ltac zenum x lo hi :=
  let rec go i :=
    lazymatch eval compute in (Z.ltb i hi) with
    | true =>
        let j := eval compute in (i + 1)%Z in
        let Hr := fresh "Hr" in
        destruct (Z.eq_dec x i) as [->|Hr];
        [ | assert ((j <= x < hi)%Z) by lia; clear Hr; go j ]
    | false => exfalso; lia
    end in
  assert ((lo <= x < hi)%Z) by lia;
  go lo.

(** Decide, one at a time, the [Z] comparisons that guard the [if]s of
    the goal, when [lia] settles each of them from the context. *)
Ltac zif :=
  repeat match goal with
  | |- context [Z.ltb ?a ?b] =>
      first [ rewrite (proj2 (Z.ltb_lt a b)) by lia
            | rewrite (proj2 (Z.ltb_ge a b)) by lia ]; cbv beta iota
  | |- context [Z.leb ?a ?b] =>
      first [ rewrite (proj2 (Z.leb_le a b)) by lia
            | rewrite (proj2 (Z.leb_gt a b)) by lia ]; cbv beta iota
  | |- context [Z.eqb ?a ?b] =>
      first [ rewrite (proj2 (Z.eqb_eq a b)) by lia
            | rewrite (proj2 (Z.eqb_neq a b)) by lia ]; cbv beta iota
  end.

(** Split the goal on the guard of its outermost [if] on a [Z]
    comparison, reduce, and repeat: one branch per arm of an [if]
    chain, where [zcase] would split on every guard at once. *)
Ltac zif_split :=
  repeat match goal with
  | |- context [Z.ltb ?a ?b] => destruct (Z.ltb_spec a b); cbv beta iota
  | |- context [Z.eqb ?a ?b] => destruct (Z.eqb_spec a b); cbv beta iota
  end.
