(* ===== verification/JsLib.v ===== *)
(** * ECMAScript built-ins used by [src/script.js]

    The program calls a handful of built-in functions of ECMA-262:
    [String(n)] and template literals on integral numbers
    ([Number::toString], radix 10), [String.prototype.padStart],
    [String.prototype.split] with a one-character separator,
    [String.prototype.trim], the global [parseInt] (with its
    [0x] prefix rule), [Array.prototype.splice(start, 1)], the [%]
    operator (truncated remainder) and [x || d] on numbers.  This file
    writes them from the standard, on [Z] (the program only handles small
    integers, where doubles are exact), with [None] for [NaN] and
    [undefined], and proves the facts the components use: printing then
    [parseInt] is the identity, and splice deletes the indexed element in
    range, nothing past the end, and counts negative indices from the
    end. *)

From S2P Require Import Prelude.

Open Scope Z_scope.

(** ** Decimal digits *)

(** ASCII digit of a value [0 <= d < 10]. *)
Definition digit_char (d : Z) : ascii := Ascii.ascii_of_nat (48 + Z.to_nat d).
Arguments digit_char : simpl never.

(** Value of a character as a digit of radix [radix] (10 or 16), as
    [parseInt] reads it: [0-9], then [a-z] and [A-Z] from 10. *)
Definition char_digit (radix : Z) (c : ascii) : option Z :=
  let n := Z.of_nat (Ascii.nat_of_ascii c) in
  let v := if (48 <=? n) && (n <=? 57) then Some (n - 48)
           else if (97 <=? n) && (n <=? 122) then Some (n - 87)
           else if (65 <=? n) && (n <=? 90) then Some (n - 55)
           else None in
  match v with
  | Some d => if d <? radix then Some d else None
  | None => None
  end.
Arguments char_digit : simpl never.

(** Little-endian decimal digits of [n >= 0], with fuel. *)
Fixpoint le_digits (fuel : nat) (n : Z) : list Z :=
  match fuel with
  | O => []
  | S f => n mod 10 :: (if n <? 10 then [] else le_digits f (n / 10))
  end.

(** The fuel: one more than the bit length, which bounds the number of
    decimal digits. *)
Definition digit_fuel (n : Z) : nat := S (Z.to_nat (Z.log2 n)).

Definition digits10 (n : Z) : list Z := rev (le_digits (digit_fuel n) n).

Definition string_of_digits (ds : list Z) : string :=
  string_of_list_ascii (map digit_char ds).

(** [Number::toString(n)] for an integral [n]: an optional minus sign and
    the decimal digits without leading zeros. *)
Definition js_int_to_string (n : Z) : string :=
  if n <? 0 then "-" +++ string_of_digits (digits10 (- n))
  else string_of_digits (digits10 n).

(** ** [padStart], [split], [trim] *)

(** [s.padStart(maxLength, fill)] with a one-character [fill]. *)
Definition js_pad_start (s : string) (maxLength : nat) (fill : ascii) : string :=
  let len := String.length s in
  if (maxLength <=? len)%nat then s
  else string_of_list_ascii (repeat fill (maxLength - len)) +++ s.

(** [s.split(sep)] with a one-character separator. *)
Fixpoint js_split (sep : ascii) (s : string) : list string :=
  match s with
  | EmptyString => [""%string]
  | String c rest =>
      let parts := js_split sep rest in
      if Ascii.eqb c sep then ""%string :: parts
      else match parts with
           | p :: ps => String c p :: ps
           | [] => [String c ""]
           end
  end.

(** WhiteSpace and LineTerminator code points within ASCII. *)
Definition js_is_space (c : ascii) : bool :=
  let n := Ascii.nat_of_ascii c in
  (n =? 32)%nat || ((9 <=? n)%nat && (n <=? 13)%nat).

Fixpoint js_trim_start (s : string) : string :=
  match s with
  | String c rest => if js_is_space c then js_trim_start rest else s
  | EmptyString => EmptyString
  end.

Definition js_trim (s : string) : string :=
  String.rev (js_trim_start (String.rev (js_trim_start s))).

(** ** [parseInt] *)

Fixpoint digits_prefix (radix : Z) (s : string) : list Z :=
  match s with
  | String c rest =>
      match char_digit radix c with
      | Some d => d :: digits_prefix radix rest
      | None => []
      end
  | EmptyString => []
  end.

Definition digits_value (radix : Z) (ds : list Z) : Z :=
  fold_left (fun acc d => acc * radix + d) ds 0.

(** The sign step of [parseInt]: a leading [-] or [+] is consumed. *)
Definition js_parse_sign (s : string) : Z * string :=
  match s with
  | String "-" r => (-1, r)
  | String "+" r => (1, r)
  | _ => (1, s)
  end.

(** The prefix step of [parseInt] without a radix: [0x] or [0X] selects
    radix 16 and is consumed; otherwise radix 10. *)
Definition js_parse_radix (s : string) : Z * string :=
  match s with
  | String "0" (String x r) =>
      if Ascii.eqb x "x" || Ascii.eqb x "X" then (16, r) else (10, s)
  | _ => (10, s)
  end.

(** [parseInt(s)] with no radix argument: skip leading white space, read
    a sign, strip a [0x]/[0X] prefix (radix 16), then the longest prefix
    of digits; no digit gives [NaN] ([None]). *)
Definition js_parse_int (s : string) : option Z :=
  let '(sign, s2) := js_parse_sign (js_trim_start s) in
  let '(radix, s3) := js_parse_radix s2 in
  match digits_prefix radix s3 with
  | [] => None
  | ds => Some (sign * digits_value radix ds)
  end.

(** ** Numbers *)

(** [a % b]: the remainder truncated toward zero. *)
Definition js_rem (a b : Z) : Z := Z.rem a b.

(** [x || d] on a number: [0] (and [NaN]) is falsy. *)
Definition js_or_num (x : option Z) (d : Z) : Z :=
  match x with
  | Some v => if v =? 0 then d else v
  | None => d
  end.

(** ** [Array.prototype.splice(start, 1)] *)

(** ECMA-262 23.1.3.31: [relativeStart] is [start]; a negative start
    counts from the end (clamped at 0), a start past the end is clamped
    to the length; then [min(1, len - actualStart)] elements are
    removed. *)
Definition js_splice1 {A} (start : Z) (l : list A) : list A :=
  let len := Z.of_nat (length l) in
  let actual := if start <? 0 then Z.max (len + start) 0 else Z.min start len in
  let k := Z.to_nat actual in
  take k l ++ drop (S k) l.

(** ** Printing and parsing integers *)

Fixpoint le_value (ds : list Z) : Z :=
  match ds with
  | [] => 0
  | d :: ds => d + 10 * le_value ds
  end.

Lemma le_digits_small f n : 0 <= n < 10 -> le_digits (S f) n = [n].
Proof.
  intros Hn. simpl. rewrite Z.mod_small by lia.
  destruct (Z.ltb_spec n 10); [done | lia].
Qed.

Lemma le_digits_step f n : 10 <= n -> le_digits (S f) n = n mod 10 :: le_digits f (n / 10).
Proof. intros Hn. simpl. destruct (Z.ltb_spec n 10); [lia | done]. Qed.

Lemma digits_value_rev ds : digits_value 10 (rev ds) = le_value ds.
Proof.
  unfold digits_value. induction ds as [|d ds IH]; [done |].
  simpl. rewrite fold_left_app. simpl. rewrite IH. lia.
Qed.

Lemma le_digits_value f n : 0 <= n < 10 ^ Z.of_nat f -> le_value (le_digits f n) = n.
Proof.
  revert n. induction f as [|f IH]; intros n Hn.
  - simpl in Hn. simpl. lia.
  - destruct (Z.ltb_spec n 10).
    + rewrite le_digits_small by lia. simpl. lia.
    + rewrite le_digits_step by lia. simpl. rewrite IH.
      * pose proof (Z.div_mod n 10). lia.
      * rewrite Nat2Z.inj_succ, Z.pow_succ_r in Hn by lia.
        split; [apply Z.div_pos; lia | apply Z.div_lt_upper_bound; lia].
Qed.

Lemma le_digits_range f n : 0 <= n -> Forall (fun d => 0 <= d < 10) (le_digits f n).
Proof.
  revert n. induction f as [|f IH]; intros n Hn; simpl; [constructor |].
  constructor; [apply Z.mod_pos_bound; lia |].
  destruct (n <? 10); [constructor | apply IH, Z.div_pos; lia].
Qed.

Lemma digit_fuel_enough n : 0 <= n -> n < 10 ^ Z.of_nat (digit_fuel n).
Proof.
  intros Hn. unfold digit_fuel. rewrite Nat2Z.inj_succ, Z2Nat.id by apply Z.log2_nonneg.
  destruct (Z.eq_dec n 0) as [->|Hn0]; [done |].
  destruct (Z.log2_spec n) as [_ Hlt]; [lia |].
  eapply Z.lt_le_trans; [exact Hlt |].
  apply Z.pow_le_mono_l. lia.
Qed.

Lemma digits10_value n : 0 <= n -> digits_value 10 (digits10 n) = n.
Proof.
  intros Hn. unfold digits10. rewrite digits_value_rev.
  apply le_digits_value. split; [done | by apply digit_fuel_enough].
Qed.

Lemma digits10_range n : 0 <= n -> Forall (fun d => 0 <= d < 10) (digits10 n).
Proof. intros Hn. unfold digits10. apply Forall_rev, le_digits_range, Hn. Qed.

Lemma digits10_cons n : exists d ds, digits10 n = d :: ds.
Proof.
  unfold digits10, digit_fuel. simpl.
  destruct (n <? 10); simpl; eauto.
  destruct (rev _) as [|d ds] eqn:E; simpl; eauto.
Qed.

Lemma char_digit_digit_char d : 0 <= d < 10 -> char_digit 10 (digit_char d) = Some d.
Proof. intros Hd. zenum d 0 10; reflexivity. Qed.

Lemma digit_char_not_space d : 0 <= d < 10 -> js_is_space (digit_char d) = false.
Proof. intros Hd. zenum d 0 10; reflexivity. Qed.

Lemma js_parse_sign_digit d r :
  0 <= d < 10 -> js_parse_sign (String (digit_char d) r) = (1, String (digit_char d) r).
Proof. intros Hd. zenum d 0 10; reflexivity. Qed.

Lemma digits_prefix_digits ds :
  Forall (fun d => 0 <= d < 10) ds -> digits_prefix 10 (string_of_digits ds) = ds.
Proof.
  induction 1 as [|d ds Hd _ IH]; [done |].
  change (string_of_digits (d :: ds)) with (String (digit_char d) (string_of_digits ds)).
  cbn [digits_prefix]. rewrite char_digit_digit_char by done. by rewrite IH.
Qed.

(** A string of decimal digits keeps radix 10: a second character after
    a leading [0] is a digit, never [x]. *)
Lemma js_parse_radix_digits ds :
  Forall (fun d => 0 <= d < 10) ds ->
  js_parse_radix (string_of_digits ds) = (10, string_of_digits ds).
Proof.
  intros Hds. destruct Hds as [|d1 ds Hd1 Hds]; [done |].
  destruct Hds as [|d2 ds Hd2 _]; zenum d1 0 10; try reflexivity.
  zenum d2 0 10; reflexivity.
Qed.

Lemma js_trim_start_nonspace c r :
  js_is_space c = false -> js_trim_start (String c r) = String c r.
Proof. intros H. cbn [js_trim_start]. by rewrite H. Qed.

(** [parseInt] on a string of digits with an optional sign in front. *)
Lemma js_parse_int_signed sign s ds :
  js_parse_sign (js_trim_start s) = (sign, string_of_digits ds) ->
  Forall (fun d => 0 <= d < 10) ds -> ds <> [] ->
  js_parse_int s = Some (sign * digits_value 10 ds).
Proof.
  intros Hs Hds Hne. unfold js_parse_int. rewrite Hs.
  cbn beta iota. rewrite js_parse_radix_digits by done.
  cbn beta iota. rewrite digits_prefix_digits by done.
  destruct ds; [done | reflexivity].
Qed.

(** Printing an integer and reading it back with [parseInt] gives the
    integer. *)
Lemma js_parse_int_to_string n : js_parse_int (js_int_to_string n) = Some n.
Proof.
  unfold js_int_to_string. destruct (digits10_cons (Z.abs n)) as (d & ds & E).
  destruct (Z.ltb_spec n 0) as [Hn|Hn].
  - replace (- n) with (Z.abs n) by lia.
    erewrite js_parse_int_signed; [| reflexivity | apply digits10_range; lia | by rewrite E].
    rewrite digits10_value by lia. f_equal. lia.
  - replace n with (Z.abs n) at 1 by lia. pose proof (digits10_range (Z.abs n)) as Hr.
    rewrite (js_parse_int_signed 1 _ (digits10 (Z.abs n))); [| | apply Hr; lia | by rewrite E].
    + rewrite digits10_value by lia. f_equal. lia.
    + rewrite E in Hr |- *. specialize (Hr ltac:(lia)). inversion Hr as [|? ? Hd _]; subst.
      change (string_of_digits (d :: ds)) with (String (digit_char d) (string_of_digits ds)).
      rewrite js_trim_start_nonspace by (by apply digit_char_not_space).
      by rewrite js_parse_sign_digit.
Qed.

(** ** Digits of short numbers *)

Lemma digit_fuel_ge n (k : nat) : 10 ^ Z.of_nat k <= n -> (k < digit_fuel n)%nat.
Proof.
  intros Hn. unfold digit_fuel. remember (Z.of_nat k) as z eqn:Hz.
  assert (2 ^ z <= n) by (transitivity (10 ^ z); [apply Z.pow_le_mono_l; lia | exact Hn]).
  assert (z <= Z.log2 n) by (rewrite <- (Z.log2_pow2 z) by lia; by apply Z.log2_le_mono).
  lia.
Qed.

Lemma digits10_one n : 0 <= n < 10 -> digits10 n = [n].
Proof. intros Hn. unfold digits10. destruct (digit_fuel n) eqn:E; [done |]. by rewrite le_digits_small. Qed.

Lemma digits10_three n : 100 <= n < 1000 -> digits10 n = [n / 10 / 10; n / 10 mod 10; n mod 10].
Proof.
  intros Hn. pose proof (digit_fuel_ge n 2 ltac:(simpl; lia)) as Hf.
  unfold digits10. destruct (digit_fuel n) as [|[|[|f]]]; [simpl in Hf; lia..|].
  rewrite le_digits_step by lia.
  rewrite le_digits_step by (zdiv_elim; lia).
  rewrite le_digits_small by (zdiv_elim; lia). done.
Qed.

Lemma digits10_two n : 10 <= n < 100 -> digits10 n = [n / 10; n mod 10].
Proof.
  intros Hn. pose proof (digit_fuel_ge n 1 ltac:(simpl; lia)) as Hf.
  unfold digits10. destruct (digit_fuel n) as [|[|f]]; [simpl in Hf; lia..|].
  rewrite le_digits_step, le_digits_small by (zdiv_elim; lia). done.
Qed.

Lemma digits10_four n :
  1000 <= n < 10000 ->
  digits10 n = [n / 10 / 10 / 10; n / 10 / 10 mod 10; n / 10 mod 10; n mod 10].
Proof.
  intros Hn. pose proof (digit_fuel_ge n 3 ltac:(simpl; lia)) as Hf.
  unfold digits10. destruct (digit_fuel n) as [|[|[|[|f]]]]; [simpl in Hf; lia..|].
  rewrite le_digits_step by lia.
  rewrite le_digits_step by (zdiv_elim; lia).
  rewrite le_digits_step by (zdiv_elim; lia).
  rewrite le_digits_small by (zdiv_elim; lia). done.
Qed.

(** [String(n).padStart(2, '0')] for one- and two-digit [n]. *)
Lemma pad2_one n :
  0 <= n < 10 -> js_pad_start (js_int_to_string n) 2 "0" = String "0" (String (digit_char n) "").
Proof.
  intros Hn. unfold js_int_to_string. destruct (Z.ltb_spec n 0); [lia |].
  by rewrite digits10_one.
Qed.

Lemma pad2_two n :
  10 <= n < 100 ->
  js_pad_start (js_int_to_string n) 2 "0" =
  String (digit_char (n / 10)) (String (digit_char (n mod 10)) "").
Proof.
  intros Hn. unfold js_int_to_string. destruct (Z.ltb_spec n 0); [lia |].
  by rewrite digits10_two.
Qed.

Lemma int_to_string_four n :
  1000 <= n < 10000 ->
  js_int_to_string n =
  String (digit_char (n / 10 / 10 / 10)) (String (digit_char (n / 10 / 10 mod 10))
    (String (digit_char (n / 10 mod 10)) (String (digit_char (n mod 10)) ""))).
Proof.
  intros Hn. unfold js_int_to_string. destruct (Z.ltb_spec n 0); [lia |].
  by rewrite digits10_four.
Qed.

(** ** [splice(start, 1)] *)

Section Splice.
Context {A : Type}.
Implicit Types l : list A.

Lemma js_splice1_nil i : js_splice1 i (@nil A) = [].
Proof. unfold js_splice1. by rewrite take_nil, drop_nil. Qed.

Lemma js_splice1_in_range l i :
  0 <= i < Z.of_nat (length l) ->
  js_splice1 i l = take (Z.to_nat i) l ++ drop (S (Z.to_nat i)) l.
Proof.
  intros Hi. unfold js_splice1. destruct (Z.ltb_spec i 0); [lia |].
  by rewrite Z.min_l by lia.
Qed.

Lemma js_splice1_past_end l i :
  Z.of_nat (length l) <= i -> js_splice1 i l = l.
Proof.
  intros Hi. unfold js_splice1. destruct (Z.ltb_spec i 0); [lia |].
  rewrite Z.min_r, Nat2Z.id by lia.
  rewrite take_ge, drop_ge by lia. apply app_nil_r.
Qed.

(** A negative start counts from the end: [splice(-1, 1)] removes the
    last element. *)
Lemma js_splice1_negative l i :
  - Z.of_nat (length l) <= i < 0 ->
  js_splice1 i l = js_splice1 (Z.of_nat (length l) + i) l.
Proof.
  intros Hi. unfold js_splice1.
  destruct (Z.ltb_spec i 0), (Z.ltb_spec (Z.of_nat (length l) + i) 0); try lia.
  do 2 f_equal; lia.
Qed.

(** [splice] keeps a sub-list: whatever holds of every element still does. *)
Lemma js_splice1_Forall (P : A -> Prop) l i : Forall P l -> Forall P (js_splice1 i l).
Proof. intros HP. unfold js_splice1. apply Forall_app. split; [by apply Forall_take | by apply Forall_drop]. Qed.

Lemma js_splice1_length l i :
  0 <= i < Z.of_nat (length l) -> length (js_splice1 i l) = pred (length l).
Proof. intros Hi. rewrite js_splice1_in_range by done. apply take_drop_length_pos. lia. Qed.

(** Removing the element at the index of [x] leaves the elements
    around it. *)
Lemma js_splice1_app l1 x l2 :
  js_splice1 (Z.of_nat (length l1)) (l1 ++ x :: l2) = l1 ++ l2.
Proof.
  rewrite js_splice1_in_range by (rewrite length_app; simpl; lia).
  rewrite Nat2Z.id, take_app_length, drop_app_ge by lia.
  by rewrite Nat.sub_succ_l, Nat.sub_diag by lia.
Qed.
End Splice.

(** ** [undefined] in string positions *)

(** [`${v}`] and [String(v)] on a value that may be [undefined]. *)
Definition js_string_of_opt (s : option string) : string :=
  match s with
  | Some v => v
  | None => "undefined"
  end.

(** A string without the character [c]. *)
Definition no_char (c : ascii) (s : string) : bool :=
  forallb (fun x => negb (Ascii.eqb x c)) (list_ascii_of_string s).

Lemma js_split_none sep s : no_char sep s = true -> js_split sep s = [s].
Proof.
  induction s as [|c s IH]; [done |]. unfold no_char. cbn [list_ascii_of_string forallb js_split]. intros H.
  apply andb_true_iff in H as [Hc Hs]. apply negb_true_iff in Hc.
  rewrite Hc, IH by done. done.
Qed.

Lemma js_split_app sep s1 s2 :
  no_char sep s1 = true -> js_split sep (s1 +++ String sep s2) = s1 :: js_split sep s2.
Proof.
  induction s1 as [|c s1 IH]; intros H.
  - change (""%string +++ String sep s2) with (String sep s2). cbn [js_split].
    by rewrite Ascii.eqb_refl.
  - change (String c s1 +++ String sep s2) with (String c (s1 +++ String sep s2)).
    cbn [js_split]. unfold no_char in H. cbn [list_ascii_of_string forallb] in H. apply andb_true_iff in H as [Hc Hs]. apply negb_true_iff in Hc.
    rewrite Hc, IH by done. done.
Qed.

Lemma digit_char_not_colon d : 0 <= d < 10 -> Ascii.eqb (digit_char d) ":" = false.
Proof. intros Hd. zenum d 0 10; reflexivity. Qed.

(** [String(n).padStart(2, '0')] read back by [parseInt]. *)
Lemma js_parse_int_pad2 n :
  0 <= n < 100 -> js_parse_int (js_pad_start (js_int_to_string n) 2 "0") = Some n.
Proof.
  intros Hn. destruct (Z.ltb_spec n 10).
  - rewrite pad2_one by lia.
    change (String "0" (String (digit_char n) "")) with (string_of_digits [0; n]).
    rewrite (js_parse_int_signed 1 _ [0; n]); [| | repeat constructor; lia | done].
    + f_equal. cbn. lia.
    + change (string_of_digits [0; n]) with (String (digit_char 0) (string_of_digits [n])).
      rewrite js_trim_start_nonspace by (by apply digit_char_not_space).
      by rewrite js_parse_sign_digit.
  - rewrite pad2_two, <- (js_parse_int_to_string n) by lia. f_equal.
    unfold js_int_to_string. destruct (Z.ltb_spec n 0); [lia |]. by rewrite digits10_two by lia.
Qed.

Lemma no_char_pad2 n :
  0 <= n < 100 -> no_char ":" (js_pad_start (js_int_to_string n) 2 "0") = true.
Proof.
  intros Hn. destruct (Z.ltb_spec n 10).
  - rewrite pad2_one by lia. unfold no_char. cbn. by rewrite digit_char_not_colon by lia.
  - rewrite pad2_two by lia. unfold no_char. cbn.
    rewrite !digit_char_not_colon by (zdiv_elim; lia). done.
Qed.
