(* ===== verification/EcmaDate.v ===== *)
(** * The JavaScript [Date] object, as far as the program uses it

    ECMA-262 (section 21.4.1) defines dates by arithmetic on time values
    (milliseconds since 1970-01-01 UTC).  The program only reads the
    calendar fields of dates, so this file works with day numbers
    ([Day(t) = floor(t / msPerDay)]) and writes the standard's functions
    on them: [DayFromYear], [InLeapYear], [YearFromTime] (here
    [YearFromDay]), [MonthFromTime], [DateFromTime], [WeekDay] and
    [MakeDay], which normalises an out-of-range month or day.

    The local time zone is a fixed offset [tz] in minutes east of UTC
    ([LocalTZA / msPerMinute]).  A date built from local fields,
    [new Date(y, m, d)], has local day [MakeDay y m d]; a date parsed from
    the date-only form ["YYYY-MM-DD"] is UTC midnight of that day
    (21.4.3.2, 21.4.1.32), whose local day is that day shifted by
    [floor(tz / 1440)].  [setMonth] keeps the day of the month and
    renormalises.

    The theorems: [DayFromYear] grows by [DaysInYear] and is monotone,
    [YearFromDay] is the year containing the day, [MakeDay] and the field
    getters are inverse on valid dates, the length of a month is what
    [new Date(y, m + 1, 0).getDate()] returns, the weekday advances by
    one per day, and the local day of a parsed key is the key's day east
    of UTC and the day before west of it. *)

From S2P Require Import Prelude JsLib.

Open Scope Z_scope.

(** ** Years *)

Definition msPerDay : Z := 86400000.
Definition msPerMinute : Z := 60000.

(** 21.4.1.3: the day number of 1 January of year [y]. *)
Definition DayFromYear (y : Z) : Z :=
  365 * (y - 1970) + (y - 1969) / 4 - (y - 1901) / 100 + (y - 1601) / 400.

(** 21.4.1.3 [DaysInYear] through the leap rule. *)
Definition leap (y : Z) : bool :=
  ((y mod 4 =? 0) && negb (y mod 100 =? 0)) || (y mod 400 =? 0).

(** [InLeapYear] as a number, 0 or 1. *)
Definition leap_z (y : Z) : Z := if leap y then 1 else 0.

Definition DaysInYear (y : Z) : Z := 365 + leap_z y.

(** A first guess of the year of day [d]; [YearFromDay] corrects it by
    at most one year (proved below). *)
Definition year_estimate (d : Z) : Z := d * 400 / 146097 + 1970.

(** 21.4.1.3 [YearFromTime]: the largest [y] with [DayFromYear y <= d]. *)
Definition YearFromDay (d : Z) : Z :=
  let y := year_estimate d in
  if DayFromYear (y + 1) <=? d then y + 1
  else if DayFromYear y <=? d then y
  else y - 1.

(** ** Months and days *)

(** Day within the year of the first day of month [m] (0-11); [l] is
    [InLeapYear]. *)
Definition month_start (l m : Z) : Z :=
  if m =? 0 then 0 else if m =? 1 then 31 else if m =? 2 then 59 + l
  else if m =? 3 then 90 + l else if m =? 4 then 120 + l
  else if m =? 5 then 151 + l else if m =? 6 then 181 + l
  else if m =? 7 then 212 + l else if m =? 8 then 243 + l
  else if m =? 9 then 273 + l else if m =? 10 then 304 + l
  else 334 + l.

(** 21.4.1.4 [MonthFromTime] on a day within the year [t]. *)
Definition month_of_day_in_year (l t : Z) : Z :=
  if t <? 31 then 0 else if t <? 59 + l then 1 else if t <? 90 + l then 2
  else if t <? 120 + l then 3 else if t <? 151 + l then 4
  else if t <? 181 + l then 5 else if t <? 212 + l then 6
  else if t <? 243 + l then 7 else if t <? 273 + l then 8
  else if t <? 304 + l then 9 else if t <? 334 + l then 10
  else 11.

Definition DayWithinYear (d : Z) : Z := d - DayFromYear (YearFromDay d).

Definition MonthFromDay (d : Z) : Z :=
  month_of_day_in_year (leap_z (YearFromDay d)) (DayWithinYear d).

(** 21.4.1.5 [DateFromTime]. *)
Definition DateFromDay (d : Z) : Z :=
  DayWithinYear d - month_start (leap_z (YearFromDay d)) (MonthFromDay d) + 1.

(** 21.4.1.6 [WeekDay]: 0 is Sunday; day 0 (1970-01-01) was a Thursday. *)
Definition WeekDay (d : Z) : Z := (d + 4) mod 7.

(** 21.4.1.28 [MakeDay]: the month may be any integer (it carries into
    the year) and so may the day. *)
Definition MakeDay (year month date : Z) : Z :=
  let ym := year + month / 12 in
  let mn := month mod 12 in
  DayFromYear ym + month_start (leap_z ym) mn + date - 1.

(** The reference table: the length of month [m] (0-11) in a year with
    [InLeapYear = l], and in year [y]. *)
Definition month_length (l m : Z) : Z :=
  if m =? 1 then 28 + l
  else if (m =? 3) || (m =? 5) || (m =? 8) || (m =? 10) then 30
  else 31.

Definition days_in_month (y m : Z) : Z := month_length (leap_z y) m.

(** ** Date objects *)

(** The fields the program reads from a date: [getFullYear],
    [getMonth], [getDate], [getDay], all in local time. *)
Record DateFields := {
  df_year : Z;
  df_month : Z;
  df_date : Z;
  df_day : Z
}.

Definition fields_of_day (d : Z) : DateFields :=
  {| df_year := YearFromDay d; df_month := MonthFromDay d;
     df_date := DateFromDay d; df_day := WeekDay d |}.

(** [new Date(y, m, d)]: local fields, so its local day is [MakeDay]. *)
Definition js_new_date (y m d : Z) : Z := MakeDay y m d.

(** [d.setMonth(m)] on the local day [d] (20.4.4.24): keep the year and
    the day of the month, renormalise. *)
Definition js_set_month (d m : Z) : Z := MakeDay (YearFromDay d) m (DateFromDay d).

(** [Day(LocalTime(t))] for [t] midnight UTC of day [D], with the local
    offset [tz] minutes. *)
Definition local_day_of_utc_day (tz D : Z) : Z := (D * msPerDay + tz * msPerMinute) / msPerDay.

(** The date-only form of the Date Time String Format (21.4.1.32):
    exactly [YYYY-MM-DD] with [MM] in 01-12 and [DD] in 01-31, read as
    UTC midnight; anything else is outside the format, which the program
    never produces, and is modelled as an invalid date ([None]). *)
Definition parse_iso_date (s : string) : option Z :=
  match s with
  | String y1 (String y2 (String y3 (String y4 (String s1
      (String m1 (String m2 (String s2 (String d1 (String d2 EmptyString))))))))) =>
      if Ascii.eqb s1 "-" && Ascii.eqb s2 "-" then
        match char_digit 10 y1, char_digit 10 y2, char_digit 10 y3, char_digit 10 y4,
              char_digit 10 m1, char_digit 10 m2, char_digit 10 d1, char_digit 10 d2 with
        | Some a, Some b, Some c, Some e, Some f, Some g, Some h, Some i =>
            let year := a * 1000 + b * 100 + c * 10 + e in
            let month := f * 10 + g in
            let day := h * 10 + i in
            if (1 <=? month) && (month <=? 12) && (1 <=? day) && (day <=? 31)
            then Some (MakeDay year (month - 1) day)
            else None
        | _, _, _, _, _, _, _, _ => None
        end
      else None
  | _ => None
  end.

(** [new Date(key)] for a date key, as a local day ([None]: Invalid
    Date, whose getters return [NaN]). *)
Definition js_date_of_key (tz : Z) (key : string) : option Z :=
  match parse_iso_date key with
  | Some D => Some (local_day_of_utc_day tz D)
  | None => None
  end.

(** ** Years *)

Lemma leap_z_range y : 0 <= leap_z y <= 1.
Proof. unfold leap_z. destruct (leap y); lia. Qed.

(** The leap rule as the divisibility facts [lia] can use. *)
Lemma leap_z_spec y :
  (leap_z y = 1 /\ ((y mod 4 = 0 /\ y mod 100 <> 0) \/ y mod 400 = 0)) \/
  (leap_z y = 0 /\ (y mod 4 <> 0 \/ (y mod 100 = 0 /\ y mod 400 <> 0))).
Proof.
  unfold leap_z, leap.
  destruct (Z.eqb_spec (y mod 4) 0), (Z.eqb_spec (y mod 100) 0), (Z.eqb_spec (y mod 400) 0);
    simpl; lia.
Qed.

Lemma DayFromYear_succ y : DayFromYear (y + 1) = DayFromYear y + DaysInYear y.
Proof.
  unfold DaysInYear, DayFromYear. pose proof (leap_z_spec y).
  replace (y + 1 - 1969) with (y - 1968) by lia.
  replace (y + 1 - 1901) with (y - 1900) by lia.
  replace (y + 1 - 1601) with (y - 1600) by lia.
  zdiv_elim. lia.
Qed.

Lemma DayFromYear_mono a b : a <= b -> DayFromYear a <= DayFromYear b.
Proof. intros Hab. unfold DayFromYear. zdiv_elim. lia. Qed.

Lemma DayFromYear_lt a b : a < b -> DayFromYear a < DayFromYear b.
Proof.
  intros Hab. pose proof (DayFromYear_succ a). pose proof (DayFromYear_mono (a + 1) b).
  pose proof (leap_z_range a). unfold DaysInYear in *. lia.
Qed.

Lemma year_estimate_lo d : DayFromYear (year_estimate d - 1) <= d.
Proof. unfold DayFromYear, year_estimate. zdiv_elim. lia. Qed.

Lemma year_estimate_hi d : d < DayFromYear (year_estimate d + 2).
Proof. unfold DayFromYear, year_estimate. zdiv_elim. lia. Qed.

(** [YearFromDay d] is the year whose days contain [d]. *)
Lemma YearFromDay_spec d :
  DayFromYear (YearFromDay d) <= d < DayFromYear (YearFromDay d + 1).
Proof.
  pose proof (year_estimate_lo d). pose proof (year_estimate_hi d).
  unfold YearFromDay. zcase; replace (year_estimate d - 1 + 1) with (year_estimate d) by lia;
    replace (year_estimate d + 1 + 1) with (year_estimate d + 2) by lia; lia.
Qed.

Lemma YearFromDay_unique y d :
  DayFromYear y <= d < DayFromYear (y + 1) -> YearFromDay d = y.
Proof.
  intros Hd. pose proof (YearFromDay_spec d).
  destruct (Z.lt_trichotomy (YearFromDay d) y) as [Hlt|[Heq|Hgt]]; [|done|].
  - pose proof (DayFromYear_mono (YearFromDay d + 1) y). lia.
  - pose proof (DayFromYear_mono (y + 1) (YearFromDay d)). lia.
Qed.

(** ** Months *)

Lemma leap_z_cases y : leap_z y = 0 \/ leap_z y = 1.
Proof. unfold leap_z. destruct (leap y); auto. Qed.

Lemma month_table l m :
  (l = 0 \/ l = 1) -> 0 <= m < 12 ->
  1 <= month_length l m /\ 0 <= month_start l m /\
  month_start l m + month_length l m <= 365 + l /\
  (m < 11 -> month_start l (m + 1) = month_start l m + month_length l m).
Proof.
  intros Hl Hm. unfold month_start, month_length.
  destruct Hl as [->| ->]; zenum m 0 12; cbv; repeat split; by intros.
Qed.

Lemma month_of_day_in_year_spec l m t :
  (l = 0 \/ l = 1) -> 0 <= m < 12 ->
  month_start l m <= t < month_start l m + month_length l m ->
  month_of_day_in_year l t = m.
Proof.
  intros Hl Hm Ht. unfold month_start, month_length in Ht. unfold month_of_day_in_year.
  destruct Hl as [->| ->]; zenum m 0 12; cbn in Ht; zif; reflexivity.
Qed.

Lemma MakeDay_in_year y m dt :
  0 <= m < 12 -> MakeDay y m dt = DayFromYear y + month_start (leap_z y) m + dt - 1.
Proof. intros Hm. unfold MakeDay. rewrite Z.div_small, Z.mod_small, Z.add_0_r by lia. reflexivity. Qed.

(** [MakeDay] and the getters are inverse on the days of a month. *)
Theorem fields_MakeDay y m dt :
  0 <= m < 12 -> 1 <= dt <= days_in_month y m ->
  YearFromDay (MakeDay y m dt) = y /\ MonthFromDay (MakeDay y m dt) = m /\
  DateFromDay (MakeDay y m dt) = dt.
Proof.
  intros Hm Hdt. unfold days_in_month in Hdt.
  pose proof (month_table _ _ (leap_z_cases y) Hm) as (? & ? & ? & _).
  rewrite MakeDay_in_year by done.
  assert (Hy : YearFromDay (DayFromYear y + month_start (leap_z y) m + dt - 1) = y).
  { apply YearFromDay_unique. rewrite DayFromYear_succ. unfold DaysInYear. lia. }
  assert (Hmo : MonthFromDay (DayFromYear y + month_start (leap_z y) m + dt - 1) = m).
  { unfold MonthFromDay, DayWithinYear. rewrite Hy.
    apply month_of_day_in_year_spec; [apply leap_z_cases | done | lia]. }
  split; [done | split; [done |]].
  unfold DateFromDay, DayWithinYear. rewrite Hmo, Hy. lia.
Qed.

(** [MakeDay] carries the month into the year. *)
Lemma MakeDay_norm y m dt : MakeDay y m dt = MakeDay (y + m / 12) (m mod 12) dt.
Proof.
  unfold MakeDay. rewrite (Z.div_small (m mod 12)), Z.mod_mod by (try apply Z.mod_pos_bound; lia).
  by rewrite Z.add_0_r.
Qed.

Lemma MakeDay_shift y m dt k : MakeDay y m (dt + k) = MakeDay y m dt + k.
Proof. unfold MakeDay. lia. Qed.

(** The first day of month [m + 1] follows the last day of month [m]. *)
Lemma MakeDay_next_month y m :
  MakeDay y (m + 1) 1 = MakeDay y m 1 + days_in_month (y + m / 12) (m mod 12).
Proof.
  rewrite (MakeDay_norm y m), (MakeDay_norm y (m + 1)).
  pose proof (Z.mod_pos_bound m 12 ltac:(lia)).
  destruct (Z.eq_dec (m mod 12) 11) as [H11|H11].
  - assert (Hq : (m + 1) / 12 = m / 12 + 1 /\ (m + 1) mod 12 = 0) by (zdiv_elim; lia).
    destruct Hq as [-> ->]. rewrite H11, !MakeDay_in_year by lia.
    replace (y + (m / 12 + 1)) with (y + m / 12 + 1) by lia.
    rewrite DayFromYear_succ. unfold DaysInYear, days_in_month, month_length, month_start.
    simpl. lia.
  - assert (Hq : (m + 1) / 12 = m / 12 /\ (m + 1) mod 12 = m mod 12 + 1) by (zdiv_elim; lia).
    destruct Hq as [-> ->]. rewrite !MakeDay_in_year by lia.
    pose proof (month_table (leap_z (y + m / 12)) (m mod 12) (leap_z_cases _) ltac:(lia))
      as (_ & _ & _ & Hnext).
    unfold days_in_month. rewrite Hnext by lia. lia.
Qed.

(** The length of a month as the program computes it (l. 84 and 87):
    [new Date(y, m + 1, 0)] is the last day of month [m] (carried into
    the year), so its [getDate()] is the month's length. *)
Theorem new_date_day_zero y m :
  fields_of_day (js_new_date y (m + 1) 0) =
  {| df_year := y + m / 12; df_month := m mod 12;
     df_date := days_in_month (y + m / 12) (m mod 12);
     df_day := WeekDay (js_new_date y (m + 1) 0) |}.
Proof.
  unfold js_new_date. replace 0 with (1 + -1) by lia.
  rewrite MakeDay_shift, MakeDay_next_month.
  set (dim := days_in_month (y + m / 12) (m mod 12)).
  replace (MakeDay y m 1 + dim + -1) with (MakeDay y m (1 + (dim - 1))) by (rewrite MakeDay_shift; lia).
  rewrite MakeDay_norm.
  pose proof (Z.mod_pos_bound m 12 ltac:(lia)).
  pose proof (month_table (leap_z (y + m / 12)) (m mod 12) (leap_z_cases _) ltac:(lia)) as (? & _).
  destruct (fields_MakeDay (y + m / 12) (m mod 12) (1 + (dim - 1))) as (Hy & Hm & Hd);
    [lia | unfold dim, days_in_month in *; lia |].
  unfold fields_of_day. rewrite Hy, Hm, Hd. f_equal. lia.
Qed.

(** ** Weekdays and time zones *)

Lemma WeekDay_range d : 0 <= WeekDay d < 7.
Proof. apply Z.mod_pos_bound. lia. Qed.

Lemma WeekDay_succ d : WeekDay (d + 1) = (WeekDay d + 1) mod 7.
Proof. unfold WeekDay. rewrite Z.add_mod_idemp_l by lia. f_equal. lia. Qed.

Lemma WeekDay_add d k : WeekDay (d + k) = (WeekDay d + k) mod 7.
Proof. unfold WeekDay. rewrite Z.add_mod_idemp_l by lia. f_equal. lia. Qed.

(** The local day of UTC midnight of day [D]. *)
Lemma local_day_of_utc_day_eq tz D : local_day_of_utc_day tz D = D + tz / 1440.
Proof. unfold local_day_of_utc_day, msPerDay, msPerMinute. zdiv_elim. lia. Qed.

Lemma local_day_east tz D : 0 <= tz < 1440 -> local_day_of_utc_day tz D = D.
Proof. intros. rewrite local_day_of_utc_day_eq, Z.div_small by lia. lia. Qed.

Lemma local_day_west tz D : -1440 <= tz < 0 -> local_day_of_utc_day tz D = D - 1.
Proof. intros. rewrite local_day_of_utc_day_eq. zdiv_elim. lia. Qed.

(** ** From a day number back to its fields *)

Lemma month_of_day_in_year_bounds l t :
  (l = 0 \/ l = 1) -> 0 <= t < 365 + l ->
  0 <= month_of_day_in_year l t < 12 /\
  month_start l (month_of_day_in_year l t) <= t <
  month_start l (month_of_day_in_year l t) + month_length l (month_of_day_in_year l t).
Proof.
  intros Hl Ht. unfold month_of_day_in_year.
  destruct Hl as [->| ->]; zif_split; cbn; lia.
Qed.

Lemma DayWithinYear_range d : 0 <= DayWithinYear d < DaysInYear (YearFromDay d).
Proof.
  unfold DayWithinYear. pose proof (YearFromDay_spec d).
  rewrite DayFromYear_succ in H. lia.
Qed.

(** The month and date getters of any day are a valid month and day. *)
Lemma fields_of_day_valid d :
  0 <= MonthFromDay d < 12 /\ 1 <= DateFromDay d <= days_in_month (YearFromDay d) (MonthFromDay d).
Proof.
  pose proof (DayWithinYear_range d) as Ht. unfold DaysInYear in Ht.
  destruct (month_of_day_in_year_bounds _ _ (leap_z_cases (YearFromDay d)) Ht) as [Hm Hb].
  unfold DateFromDay, days_in_month, MonthFromDay. lia.
Qed.

(** [MakeDay] of the fields of a day is that day. *)
Theorem MakeDay_fields d : MakeDay (YearFromDay d) (MonthFromDay d) (DateFromDay d) = d.
Proof.
  destruct (fields_of_day_valid d) as [Hm _].
  rewrite MakeDay_in_year by done. unfold DateFromDay, DayWithinYear. lia.
Qed.

Lemma days_in_month_range y m : 28 <= days_in_month y m <= 31.
Proof.
  unfold days_in_month, month_length. pose proof (leap_z_range y).
  destruct (m =? 1); [lia |].
  destruct ((m =? 3) || (m =? 5) || (m =? 8) || (m =? 10)); lia.
Qed.

(** ** Witnesses *)

Lemma fields_MakeDay_witness :
  (0 <= 1 < 12 /\ 1 <= 29 <= days_in_month 2024 1) /\
  (YearFromDay (MakeDay 2024 1 29) = 2024 /\ MonthFromDay (MakeDay 2024 1 29) = 1 /\
   DateFromDay (MakeDay 2024 1 29) = 29).
Proof.
  split; [split; [lia | vm_compute; split; discriminate] |].
  apply fields_MakeDay; [lia | vm_compute; split; discriminate].
Defined.

(** Two days are equal exactly when their fields are. *)
Lemma day_eqb_fields d d' :
  (DateFromDay d =? DateFromDay d') && (MonthFromDay d =? MonthFromDay d') &&
  (YearFromDay d =? YearFromDay d') = (d =? d').
Proof.
  apply eq_iff_eq_true. rewrite !andb_true_iff, !Z.eqb_eq. split.
  - intros [[Hd Hm] Hy]. rewrite <- (MakeDay_fields d), <- (MakeDay_fields d'). congruence.
  - intros ->. auto.
Qed.

(** The fields of the days just before and just after a month. *)
Lemma fields_before_month y m k :
  0 <= m < 12 -> - days_in_month (y + (m - 1) / 12) ((m - 1) mod 12) <= k < 0 ->
  MakeDay y m 1 + k =
  MakeDay (y + (m - 1) / 12) ((m - 1) mod 12) (days_in_month (y + (m - 1) / 12) ((m - 1) mod 12) + k + 1).
Proof.
  intros Hm Hk. pose proof (MakeDay_next_month y (m - 1)) as H.
  replace (m - 1 + 1) with m in H by lia. rewrite H, MakeDay_norm.
  rewrite <- Z.add_assoc, <- MakeDay_shift. f_equal. lia.
Qed.

Lemma fields_after_month y m k :
  0 <= m < 12 -> days_in_month y m <= k ->
  MakeDay y m 1 + k = MakeDay (y + (m + 1) / 12) ((m + 1) mod 12) (k - days_in_month y m + 1).
Proof.
  intros Hm Hk. pose proof (MakeDay_next_month y m) as H.
  rewrite Z.div_small, Z.mod_small, Z.add_0_r in H by lia.
  rewrite <- MakeDay_norm. replace (k - days_in_month y m + 1) with (1 + (k - days_in_month y m)) by lia.
  rewrite MakeDay_shift, H. lia.
Qed.
