(* ===== verification/DateUtil.v ===== *)
(** * Date utilities of [src/script.js]: [formatDate], [convertTo12Hour]

    [formatDate] (l. 50-52) builds the date keys of the task index,
    [`${year}-${String(month).padStart(2,'0')}-${String(day).padStart(2,'0')}`];
    [time24_of_hour] is the slot key of [renderDayView] (l. 196), and
    [convertTo12Hour] (l. 59-65) the slot label.  Both are written over the
    [JsLib] built-ins exactly as the source composes them.

    The theorems: a key built by [formatDate] for a four-digit year is a
    date-only string that [new Date(key)] parses back to the same
    calendar day (the round trip the recurrence tests rely on), the year
    is not padded (keys of years below 1000 are not in the date format),
    and [convertTo12Hour] maps ["HH:mm"] to the 12-hour label with the
    minutes passed through, so that the 24 slots are labelled
    ["12:00 AM"], ["1:00 AM"], ..., ["11:00 PM"]. *)

From S2P Require Import Prelude JsLib EcmaDate.

Open Scope Z_scope.

(** l. 50-52 *)
Definition formatDate (year month day : Z) : string :=
  js_int_to_string year +++ "-" +++
  js_pad_start (js_int_to_string month) 2 "0" +++ "-" +++
  js_pad_start (js_int_to_string day) 2 "0".

(** l. 196: [`${String(hour).padStart(2, '0')}:00`] *)
Definition time24_of_hour (hour : Z) : string :=
  js_pad_start (js_int_to_string hour) 2 "0" +++ ":00".

(** l. 59-65.  [const [hourStr, minute] = time24.split(':')] reads the
    first two parts ([undefined] when absent); [parseInt] may give
    [NaN], for which [hour >= 12] is false and [NaN % 12 || 12] is 12. *)
Definition convertTo12Hour (time24 : string) : string :=
  let parts := js_split ":" time24 in
  let hourStr := parts !! 0%nat in
  let minute := parts !! 1%nat in
  let hour := js_parse_int (js_string_of_opt hourStr) in
  let ampm := match hour with
              | Some h => if 12 <=? h then "PM" else "AM"
              | None => "AM"
              end in
  let hour12 := js_or_num (option_map (fun h => js_rem h 12) hour) 12 in
  js_int_to_string hour12 +++ ":" +++ js_string_of_opt minute +++ " " +++ ampm.

(** ** [formatDate] and the date parser *)

Lemma char_digit_0 : char_digit 10 "0" = Some 0.
Proof. reflexivity. Qed.

(** The two-character field [String(n).padStart(2, '0')] as two digits. *)
Lemma pad2_digits n :
  0 <= n < 100 ->
  js_pad_start (js_int_to_string n) 2 "0" =
  String (digit_char (n / 10)) (String (digit_char (n mod 10)) "").
Proof.
  intros Hn. destruct (Z.ltb_spec n 10).
  - rewrite pad2_one by lia. rewrite Z.div_small, Z.mod_small by lia. reflexivity.
  - apply pad2_two. lia.
Qed.

Lemma digits2_value n : n / 10 * 10 + n mod 10 = n.
Proof. zdiv_elim. lia. Qed.

Lemma digits4_value n :
  n / 10 / 10 / 10 * 1000 + n / 10 / 10 mod 10 * 100 + n / 10 mod 10 * 10 + n mod 10 = n.
Proof. zdiv_elim. lia. Qed.

Lemma formatDate_parse_lemma y m d :
  1000 <= y < 10000 -> 1 <= m <= 12 -> 1 <= d <= 31 ->
  parse_iso_date (formatDate y m d) = Some (MakeDay y (m - 1) d).
Proof.
  intros Hy Hm Hd. unfold formatDate.
  rewrite int_to_string_four, !pad2_digits by lia.
  autorewrite with calendar_rw. cbn [parse_iso_date Ascii.eqb andb Bool.eqb].
  rewrite !char_digit_digit_char by (zdiv_elim; lia).
  rewrite !digits2_value, digits4_value. zif. reflexivity.
Qed.

(** [C25] Round trip: a key built by [formatDate] from a four-digit year, a
    month 1-12 and a day 1-31 is in the date-only format, and
    [new Date(key)] is UTC midnight of [MakeDay year (month - 1) day]. *)
Theorem formatDate_parse y m d :
  1000 <= y < 10000 -> 1 <= m <= 12 -> 1 <= d <= 31 ->
  parse_iso_date (formatDate y m d) = Some (MakeDay y (m - 1) d).
Proof. exact (formatDate_parse_lemma y m d). Qed.

(** [C35] The year is not padded: the key of a year below 1000 has fewer than
    four year digits and is outside the date format (spec section 4.1
    promises [YYYY-MM-DD]). *)
Theorem formatDate_short_year y m d :
  0 <= y < 1000 -> 1 <= m <= 12 -> 1 <= d <= 31 ->
  parse_iso_date (formatDate y m d) = None.
Proof.
  intros Hy Hm Hd. unfold formatDate. rewrite !pad2_digits by lia.
  unfold js_int_to_string. destruct (Z.ltb_spec y 0); [lia |].
  destruct (Z.ltb_spec y 10); [rewrite digits10_one by lia |].
  2: destruct (Z.ltb_spec y 100); [rewrite digits10_two by lia | rewrite digits10_three by lia].
  all: reflexivity.
Qed.

(** ** [convertTo12Hour] *)

(** [C34] On a key ["HH:mm"] with [0 <= HH < 100], [convertTo12Hour] gives
    [h % 12 || 12], the minutes unchanged, and [PM] from hour 12 on. *)
Theorem convertTo12Hour_spec h mm :
  0 <= h < 100 -> no_char ":" mm = true ->
  convertTo12Hour (js_pad_start (js_int_to_string h) 2 "0" +++ String ":" mm) =
  js_int_to_string (if h mod 12 =? 0 then 12 else h mod 12) +++ ":" +++ mm +++ " " +++
  (if 12 <=? h then "PM" else "AM").
Proof.
  intros Hh Hmm. unfold convertTo12Hour.
  rewrite js_split_app by (by apply no_char_pad2). rewrite js_split_none by done.
  cbn [lookup list_lookup js_string_of_opt].
  rewrite js_parse_int_pad2 by done. cbn [option_map js_or_num].
  unfold js_rem. rewrite Z.rem_mod_nonneg by lia. reflexivity.
Qed.

Lemma formatDate_nonempty y m d : formatDate y m d <> ""%string.
Proof. unfold formatDate. by destruct (js_int_to_string y). Qed.

(** ** Witnesses *)

Lemma formatDate_parse_witness :
  (1000 <= 2024 < 10000 /\ 1 <= 3 <= 12 /\ 1 <= 5 <= 31) /\
  parse_iso_date (formatDate 2024 3 5) = Some (MakeDay 2024 (3 - 1) 5).
Proof. split; [lia | apply formatDate_parse; lia]. Defined.

Lemma formatDate_short_year_witness :
  (0 <= 999 < 1000 /\ 1 <= 1 <= 12 /\ 1 <= 5 <= 31) /\
  parse_iso_date (formatDate 999 1 5) = None.
Proof. split; [lia | apply formatDate_short_year; lia]. Defined.

Lemma convertTo12Hour_spec_witness :
  (0 <= 13 < 100 /\ no_char ":" "00" = true) /\
  convertTo12Hour (js_pad_start (js_int_to_string 13) 2 "0" +++ String ":" "00") =
  js_int_to_string (if 13 mod 12 =? 0 then 12 else 13 mod 12) +++ ":" +++ "00" +++ " " +++
  (if 12 <=? 13 then "PM" else "AM").
Proof. split; [split; [lia | reflexivity] | apply convertTo12Hour_spec; [lia | reflexivity]]. Defined.
