(* ===== verification/TaskStore.v ===== *)
(** * The task store of [src/script.js]

    The program keeps two globals (l. 32 and 35): [tasks], a plain object
    from date keys to objects from hour keys to arrays of [{desc}], and
    [recurringTasks], an array of rule objects
    [{dayOfWeek, time, desc, repeat: 'weekly'}] or
    [{month, day, time, desc, repeat: 'yearly'}].  Here [tasks] is a
    [gmap] of [gmap]s of lists (the program only reads its keys through
    lookups and [Object.keys(..).length]), and a rule is a record with
    the fields of the stored object, a numeric field being [None] when it
    is absent or [NaN].

    Operations, one per piece of the source:
    - [add_one_time] (l. 324-332): the [repeat === 'none'] branch of
      [addTask], which creates the path and pushes the entry;
    - [weekly_rule], [yearly_rule] (l. 335-353): the rules [addTask]
      pushes, with the weekday / month / day read from [new Date(date)];
    - [addTask] (l. 315-357): the whole mutation of the handler, guard
      and dispatch on the repeat mode included;
    - [deleteTask] (l. 370-378): [splice(index, 1)] on the slot, then the
      pruning of an empty slot and of an empty date;
    - [deleteRecurringTask] (l. 389-391): a bounds-checked [splice].

    Theorems: the pruning invariant [tasks_wf] of spec section 3 holds
    after every operation; the index is determined by its contents on
    well-formed stores (so the pruning makes equality semantic); adding
    an entry and deleting it again restores the store; [deleteTask]
    ignores indices past the end but counts negative ones from the end
    of the slot; [deleteRecurringTask] removes exactly the indexed rule
    in range and nothing otherwise. *)

From S2P Require Import Prelude JsLib EcmaDate DateUtil.

(** ** Data *)

(** [{ desc: desc }] (l. 332) *)
Record Task := mkTask { desc : string }.

(** The rule objects of l. 336-341 and 347-353, with the fields a
    stored object may carry. *)
Record Recurring := mkRecurring {
  r_repeat : string;
  r_dayOfWeek : option Z;
  r_month : option Z;
  r_day : option Z;
  r_time : string;
  r_desc : string
}.

#[export] Instance Task_eq_dec : EqDecision Task.
Proof. solve_decision. Defined.

#[export] Instance Recurring_eq_dec : EqDecision Recurring.
Proof. solve_decision. Defined.

(** [tasks]: date key -> hour key -> entries in insertion order. *)
Abbreviation TaskIndex := (gmap string (gmap string (list Task))).

(** The two collections the handlers mutate. *)
Record Store := mkStore {
  tasks : TaskIndex;
  recurringTasks : list Recurring
}.

(** ** Operations *)

(** l. 324-332: [if (!tasks[d]) tasks[d] = {}; if (!tasks[d][t])
    tasks[d][t] = []; tasks[d][t].push({desc})].  An existing object or
    array is truthy even when empty, so it is kept. *)
Definition add_one_time (date time : string) (d : string) (ts : TaskIndex) : TaskIndex :=
  let day := default ∅ (ts !! date) in
  let slot := default [] (day !! time) in
  <[date := <[time := slot ++ [mkTask d]]> day]> ts.

(** l. 335-341: the weekday of [new Date(selectedDate)]. *)
Definition weekly_rule (tz : Z) (date time d : string) : Recurring :=
  {| r_repeat := "weekly"; r_dayOfWeek := option_map WeekDay (js_date_of_key tz date);
     r_month := None; r_day := None; r_time := time; r_desc := d |}.

(** l. 344-353: [getMonth() + 1] and [getDate()] of [new Date(selectedDate)]. *)
Definition yearly_rule (tz : Z) (date time d : string) : Recurring :=
  let dt := js_date_of_key tz date in
  {| r_repeat := "yearly"; r_dayOfWeek := None;
     r_month := option_map (fun x => MonthFromDay x + 1) dt;
     r_day := option_map DateFromDay dt; r_time := time; r_desc := d |}.

(** [!s] on a string that may be [null]: [null] and [""] are falsy. *)
Definition js_falsy_str (s : option string) : bool :=
  match s with
  | Some v => String.eqb v ""
  | None => true
  end.

(** l. 315-357, the state change of [addTask]: the guard on the selected
    date and time (l. 320), then the dispatch on the repeat mode; a mode
    other than the three changes nothing.  [d] is the trimmed
    description (l. 317). *)
Definition addTask (tz : Z) (selectedDate selectedTime : option string)
    (d repeat : string) (st : Store) : Store :=
  if js_falsy_str selectedDate || js_falsy_str selectedTime then st
  else
    let date := default "" selectedDate in
    let time := default "" selectedTime in
    if String.eqb repeat "none" then
      {| tasks := add_one_time date time d (tasks st); recurringTasks := recurringTasks st |}
    else if String.eqb repeat "weekly" then
      {| tasks := tasks st; recurringTasks := recurringTasks st ++ [weekly_rule tz date time d] |}
    else if String.eqb repeat "yearly" then
      {| tasks := tasks st; recurringTasks := recurringTasks st ++ [yearly_rule tz date time d] |}
    else st.

(** l. 370-378: splice the slot, drop it when it becomes empty, drop the
    date when it has no slot left.  Nothing happens when the date or the
    slot is absent. *)
Definition deleteTask (date time : string) (index : Z) (ts : TaskIndex) : TaskIndex :=
  match ts !! date with
  | Some day =>
      match day !! time with
      | Some slot =>
          let slot' := js_splice1 index slot in
          let day' := match slot' with
                      | [] => delete time day
                      | _ => <[time := slot']> day
                      end in
          if decide (day' = ∅) then delete date ts else <[date := day']> ts
      | None => ts
      end
  | None => ts
  end.

(** l. 389-391 *)
Definition deleteRecurringTask (index : Z) (rs : list Recurring) : list Recurring :=
  if (0 <=? index)%Z && (index <? Z.of_nat (length rs))%Z then js_splice1 index rs else rs.

(** ** The invariant of spec section 3 *)

(** No empty slot array and no empty date object. *)
Definition tasks_wf (ts : TaskIndex) : Prop :=
  map_Forall (fun _ day => day <> ∅ /\ map_Forall (fun _ slot => slot <> []) day) ts.

#[export] Instance tasks_wf_dec ts : Decision (tasks_wf ts).
Proof. unfold tasks_wf. apply _. Defined.

(** The abstract view: the entries of a slot, [[]] when absent. *)
Definition slot_of (ts : TaskIndex) (date time : string) : list Task :=
  default [] (ts !! date ≫= lookup time).

(** ** The invariant is preserved *)

Lemma add_one_time_wf date time d ts :
  tasks_wf ts -> tasks_wf (add_one_time date time d ts).
Proof.
  intros Hwf. unfold add_one_time. apply map_Forall_insert_2; [split | done].
  - apply insert_non_empty.
  - apply map_Forall_insert_2; [by destruct (default [] _) |].
    destruct (ts !! date) as [day|] eqn:E; simpl; [| apply map_Forall_empty].
    by apply (Hwf date day E).
Qed.

Lemma deleteTask_wf_lemma date time i ts :
  tasks_wf ts -> tasks_wf (deleteTask date time i ts).
Proof.
  intros Hwf. unfold deleteTask.
  destruct (ts !! date) as [day|] eqn:Ed; [| done].
  destruct (day !! time) as [slot|] eqn:Et; [| done].
  destruct (Hwf date day Ed) as [_ Hday].
  case_decide as Hemp; [by apply map_Forall_delete |].
  apply map_Forall_insert_2; [split; [done |] | done].
  destruct (js_splice1 i slot) as [|x xs].
  - by apply map_Forall_delete.
  - by apply map_Forall_insert_2.
Qed.

(** [C8] deleteTask keeps the pruning invariant: no empty slot array and
    no empty date object. *)
Lemma deleteTask_wf date time i ts :
  tasks_wf ts -> tasks_wf (deleteTask date time i ts).
Proof. exact (deleteTask_wf_lemma date time i ts). Qed.

Lemma addTask_wf_lemma tz sd stime d repeat st :
  tasks_wf (tasks st) -> tasks_wf (tasks (addTask tz sd stime d repeat st)).
Proof.
  intros Hwf. unfold addTask.
  destruct (js_falsy_str sd || js_falsy_str stime); [done |].
  destruct (String.eqb repeat "none"); [by apply add_one_time_wf |].
  destruct (String.eqb repeat "weekly"); [done |].
  by destruct (String.eqb repeat "yearly").
Qed.

(** [C9] addTask keeps the pruning invariant of the one-time index. *)
Lemma addTask_wf tz sd stime d repeat st :
  tasks_wf (tasks st) -> tasks_wf (tasks (addTask tz sd stime d repeat st)).
Proof. exact (addTask_wf_lemma tz sd stime d repeat st). Qed.

(** ** The abstract view of a slot *)

Lemma slot_of_wf ts date day time slot :
  tasks_wf ts -> ts !! date = Some day -> day !! time = Some slot ->
  slot_of ts date time = slot /\ slot <> [].
Proof.
  intros Hwf Ed Et. unfold slot_of. rewrite Ed. simpl. rewrite Et.
  split; [done |]. exact (proj2 (Hwf date day Ed) time slot Et).
Qed.

Lemma slot_of_add_one_time_lemma date time d ts date' time' :
  slot_of (add_one_time date time d ts) date' time' =
  if decide (date' = date /\ time' = time) then slot_of ts date time ++ [mkTask d]
  else slot_of ts date' time'.
Proof.
  unfold slot_of, add_one_time.
  destruct (decide (date' = date)) as [->|Hd].
  - rewrite lookup_insert_eq. simpl.
    destruct (decide (time' = time)) as [->|Ht].
    + rewrite decide_True, lookup_insert_eq by done.
      destruct (ts !! date) as [day|]; simpl; [destruct (day !! time)|]; done.
    + rewrite decide_False, lookup_insert_ne by naive_solver.
      by destruct (ts !! date).
  - rewrite decide_False, lookup_insert_ne by naive_solver. done.
Qed.

(** The two updates [deleteTask] makes, read back. *)
Lemma lookup_set_slot {V} (m : gmap string (list V)) k (s : list V) k' :
  (match s with [] => delete k m | _ => <[k := s]> m end) !! k' =
  if decide (k' = k) then (match s with [] => None | _ => Some s end) else m !! k'.
Proof.
  destruct s; case_decide; subst;
    [apply lookup_delete_eq | by apply lookup_delete_ne | apply lookup_insert_eq | by apply lookup_insert_ne].
Qed.

Lemma lookup_set_day (ts : TaskIndex) d m d' :
  (if decide (m = ∅) then delete d ts else <[d := m]> ts) !! d' =
  if decide (d' = d) then (if decide (m = ∅) then None else Some m) else ts !! d'.
Proof.
  do 2 case_decide; subst;
    [apply lookup_delete_eq | by apply lookup_delete_ne | apply lookup_insert_eq | by apply lookup_insert_ne].
Qed.

Lemma bind_nonempty_lookup (m : gmap string (list Task)) k :
  (if decide (m = ∅) then None else Some m) ≫= lookup k = m !! k.
Proof. case_decide; subst; [by rewrite lookup_empty | done]. Qed.

Lemma slot_of_deleteTask_lemma date time i ts date' time' :
  slot_of (deleteTask date time i ts) date' time' =
  if decide (date' = date /\ time' = time) then js_splice1 i (slot_of ts date time)
  else slot_of ts date' time'.
Proof.
  unfold deleteTask, slot_of.
  destruct (ts !! date) as [day|] eqn:Ed;
    [| case_decide as H; [destruct H as [-> ->]; rewrite Ed; symmetry; apply js_splice1_nil | done]].
  destruct (day !! time) as [slot|] eqn:Et;
    [| case_decide as H;
       [destruct H as [-> ->]; rewrite Ed; simpl; rewrite Et; symmetry; apply js_splice1_nil | done]].
  rewrite lookup_set_day. destruct (decide (date' = date)) as [->|Hd].
  - rewrite bind_nonempty_lookup, lookup_set_slot, Ed. simpl. rewrite Et.
    destruct (decide (time' = time)) as [->|Ht].
    + rewrite !decide_True by naive_solver. change (default [] (Some slot)) with slot.
      by destruct (js_splice1 i slot).
    + rewrite !decide_False by naive_solver. done.
  - rewrite decide_False by naive_solver. done.
Qed.

(** [C16] [deleteTask] splices the one slot it names, whatever the index:
    pruning an emptied slot or date does not change the view. *)
Lemma slot_of_deleteTask date time i ts date' time' :
  slot_of (deleteTask date time i ts) date' time' =
  if decide (date' = date /\ time' = time) then js_splice1 i (slot_of ts date time)
  else slot_of ts date' time'.
Proof. exact (slot_of_deleteTask_lemma date time i ts date' time'). Qed.

(** ** The index is determined by its slots *)

Lemma slot_of_None ts date time :
  ts !! date = None -> slot_of ts date time = [].
Proof. intros E. unfold slot_of. by rewrite E. Qed.

(** A well-formed date object has a non-empty slot. *)
Lemma wf_day_witness ts date day :
  tasks_wf ts -> ts !! date = Some day -> exists time, slot_of ts date time <> [].
Proof.
  intros Hwf Ed.
  destruct (map_choose day) as (time & slot & Et); [exact (proj1 (Hwf date day Ed)) |].
  exists time. by destruct (slot_of_wf ts date day time slot Hwf Ed Et) as [-> ?].
Qed.

Lemma tasks_wf_ext_lemma ts1 ts2 :
  tasks_wf ts1 -> tasks_wf ts2 ->
  (forall date time, slot_of ts1 date time = slot_of ts2 date time) -> ts1 = ts2.
Proof.
  intros Hwf1 Hwf2 Hslot. apply map_eq. intros date.
  destruct (ts1 !! date) as [day1|] eqn:E1, (ts2 !! date) as [day2|] eqn:E2.
  - f_equal. apply map_eq. intros time. specialize (Hslot date time).
    destruct (day1 !! time) as [s1|] eqn:F1, (day2 !! time) as [s2|] eqn:F2.
    + rewrite (proj1 (slot_of_wf _ _ _ _ _ Hwf1 E1 F1)),
              (proj1 (slot_of_wf _ _ _ _ _ Hwf2 E2 F2)) in Hslot. by subst.
    + destruct (slot_of_wf _ _ _ _ _ Hwf1 E1 F1) as [Hs1 Hne].
      rewrite Hs1 in Hslot. unfold slot_of in Hslot. rewrite E2 in Hslot. simpl in Hslot.
      by rewrite F2 in Hslot.
    + destruct (slot_of_wf _ _ _ _ _ Hwf2 E2 F2) as [Hs2 Hne].
      rewrite Hs2 in Hslot. unfold slot_of in Hslot. rewrite E1 in Hslot. simpl in Hslot.
      by rewrite F1 in Hslot.
    + done.
  - destruct (wf_day_witness _ _ _ Hwf1 E1) as [time Hne].
    by rewrite Hslot, slot_of_None in Hne.
  - destruct (wf_day_witness _ _ _ Hwf2 E2) as [time Hne].
    by rewrite <- Hslot, slot_of_None in Hne.
  - done.
Qed.

(** ** Adding and deleting one-time tasks *)

Lemma add_then_delete_lemma ts date time d :
  tasks_wf ts ->
  deleteTask date time (Z.of_nat (length (slot_of ts date time)))
    (add_one_time date time d ts) = ts.
Proof.
  intros Hwf. apply tasks_wf_ext_lemma; [by apply deleteTask_wf_lemma, add_one_time_wf | done |].
  intros date' time'. rewrite slot_of_deleteTask_lemma, !slot_of_add_one_time_lemma.
  case_decide as H; [| done].
  rewrite decide_True by done. destruct H as [-> ->].
  rewrite js_splice1_app. apply app_nil_r.
Qed.

(** [C15] Deleting the entry just added restores the index (spec section 8:
    [addOneTime] then [deleteOneTime] leaves the date key absent when it
    was absent). *)
Theorem add_then_delete ts date time d :
  tasks_wf ts ->
  deleteTask date time (Z.of_nat (length (slot_of ts date time)))
    (add_one_time date time d ts) = ts.
Proof. exact (add_then_delete_lemma ts date time d). Qed.

(** [C31] An index at or past the end of the slot deletes nothing. *)
Theorem deleteTask_past_end ts date time i :
  tasks_wf ts -> Z.of_nat (length (slot_of ts date time)) <= i ->
  deleteTask date time i ts = ts.
Proof.
  intros Hwf Hi. apply tasks_wf_ext_lemma; [by apply deleteTask_wf_lemma | done |].
  intros date' time'. rewrite slot_of_deleteTask_lemma.
  case_decide as H; [destruct H as [-> ->]; by apply js_splice1_past_end | done].
Qed.

(** [C23] [deleteTask] has no bounds check (unlike [deleteRecurringTask]), and
    [splice] counts a negative index from the end: [deleteTask(d, t, -1)]
    deletes the last entry of the slot instead of nothing. *)
Theorem deleteTask_negative ts date time i :
  - Z.of_nat (length (slot_of ts date time)) <= i < 0 ->
  deleteTask date time i ts =
  deleteTask date time (Z.of_nat (length (slot_of ts date time)) + i) ts.
Proof.
  intros Hi. unfold deleteTask.
  destruct (ts !! date) as [day|] eqn:Ed; [| done].
  destruct (day !! time) as [slot|] eqn:Et; [| done].
  assert (Hs : slot_of ts date time = slot) by (unfold slot_of; rewrite Ed; simpl; by rewrite Et).
  rewrite Hs in Hi |- *. by rewrite js_splice1_negative.
Qed.

(** ** Recurring rules *)

(** [C30] [deleteRecurringTask] removes exactly the rule at an index in range
    and leaves the array unchanged otherwise. *)
Theorem deleteRecurringTask_spec i rs :
  deleteRecurringTask i rs =
  if decide (0 <= i < Z.of_nat (length rs))%Z
  then take (Z.to_nat i) rs ++ drop (S (Z.to_nat i)) rs
  else rs.
Proof.
  unfold deleteRecurringTask.
  destruct (Z.leb_spec 0 i), (Z.ltb_spec i (Z.of_nat (length rs))); simpl;
    case_decide; try lia; [by apply js_splice1_in_range | done ..].
Qed.

(** ** [addTask] *)

(** Without a selected date and time the handler changes nothing
    (l. 320). *)
Lemma addTask_unselected tz sd stime d repeat st :
  js_falsy_str sd || js_falsy_str stime = true -> addTask tz sd stime d repeat st = st.
Proof. intros H. unfold addTask. by rewrite H. Qed.

(** With a date and a time selected, the mode ["none"] is [addOneTime]. *)
Lemma addTask_none_eq tz date time d st :
  date <> ""%string -> time <> ""%string ->
  addTask tz (Some date) (Some time) d "none" st =
  {| tasks := add_one_time date time d (tasks st); recurringTasks := recurringTasks st |}.
Proof.
  intros Hd Ht. unfold addTask. simpl.
  by rewrite (proj2 (String.eqb_neq date "")), (proj2 (String.eqb_neq time "")).
Qed.

Lemma addTask_none_lemma tz date time d st date' time' :
  date <> ""%string -> time <> ""%string ->
  recurringTasks (addTask tz (Some date) (Some time) d "none" st) = recurringTasks st /\
  slot_of (tasks (addTask tz (Some date) (Some time) d "none" st)) date' time' =
  if decide (date' = date /\ time' = time) then slot_of (tasks st) date time ++ [mkTask d]
  else slot_of (tasks st) date' time'.
Proof.
  intros Hd Ht. unfold addTask. simpl.
  rewrite (proj2 (String.eqb_neq date "")), (proj2 (String.eqb_neq time "")) by done.
  simpl. split; [done | apply slot_of_add_one_time_lemma].
Qed.

(** [C36] With a selected date and time and the mode ["none"], the entry is
    appended to that one slot and the rules are unchanged. *)
Theorem addTask_none tz date time d st date' time' :
  date <> ""%string -> time <> ""%string ->
  recurringTasks (addTask tz (Some date) (Some time) d "none" st) = recurringTasks st /\
  slot_of (tasks (addTask tz (Some date) (Some time) d "none" st)) date' time' =
  if decide (date' = date /\ time' = time) then slot_of (tasks st) date time ++ [mkTask d]
  else slot_of (tasks st) date' time'.
Proof. exact (addTask_none_lemma tz date time d st date' time'). Qed.

Lemma addTask_recurring_lemma tz date time d st :
  date <> ""%string -> time <> ""%string ->
  addTask tz (Some date) (Some time) d "weekly" st =
    {| tasks := tasks st; recurringTasks := recurringTasks st ++ [weekly_rule tz date time d] |} /\
  addTask tz (Some date) (Some time) d "yearly" st =
    {| tasks := tasks st; recurringTasks := recurringTasks st ++ [yearly_rule tz date time d] |}.
Proof.
  intros Hd Ht. unfold addTask. simpl.
  rewrite (proj2 (String.eqb_neq date "")), (proj2 (String.eqb_neq time "")) by done.
  split; reflexivity.
Qed.

(** With the modes ["weekly"] and ["yearly"], one rule is appended and
    the one-time index is unchanged. *)
Theorem addTask_recurring tz date time d st :
  date <> ""%string -> time <> ""%string ->
  addTask tz (Some date) (Some time) d "weekly" st =
    {| tasks := tasks st; recurringTasks := recurringTasks st ++ [weekly_rule tz date time d] |} /\
  addTask tz (Some date) (Some time) d "yearly" st =
    {| tasks := tasks st; recurringTasks := recurringTasks st ++ [yearly_rule tz date time d] |}.
Proof. exact (addTask_recurring_lemma tz date time d st). Qed.

(** ** Witnesses *)

Definition empty_store : Store := {| tasks := ∅; recurringTasks := [] |}.

(** Two entries in the 09:00 slot of 2024-05-01. *)
Definition two_tasks : TaskIndex :=
  add_one_time "2024-05-01" "09:00" "Lunch" (add_one_time "2024-05-01" "09:00" "Gym" ∅).

Lemma addTask_wf_witness :
  tasks_wf (tasks empty_store) /\
  tasks_wf (tasks (addTask 0 (Some "2024-05-01") (Some "09:00") "Gym" "none" empty_store)).
Proof.
  split; [apply (bool_decide_unpack _); vm_compute; exact I |].
  apply addTask_wf. apply (bool_decide_unpack _). vm_compute. exact I.
Defined.

Lemma deleteTask_wf_witness :
  tasks_wf two_tasks /\ tasks_wf (deleteTask "2024-05-01" "09:00" 0 two_tasks).
Proof.
  split; [apply (bool_decide_unpack _); vm_compute; exact I |].
  apply deleteTask_wf. apply (bool_decide_unpack _). vm_compute. exact I.
Defined.

Lemma add_then_delete_witness :
  tasks_wf ∅ /\
  deleteTask "2024-05-01" "09:00" 0 (add_one_time "2024-05-01" "09:00" "Gym" ∅) = ∅.
Proof.
  split; [apply (bool_decide_unpack _); vm_compute; exact I |].
  exact (add_then_delete ∅ "2024-05-01" "09:00" "Gym"
           ltac:(apply (bool_decide_unpack _); vm_compute; exact I)).
Defined.

Lemma deleteTask_past_end_witness :
  (tasks_wf two_tasks /\ Z.of_nat (length (slot_of two_tasks "2024-05-01" "09:00")) <= 2) /\
  deleteTask "2024-05-01" "09:00" 2 two_tasks = two_tasks.
Proof.
  assert (Hl : length (slot_of two_tasks "2024-05-01" "09:00") = 2%nat) by reflexivity.
  split; [split; [apply (bool_decide_unpack _); vm_compute; exact I | rewrite Hl; lia] |].
  apply deleteTask_past_end; [apply (bool_decide_unpack _); vm_compute; exact I | rewrite Hl; lia].
Defined.

Lemma deleteTask_negative_witness :
  (- Z.of_nat (length (slot_of two_tasks "2024-05-01" "09:00")) <= -1 < 0) /\
  deleteTask "2024-05-01" "09:00" (-1) two_tasks =
  deleteTask "2024-05-01" "09:00" (Z.of_nat (length (slot_of two_tasks "2024-05-01" "09:00")) + -1) two_tasks.
Proof.
  assert (Hl : length (slot_of two_tasks "2024-05-01" "09:00") = 2%nat) by reflexivity.
  split; [rewrite Hl; lia | apply deleteTask_negative; rewrite Hl; lia].
Defined.

(** The effect: [deleteTask(d, t, -1)] removes the last entry. *)
Example deleteTask_minus_one :
  slot_of (deleteTask "2024-05-01" "09:00" (-1) two_tasks) "2024-05-01" "09:00" = [mkTask "Gym"].
Proof. reflexivity. Qed.

Lemma addTask_none_witness :
  ("2024-05-01" <> ""%string /\ "09:00" <> ""%string) /\
  recurringTasks (addTask 0 (Some "2024-05-01") (Some "09:00") "Gym" "none" empty_store) = [] /\
  slot_of (tasks (addTask 0 (Some "2024-05-01") (Some "09:00") "Gym" "none" empty_store))
    "2024-05-01" "09:00" =
  if decide ("2024-05-01" = "2024-05-01" /\ "09:00" = "09:00")%string
  then slot_of (tasks empty_store) "2024-05-01" "09:00" ++ [mkTask "Gym"]
  else slot_of (tasks empty_store) "2024-05-01" "09:00".
Proof. split; [split; discriminate | apply addTask_none; discriminate]. Defined.

Lemma addTask_recurring_witness :
  ("2024-05-07" <> ""%string /\ "10:00" <> ""%string) /\
  addTask 0 (Some "2024-05-07") (Some "10:00") "Standup" "weekly" empty_store =
    {| tasks := ∅; recurringTasks := [weekly_rule 0 "2024-05-07" "10:00" "Standup"] |} /\
  addTask 0 (Some "2024-05-07") (Some "10:00") "Standup" "yearly" empty_store =
    {| tasks := ∅; recurringTasks := [yearly_rule 0 "2024-05-07" "10:00" "Standup"] |}.
Proof. split; [split; discriminate | apply addTask_recurring; discriminate]. Defined.
