(* ===== verification/Recurrence.v ===== *)
(** * Recurrence matching: [hasTasks] and the rule tests of the day view

    [hasTasks(date)] (l. 141-167) says whether the grid marks a day: the
    date has a non-empty one-time object, or some rule matches the
    weekday (weekly) or the month and day (yearly) of [new Date(date)].
    [renderDayView] (l. 233-278) repeats the same tests with the slot's
    time.  [rule_matches] is the test of l. 155-163 and l. 234-257,
    [hasTasks] the whole function, [recurring_at] the rules the day view
    shows in one slot.

    The abstract specification of spec section 4.3 matches a rule against
    the calendar date a key names ([spec_rule_matches]).  The theorems
    relate the two: east of UTC (offset 0 to +23:59) [hasTasks] on a key
    built by [formatDate] is exactly the specification; west of UTC it is
    the specification applied to the day before, because the key is
    parsed as UTC midnight and read in local time.  Rules created by the
    program are read with the same shift, so a rule always matches the
    day it was created on, and a weekly rule every day with the same
    weekday, in every time zone. *)

From S2P Require Import Prelude JsLib EcmaDate DateUtil TaskStore.

Open Scope Z_scope.

(** ** The program *)

(** The fields of [new Date(date)] the tests read: [getDay()],
    [getMonth() + 1], [getDate()]; [NaN] ([None]) for an invalid date. *)
Record KeyFields := {
  kf_dayOfWeek : option Z;
  kf_month : option Z;
  kf_day : option Z
}.

(** l. 148-151 *)
Definition key_fields (tz : Z) (date : string) : KeyFields :=
  let dateObj := js_date_of_key tz date in
  {| kf_dayOfWeek := option_map WeekDay dateObj;
     kf_month := option_map (fun d => MonthFromDay d + 1) dateObj;
     kf_day := option_map DateFromDay dateObj |}.

(** l. 155-163 (and l. 234-235, 255-257): a rule whose [repeat] is
    neither ['weekly'] nor ['yearly'] never matches. *)
Definition rule_matches (r : Recurring) (kf : KeyFields) : bool :=
  if String.eqb (r_repeat r) "weekly" then r_dayOfWeek r === kf_dayOfWeek kf
  else if String.eqb (r_repeat r) "yearly" then
    (r_month r === kf_month kf) && (r_day r === kf_day kf)
  else false.

(** l. 143: [tasks[date] && Object.keys(tasks[date]).length > 0] *)
Definition has_one_time (ts : TaskIndex) (date : string) : bool :=
  match ts !! date with
  | Some day => negb (Nat.eqb (size day) 0)
  | None => false
  end.

(** l. 141-167; the loop returns at the first matching rule. *)
Definition hasTasks (tz : Z) (st : Store) (date : string) : bool :=
  has_one_time (tasks st) date ||
  existsb (fun r => rule_matches r (key_fields tz date)) (recurringTasks st).

(** l. 233-278: the rules shown in slot [time24] of the selected date,
    with their index in [recurringTasks] (the [deleteRecurringTask]
    argument of l. 247 and 269). *)
Definition recurring_at (tz : Z) (rs : list Recurring) (date time24 : string) : list (nat * Recurring) :=
  filter (fun ir => rule_matches ir.2 (key_fields tz date) && String.eqb (r_time ir.2) time24)
    (imap pair rs).

(** ** The specification (spec section 4.3) *)

(** The calendar date a key names, as year, month 1-12 and day. *)
Record CalDate := { c_year : Z; c_month : Z; c_day : Z }.

Definition cal_valid (c : CalDate) : Prop :=
  1000 <= c_year c < 10000 /\ 1 <= c_month c <= 12 /\
  1 <= c_day c <= days_in_month (c_year c) (c_month c - 1).

Definition cal_key (c : CalDate) : string := formatDate (c_year c) (c_month c) (c_day c).

Definition cal_daynum (c : CalDate) : Z := MakeDay (c_year c) (c_month c - 1) (c_day c).

(** The calendar date of a day number. *)
Definition cal_of_day (d : Z) : CalDate :=
  {| c_year := YearFromDay d; c_month := MonthFromDay d + 1; c_day := DateFromDay d |}.

(** Weekly: same weekday; yearly: same month and day. *)
Definition spec_rule_matches (r : Recurring) (c : CalDate) : Prop :=
  (r_repeat r = "weekly"%string /\ r_dayOfWeek r = Some (WeekDay (cal_daynum c))) \/
  (r_repeat r = "yearly"%string /\ r_month r = Some (c_month c) /\ r_day r = Some (c_day c)).

(** [hasAnyTaskOn]: a non-empty slot, or a matching rule. *)
Definition spec_has_task (st : Store) (c : CalDate) : Prop :=
  (exists time, slot_of (tasks st) (cal_key c) time <> []) \/
  Exists (fun r => spec_rule_matches r c) (recurringTasks st).

(** ** Parsing the keys the program builds *)

Definition kf_of_day (d : Z) : KeyFields :=
  {| kf_dayOfWeek := Some (WeekDay d); kf_month := Some (MonthFromDay d + 1);
     kf_day := Some (DateFromDay d) |}.

Lemma cal_valid_dim c : cal_valid c -> days_in_month (c_year c) (c_month c - 1) <= 31.
Proof.
  intros _. apply days_in_month_range.
Qed.

(** [new Date(key)] of a key built by [formatDate] is UTC midnight of
    the key's day, seen in local time. *)
Lemma js_date_of_cal_key tz c :
  cal_valid c -> js_date_of_key tz (cal_key c) = Some (cal_daynum c + tz / 1440).
Proof.
  intros Hc. pose proof (cal_valid_dim c Hc). destruct Hc as (Hy & Hm & Hd).
  unfold js_date_of_key, cal_key. rewrite formatDate_parse_lemma by lia.
  by rewrite local_day_of_utc_day_eq.
Qed.

Lemma key_fields_cal_key tz c :
  cal_valid c -> key_fields tz (cal_key c) = kf_of_day (cal_daynum c + tz / 1440).
Proof. intros Hc. unfold key_fields. by rewrite js_date_of_cal_key. Qed.

Lemma cal_of_daynum c : cal_valid c -> cal_of_day (cal_daynum c) = c.
Proof.
  intros (Hy & Hm & Hd). unfold cal_of_day, cal_daynum.
  destruct (fields_MakeDay (c_year c) (c_month c - 1) (c_day c)) as (-> & -> & ->); [lia | done |].
  destruct c; simpl; f_equal; lia.
Qed.

Lemma cal_daynum_of_day d : cal_daynum (cal_of_day d) = d.
Proof. unfold cal_daynum, cal_of_day. simpl. replace (MonthFromDay d + 1 - 1) with (MonthFromDay d) by lia. apply MakeDay_fields. Qed.

(** ** The rule test against the specification *)

Lemma rule_matches_spec r d :
  rule_matches r (kf_of_day d) = true <-> spec_rule_matches r (cal_of_day d).
Proof.
  unfold rule_matches, spec_rule_matches. rewrite cal_daynum_of_day. simpl.
  destruct (String.eqb_spec (r_repeat r) "weekly") as [Hw|Hw].
  - rewrite js_eq_num_true, Hw. naive_solver.
  - destruct (String.eqb_spec (r_repeat r) "yearly") as [Hy|Hy].
    + rewrite andb_true_iff, !js_eq_num_true. naive_solver.
    + naive_solver.
Qed.

(** Under the invariant, a date object that is present has a non-empty
    slot, so l. 143 tests for a scheduled one-time task. *)
Lemma has_one_time_spec ts date :
  tasks_wf ts -> has_one_time ts date = true <-> exists time, slot_of ts date time <> [].
Proof.
  intros Hwf. unfold has_one_time.
  destruct (ts !! date) as [day|] eqn:Ed.
  - rewrite negb_true_iff, Nat.eqb_neq, map_size_ne_0_lookup. split.
    + intros (time & slot & Et). exists time.
      by destruct (slot_of_wf ts date day time slot Hwf Ed Et) as [-> ?].
    + intros [time Hne]. unfold slot_of in Hne. rewrite Ed in Hne. simpl in Hne.
      destruct (day !! time) as [slot|] eqn:Et; [eauto | done].
  - split; [done | intros [time Hne]; by rewrite slot_of_None in Hne].
Qed.

Lemma hasTasks_spec_lemma tz st c :
  tasks_wf (tasks st) -> cal_valid c ->
  hasTasks tz st (cal_key c) = true <->
  (exists time, slot_of (tasks st) (cal_key c) time <> []) \/
  Exists (fun r => spec_rule_matches r (cal_of_day (cal_daynum c + tz / 1440))) (recurringTasks st).
Proof.
  intros Hwf Hc. unfold hasTasks. rewrite orb_true_iff, has_one_time_spec by done.
  pose proof (key_fields_cal_key tz c Hc) as Hk.
  rewrite existsb_exists, List.Exists_exists. setoid_rewrite Hk.
  setoid_rewrite rule_matches_spec. done.
Qed.

(** [C2] [hasTasks] on a key of the grid: a non-empty slot, or a rule matching
    the calendar date of UTC midnight of the key in local time. *)
Theorem hasTasks_spec tz st c :
  tasks_wf (tasks st) -> cal_valid c ->
  hasTasks tz st (cal_key c) = true <->
  (exists time, slot_of (tasks st) (cal_key c) time <> []) \/
  Exists (fun r => spec_rule_matches r (cal_of_day (cal_daynum c + tz / 1440))) (recurringTasks st).
Proof. exact (hasTasks_spec_lemma tz st c). Qed.

(** ** East and west of UTC *)

(** [C32] East of UTC (offsets 0 to +23:59), [hasTasks] is the specification of
    spec section 4.3. *)
Theorem hasTasks_east tz st c :
  0 <= tz < 1440 -> tasks_wf (tasks st) -> cal_valid c ->
  hasTasks tz st (cal_key c) = true <-> spec_has_task st c.
Proof.
  intros Htz Hwf Hc. rewrite hasTasks_spec_lemma by done.
  rewrite Z.div_small, Z.add_0_r, cal_of_daynum by done. done.
Qed.

(** [C17] West of UTC (offsets -24:00 to -00:01), the recurrence part of
    [hasTasks] tests the day before the key: the key is UTC midnight,
    which is the previous evening in local time. *)
Theorem hasTasks_west tz st c :
  -1440 <= tz < 0 -> tasks_wf (tasks st) -> cal_valid c ->
  hasTasks tz st (cal_key c) = true <->
  (exists time, slot_of (tasks st) (cal_key c) time <> []) \/
  Exists (fun r => spec_rule_matches r (cal_of_day (cal_daynum c - 1))) (recurringTasks st).
Proof.
  intros Htz Hwf Hc. rewrite hasTasks_spec_lemma by done.
  replace (tz / 1440) with (-1) by (zdiv_elim; lia). done.
Qed.

Lemma weekly_rule_recurs_lemma tz c c' time d :
  cal_valid c -> cal_valid c' ->
  rule_matches (weekly_rule tz (cal_key c) time d) (key_fields tz (cal_key c')) =
  Z.eqb (WeekDay (cal_daynum c)) (WeekDay (cal_daynum c')).
Proof.
  intros Hc Hc'. rewrite key_fields_cal_key by done.
  unfold weekly_rule, rule_matches. simpl. rewrite js_date_of_cal_key by done. simpl.
  unfold WeekDay. apply eq_iff_eq_true. rewrite !Z.eqb_eq. zdiv_elim. lia.
Qed.

(** East of UTC the day a key names is the day itself. *)
Lemma js_date_of_cal_key_east tz c :
  0 <= tz < 1440 -> cal_valid c -> js_date_of_key tz (cal_key c) = Some (cal_daynum c).
Proof.
  intros Htz Hc. rewrite js_date_of_cal_key by done. f_equal.
  assert (Hz : tz / 1440 = 0) by (apply Z.div_small; lia). lia.
Qed.

Lemma month_day_of_daynum c :
  cal_valid c -> MonthFromDay (cal_daynum c) + 1 = c_month c /\ DateFromDay (cal_daynum c) = c_day c.
Proof.
  intros Hc. pose proof (cal_of_daynum c Hc) as H. unfold cal_of_day in H.
  destruct c as [y m d]. injection H as _ Hm Hd. split; [exact Hm | exact Hd].
Qed.

(** East of UTC a yearly rule created on one day matches exactly the
    days with the same month and day. *)
Lemma yearly_rule_recurs_east tz c c' time d :
  0 <= tz < 1440 -> cal_valid c -> cal_valid c' ->
  rule_matches (yearly_rule tz (cal_key c) time d) (key_fields tz (cal_key c')) =
  (c_month c =? c_month c') && (c_day c =? c_day c').
Proof.
  intros Htz Hc Hc'. unfold rule_matches, key_fields, yearly_rule.
  rewrite !js_date_of_cal_key_east by done. cbn [r_repeat r_month r_day kf_month kf_day option_map].
  destruct (month_day_of_daynum c Hc) as [-> ->].
  destruct (month_day_of_daynum c' Hc') as [-> ->]. reflexivity.
Qed.

(** [C33] The shift is the same when a rule is created and when it is tested,
    so a weekly rule created on one day matches exactly the days with the
    same weekday, in every time zone. *)
Theorem weekly_rule_recurs tz c c' time d :
  cal_valid c -> cal_valid c' ->
  rule_matches (weekly_rule tz (cal_key c) time d) (key_fields tz (cal_key c')) =
  Z.eqb (WeekDay (cal_daynum c)) (WeekDay (cal_daynum c')).
Proof. exact (weekly_rule_recurs_lemma tz c c' time d). Qed.

(** [C27] A task added on a day of the grid marks that day, whatever the mode
    and the time zone. *)
Theorem addTask_marks_day tz st c time d mode :
  tasks_wf (tasks st) -> cal_valid c -> time <> ""%string ->
  mode = "none"%string \/ mode = "weekly"%string \/ mode = "yearly"%string ->
  hasTasks tz (addTask tz (Some (cal_key c)) (Some time) d mode st) (cal_key c) = true.
Proof.
  intros Hwf Hc Ht Hmode. pose proof (formatDate_nonempty (c_year c) (c_month c) (c_day c)) as Hk.
  fold (cal_key c) in Hk.
  destruct Hmode as [-> | [-> | ->]].
  - apply hasTasks_spec_lemma; [by apply addTask_wf_lemma | done |]. left. exists time.
    destruct (addTask_none_lemma tz (cal_key c) time d st (cal_key c) time Hk Ht) as [_ ->].
    rewrite decide_True by done. by destruct (slot_of _ _ _).
  - destruct (addTask_recurring_lemma tz (cal_key c) time d st Hk Ht) as [-> _].
    unfold hasTasks. simpl. apply orb_true_iff. right.
    apply existsb_exists. exists (weekly_rule tz (cal_key c) time d).
    split; [apply in_or_app; simpl; auto |].
    rewrite weekly_rule_recurs_lemma by done. apply Z.eqb_refl.
  - destruct (addTask_recurring_lemma tz (cal_key c) time d st Hk Ht) as [_ ->].
    unfold hasTasks. simpl. apply orb_true_iff. right.
    apply existsb_exists. exists (yearly_rule tz (cal_key c) time d).
    split; [apply in_or_app; simpl; auto |].
    unfold rule_matches, yearly_rule, key_fields. simpl.
    rewrite js_date_of_cal_key by done. simpl. by rewrite !Z.eqb_refl.
Qed.

(** ** Witnesses and the examples of spec section 8 *)

Definition may1 : CalDate := {| c_year := 2024; c_month := 5; c_day := 1 |}.
Definition may7 : CalDate := {| c_year := 2024; c_month := 5; c_day := 7 |}.
Definition may14 : CalDate := {| c_year := 2024; c_month := 5; c_day := 14 |}.

Definition standup : Recurring := mkRecurring "weekly" (Some 1) None None "10:00" "Standup".
Definition xmas : Recurring := mkRecurring "yearly" None (Some 12) (Some 25) "10:00" "Xmas".

Definition gym_store : Store :=
  {| tasks := add_one_time "2024-05-01" "09:00" "Gym" ∅; recurringTasks := [standup] |}.

Lemma hasTasks_spec_witness :
  (tasks_wf (tasks gym_store) /\ cal_valid may1) /\
  (hasTasks (-300) gym_store (cal_key may1) = true <->
   (exists time, slot_of (tasks gym_store) (cal_key may1) time <> []) \/
   Exists (fun r => spec_rule_matches r (cal_of_day (cal_daynum may1 + -300 / 1440)))
     (recurringTasks gym_store)).
Proof.
  split; [split; [apply (bool_decide_unpack _); vm_compute; exact I
                 | unfold cal_valid; vm_compute; repeat split; discriminate] |].
  apply hasTasks_spec; [apply (bool_decide_unpack _); vm_compute; exact I
                       | unfold cal_valid; vm_compute; repeat split; discriminate].
Defined.

Lemma hasTasks_east_witness :
  (0 <= 60 < 1440 /\ tasks_wf (tasks gym_store) /\ cal_valid may7) /\
  (hasTasks 60 gym_store (cal_key may7) = true <-> spec_has_task gym_store may7).
Proof.
  split; [split; [lia | split; [apply (bool_decide_unpack _); vm_compute; exact I
                               | unfold cal_valid; vm_compute; repeat split; discriminate]] |].
  apply hasTasks_east; [lia | apply (bool_decide_unpack _); vm_compute; exact I
                       | unfold cal_valid; vm_compute; repeat split; discriminate].
Defined.

Lemma hasTasks_west_witness :
  (-1440 <= -300 < 0 /\ tasks_wf (tasks gym_store) /\ cal_valid may7) /\
  (hasTasks (-300) gym_store (cal_key may7) = true <->
   (exists time, slot_of (tasks gym_store) (cal_key may7) time <> []) \/
   Exists (fun r => spec_rule_matches r (cal_of_day (cal_daynum may7 - 1))) (recurringTasks gym_store)).
Proof.
  split; [split; [lia | split; [apply (bool_decide_unpack _); vm_compute; exact I
                               | unfold cal_valid; vm_compute; repeat split; discriminate]] |].
  apply hasTasks_west; [lia | apply (bool_decide_unpack _); vm_compute; exact I
                       | unfold cal_valid; vm_compute; repeat split; discriminate].
Defined.

Lemma weekly_rule_recurs_witness :
  (cal_valid may7 /\ cal_valid may14) /\
  rule_matches (weekly_rule (-300) (cal_key may7) "10:00" "Standup") (key_fields (-300) (cal_key may14)) =
  Z.eqb (WeekDay (cal_daynum may7)) (WeekDay (cal_daynum may14)).
Proof.
  split; [split; unfold cal_valid; vm_compute; repeat split; discriminate |].
  apply weekly_rule_recurs; unfold cal_valid; vm_compute; repeat split; discriminate.
Defined.

Lemma addTask_marks_day_witness :
  (tasks_wf (tasks empty_store) /\ cal_valid may7 /\ "10:00" <> ""%string /\
   ("yearly" = "none" \/ "yearly" = "weekly" \/ "yearly" = "yearly")%string) /\
  hasTasks (-300) (addTask (-300) (Some (cal_key may7)) (Some "10:00") "Standup" "yearly" empty_store)
    (cal_key may7) = true.
Proof.
  split; [split; [apply (bool_decide_unpack _); vm_compute; exact I |
                  split; [unfold cal_valid; vm_compute; repeat split; discriminate |
                          split; [discriminate | right; right; reflexivity]]] |].
  apply addTask_marks_day; [apply (bool_decide_unpack _); vm_compute; exact I
                           | unfold cal_valid; vm_compute; repeat split; discriminate
                           | discriminate | right; right; reflexivity].
Defined.

(** Spec section 8 says the weekly rule with [dayOfWeek: 1] marks
    2024-05-07 (a Tuesday) and not 2024-05-08; that holds west of UTC
    only (here UTC-5), and east of UTC (here UTC) it is the other way
    round. *)
Example spec_weekly_example :
  hasTasks (-300) {| tasks := ∅; recurringTasks := [standup] |} "2024-05-07" = true /\
  hasTasks (-300) {| tasks := ∅; recurringTasks := [standup] |} "2024-05-08" = false /\
  hasTasks 0 {| tasks := ∅; recurringTasks := [standup] |} "2024-05-07" = false.
Proof. vm_compute. auto. Qed.

(** Spec section 8 says the yearly rule 12/25 marks 2023-12-25 and
    2030-12-25 and not 2024-12-24; that holds east of UTC, and west of
    UTC the rule marks 12/26 instead. *)
Example spec_yearly_example :
  hasTasks 0 {| tasks := ∅; recurringTasks := [xmas] |} "2023-12-25" = true /\
  hasTasks 0 {| tasks := ∅; recurringTasks := [xmas] |} "2030-12-25" = true /\
  hasTasks 0 {| tasks := ∅; recurringTasks := [xmas] |} "2024-12-24" = false /\
  hasTasks (-300) {| tasks := ∅; recurringTasks := [xmas] |} "2023-12-25" = false /\
  hasTasks (-300) {| tasks := ∅; recurringTasks := [xmas] |} "2023-12-26" = true.
Proof. vm_compute. auto 6. Qed.

(** West of UTC a yearly rule created on 1 March of a common year is
    stored as 28 February, so in a leap year it marks 29 February and
    not 1 March. *)
Example yearly_march_first_west :
  let st := addTask (-300) (Some "2023-03-01") (Some "09:00") "Rent" "yearly" empty_store in
  hasTasks (-300) st "2024-03-01" = false /\ hasTasks (-300) st "2024-02-29" = true /\
  hasTasks (-300) st "2025-03-01" = true.
Proof. vm_compute. auto. Qed.
