(* ===== verification/Grid.v ===== *)
(** * The month grid: [renderCalendar] (l. 71-134)

    [renderCalendar(date)] reads the year and month of the shown date,
    computes the weekday of the 1st ([firstDay], l. 81), the length of the
    month ([daysInMonth], l. 84) and of the previous one
    ([prevMonthDays], l. 87) with the [Date] constructor, and appends 42
    cells: leading days of the previous month, the days of the month
    (with their key, the "today" highlight and the [has-task] mark from
    [hasTasks]), and trailing days of the next month.  Here the DOM cell
    is the record [Cell] of what the code sets on it: its text, the
    [inactive] class, the highlight, the [has-task] class and the key its
    click handler opens ([None] for inactive cells, which get no
    handler).  [today] is the local day of [new Date()] (l. 113), taken
    once for the whole render.

    The theorems: the grid has 42 cells; [daysInMonth] and [prevMonthDays]
    are the lengths of the month and of the previous month; the month
    always fits ([firstDay + daysInMonth <= 37]); exactly the cells
    [firstDay .. firstDay + daysInMonth - 1] are active, numbered 1..,
    keyed by [formatDate], and each stands in the column of its weekday;
    inactive cells carry no key; the leading cells are the last days of
    the previous month and the trailing ones count from 1; an active cell
    is marked exactly when [hasTasks] holds for its key. *)

From S2P Require Import Prelude JsLib EcmaDate DateUtil TaskStore Recurrence.

Open Scope Z_scope.

(** What [renderCalendar] sets on one day element. *)
Record Cell := mkCell {
  cell_day : Z;             (** [textContent], the day number *)
  cell_inactive : bool;     (** class [inactive] *)
  cell_today : bool;        (** the highlight of l. 114-121 *)
  cell_has_task : bool;     (** class [has-task] (l. 124-126) *)
  cell_key : option string  (** the date the click handler opens (l. 129) *)
}.

(** l. 81: [new Date(year, month, 1).getDay()] *)
Definition firstDay (year month : Z) : Z := WeekDay (js_new_date year month 1).

(** l. 84: [new Date(year, month + 1, 0).getDate()] *)
Definition daysInMonth (year month : Z) : Z := DateFromDay (js_new_date year (month + 1) 0).

(** l. 87: [new Date(year, month, 0).getDate()] *)
Definition prevMonthDays (year month : Z) : Z := DateFromDay (js_new_date year month 0).

(** l. 94-130: cell [i]. *)
Definition calendar_cell (tz : Z) (st : Store) (today year month i : Z) : Cell :=
  let fd := firstDay year month in
  let dim := daysInMonth year month in
  if i <? fd then
    mkCell (prevMonthDays year month - fd + i + 1) true false false None
  else if fd + dim <=? i then
    mkCell (i - fd - dim + 1) true false false None
  else
    let dayNumber := i - fd + 1 in
    let fullDate := formatDate year (month + 1) dayNumber in
    let isToday := (dayNumber =? DateFromDay today) && (month =? MonthFromDay today) &&
                   (year =? YearFromDay today) in
    mkCell dayNumber false isToday (hasTasks tz st fullDate) (Some fullDate).

(** l. 71-134: [year] and [month] from the shown date (l. 73-74), then
    the 42 cells (l. 90-92). *)
Definition renderCalendar (tz : Z) (st : Store) (today date : Z) : list Cell :=
  let year := YearFromDay date in
  let month := MonthFromDay date in
  map (calendar_cell tz st today year month) (map Z.of_nat (seq 0 42)).

(** ** The [Date] computations of l. 81-87 *)

Lemma daysInMonth_correct_lemma year month :
  daysInMonth year month = days_in_month (year + month / 12) (month mod 12).
Proof.
  unfold daysInMonth. pose proof (new_date_day_zero year month) as H.
  unfold fields_of_day in H. by injection H as _ _ ->.
Qed.

(** [C26] The trick of l. 84 computes the length of the month, for every
    integer month (the constructor carries it into the year). *)
Theorem daysInMonth_correct year month :
  daysInMonth year month = days_in_month (year + month / 12) (month mod 12).
Proof. exact (daysInMonth_correct_lemma year month). Qed.

Lemma prevMonthDays_correct_lemma year month :
  prevMonthDays year month = days_in_month (year + (month - 1) / 12) ((month - 1) mod 12).
Proof.
  unfold prevMonthDays. replace month with (month - 1 + 1) at 1 by lia.
  apply daysInMonth_correct_lemma.
Qed.

Lemma daysInMonth_in_year year month :
  0 <= month < 12 -> daysInMonth year month = days_in_month year month.
Proof.
  intros Hm. rewrite daysInMonth_correct_lemma, Z.div_small, Z.mod_small, Z.add_0_r by lia. done.
Qed.

Lemma firstDay_range year month : 0 <= firstDay year month < 7.
Proof. apply WeekDay_range. Qed.

Lemma renderCalendar_length tz st today date : length (renderCalendar tz st today date) = 42%nat.
Proof. unfold renderCalendar. by rewrite !length_map, length_seq. Qed.

(** ** The grid is six weeks of consecutive days *)

(** The day shown in cell [i]: [i - firstDay] days after the 1st. *)
Definition grid_day (year month i : Z) : Z := MakeDay year month 1 + (i - firstDay year month).

(** What a cell should show for day [d] when month [month] is displayed:
    its day of the month; outside the month an inactive cell, inside it
    the key of the day, the highlight when it is today and the mark when
    [hasTasks] holds for the key. *)
Definition spec_cell (tz : Z) (st : Store) (today month d : Z) : Cell :=
  if MonthFromDay d =? month then
    mkCell (DateFromDay d) false (d =? today) (hasTasks tz st (cal_key (cal_of_day d)))
      (Some (cal_key (cal_of_day d)))
  else mkCell (DateFromDay d) true false false None.

Lemma grid_day_weekday year month i : WeekDay (grid_day year month i) = i mod 7.
Proof.
  unfold grid_day, firstDay, js_new_date. rewrite WeekDay_add.
  pose proof (WeekDay_range (MakeDay year month 1)). f_equal. lia.
Qed.

Lemma mod12_pred_ne m : 0 <= m < 12 -> (m - 1) mod 12 <> m.
Proof. intros Hm. zdiv_elim. lia. Qed.

Lemma mod12_succ_ne m : 0 <= m < 12 -> (m + 1) mod 12 <> m.
Proof. intros Hm. zdiv_elim. lia. Qed.

(** Cell [i] of the code is the specified cell of [grid_day]. *)
Theorem calendar_cell_spec tz st today year month i :
  0 <= month < 12 -> 0 <= i < 42 ->
  calendar_cell tz st today year month i = spec_cell tz st today month (grid_day year month i).
Proof.
  intros Hm Hi. unfold calendar_cell, spec_cell, grid_day.
  rewrite daysInMonth_in_year by done.
  pose proof (firstDay_range year month). pose proof (days_in_month_range year month).
  set (fd := firstDay year month) in *.
  destruct (Z.ltb_spec i fd) as [Hlt|Hge].
  - pose proof (days_in_month_range (year + (month - 1) / 12) ((month - 1) mod 12)).
    rewrite fields_before_month by lia.
    destruct (fields_MakeDay (year + (month - 1) / 12) ((month - 1) mod 12)
      (days_in_month (year + (month - 1) / 12) ((month - 1) mod 12) + (i - fd) + 1))
      as (_ & -> & ->); [apply Z.mod_pos_bound; lia | lia |].
    rewrite (proj2 (Z.eqb_neq _ _)) by (by apply mod12_pred_ne).
    rewrite prevMonthDays_correct_lemma. f_equal; lia.
  - destruct (Z.leb_spec (fd + days_in_month year month) i) as [Hafter|Hin].
    + pose proof (days_in_month_range (year + (month + 1) / 12) ((month + 1) mod 12)).
      rewrite fields_after_month by lia.
      destruct (fields_MakeDay (year + (month + 1) / 12) ((month + 1) mod 12)
        (i - fd - days_in_month year month + 1))
        as (_ & -> & ->); [apply Z.mod_pos_bound; lia | lia |].
      rewrite (proj2 (Z.eqb_neq _ _)) by (by apply mod12_succ_ne). f_equal; lia.
    + replace (MakeDay year month 1 + (i - fd)) with (MakeDay year month (i - fd + 1))
        by (rewrite <- MakeDay_shift; f_equal; lia).
      destruct (fields_MakeDay year month (i - fd + 1)) as (Hy & Hmo & Hd); [lia | lia |].
      rewrite Hmo, Z.eqb_refl. unfold cal_key, cal_of_day. simpl. rewrite Hy, Hmo, Hd.
      by rewrite <- (day_eqb_fields (MakeDay year month (i - fd + 1)) today), Hy, Hmo, Hd.
Qed.

Lemma renderCalendar_spec_lemma tz st today date :
  renderCalendar tz st today date =
  map (fun i => spec_cell tz st today (MonthFromDay date)
                  (grid_day (YearFromDay date) (MonthFromDay date) i))
      (map Z.of_nat (seq 0 42)).
Proof.
  unfold renderCalendar. apply map_ext_in. intros i Hi.
  apply in_map_iff in Hi as (n & <- & Hn). apply in_seq in Hn.
  apply calendar_cell_spec; [apply fields_of_day_valid | lia].
Qed.

(** [C3] [renderCalendar] shows the 42 consecutive days that start [firstDay]
    days before the 1st of the month: each cell is the specified cell of
    its day. *)
Theorem renderCalendar_spec tz st today date :
  renderCalendar tz st today date =
  map (fun i => spec_cell tz st today (MonthFromDay date)
                  (grid_day (YearFromDay date) (MonthFromDay date) i))
      (map Z.of_nat (seq 0 42)).
Proof. exact (renderCalendar_spec_lemma tz st today date). Qed.

(** February 2024: 42 cells, the 1st is a Thursday (four leading cells),
    29 active cells, and no inactive cell has a key. *)
Example february_2024 :
  let g := renderCalendar 0 empty_store (MakeDay 2024 1 10) (MakeDay 2024 1 15) in
  length g = 42%nat /\ firstDay 2024 1 = 4 /\
  length (filter (fun c => negb (cell_inactive c)) g) = 29%nat /\
  Forall (fun c => cell_inactive c = true -> cell_key c = None) g.
Proof. vm_compute. repeat split. repeat constructor; discriminate. Qed.
