(* ===== verification/Agenda.v ===== *)
(** * The day view: [renderDayView] (l. 191-288)

    [renderDayView()] builds 24 hour slots for [selectedDate].  Slot
    [hour] has the key [time24 = HH:00], the label [convertTo12Hour(time24)]
    and a task list: first the one-time tasks [tasks[selectedDate][time24]]
    in array order, each with a delete button calling
    [deleteTask(selectedDate, time24, index)], then every recurring rule
    that matches the date and has [time === time24], in the order of
    [recurringTasks], each with a button calling
    [deleteRecurringTask(index)].  Here a slot is the record [Slot] of
    what the code puts in the DOM, an entry the record [Entry] of its text
    and of the call its delete button makes ([DeleteAction]).

    The theorems: the 24 slots carry the keys and labels of the hours; the
    recurring loop of the view is the test [rule_matches] of [hasTasks]
    (so the grid and the view agree on which rules apply to a date); the
    entries of a slot are the one-time tasks then the matching rules, in
    storage order (spec section 4.4); every delete button names an entry
    that exists, and pressing it removes exactly that task or rule. *)

From S2P Require Import Prelude JsLib EcmaDate DateUtil TaskStore Recurrence.

Open Scope Z_scope.

(** The call a delete button makes (l. 221-224, 245-248, 267-270). *)
Inductive DeleteAction :=
| DelTask (date time : string) (index : nat)
| DelRecurring (index : nat).

(** A [div.task]: its text and its delete button. *)
Record Entry := mkEntry {
  entry_text : string;
  entry_recurring : bool;   (** class [recurring] *)
  entry_delete : DeleteAction
}.

(** A [div.time-slot]: [dataset.time], the label and the task list. *)
Record Slot := mkSlot {
  slot_time : string;
  slot_label : string;
  slot_entries : list Entry
}.

#[export] Instance DeleteAction_eq_dec : EqDecision DeleteAction.
Proof. solve_decision. Defined.
#[export] Instance Entry_eq_dec : EqDecision Entry.
Proof. solve_decision. Defined.

(** [x ? ... : ...] on a description: only [""] is falsy. *)
Definition js_truthy_str (s : string) : bool := negb (String.eqb s "").

(** l. 211-230: the one-time tasks of the slot, guarded by
    [tasks[selectedDate] && tasks[selectedDate][time24]]. *)
Definition one_time_entries (ts : TaskIndex) (selectedDate time24 : string) : list Entry :=
  match ts !! selectedDate ≫= lookup time24 with
  | Some slot =>
      imap (fun index task =>
              mkEntry (if js_truthy_str (desc task) then desc task else "No Description")
                false (DelTask selectedDate time24 index)) slot
  | None => []
  end.

(** l. 233-278: the recurring loop, branch by branch. *)
Definition recurring_entries (tz : Z) (rs : list Recurring) (selectedDate time24 : string)
    : list Entry :=
  omap (fun '(index, recurring) =>
    if String.eqb (r_repeat recurring) "weekly" then
      if r_dayOfWeek recurring === option_map WeekDay (js_date_of_key tz selectedDate) then
        if String.eqb (r_time recurring) time24 then
          Some (mkEntry (if js_truthy_str (r_desc recurring) then r_desc recurring +++ " (Weekly)"
                         else "No Description (Weekly)") true (DelRecurring index))
        else None
      else None
    else if String.eqb (r_repeat recurring) "yearly" then
      let dateObj := js_date_of_key tz selectedDate in
      if (r_month recurring === option_map (fun d => MonthFromDay d + 1) dateObj) &&
         (r_day recurring === option_map DateFromDay dateObj) then
        if String.eqb (r_time recurring) time24 then
          Some (mkEntry (if js_truthy_str (r_desc recurring) then r_desc recurring +++ " (Yearly)"
                         else "No Description (Yearly)") true (DelRecurring index))
        else None
      else None
    else None) (imap pair rs).

(** l. 195-287: slot [hour]: its key (l. 196), label (l. 197) and
    task list. *)
Definition day_slot (tz : Z) (st : Store) (selectedDate : string) (hour : Z) : Slot :=
  let time24 := time24_of_hour hour in
  mkSlot time24 (convertTo12Hour time24)
    (one_time_entries (tasks st) selectedDate time24 ++
     recurring_entries tz (recurringTasks st) selectedDate time24).

(** l. 191-288 *)
Definition renderDayView (tz : Z) (st : Store) (selectedDate : string) : list Slot :=
  map (day_slot tz st selectedDate) (map Z.of_nat (seq 0 24)).

(** ** The entries of a slot as spec section 4.4 describes them *)

(** The text and delete call of a one-time task at position [index]. *)
Definition one_time_entry (date time24 : string) (index : nat) (task : Task) : Entry :=
  mkEntry (if js_truthy_str (desc task) then desc task else "No Description")
    false (DelTask date time24 index).

(** The text and delete call of a matching rule with its index. *)
Definition recurring_entry (ir : nat * Recurring) : Entry :=
  let r := ir.2 in
  let kind := if String.eqb (r_repeat r) "weekly" then " (Weekly)" else " (Yearly)" in
  mkEntry (if js_truthy_str (r_desc r) then r_desc r +++ kind else "No Description" +++ kind)
    true (DelRecurring ir.1).

(** One element of the recurring loop: it shows exactly the rules that
    [recurring_at] selects, with the test [rule_matches] of [hasTasks]. *)
Lemma recurring_step tz date time24 (i : nat) (r : Recurring) :
  (let '(index, recurring) := (i, r) in
   if String.eqb (r_repeat recurring) "weekly" then
     if r_dayOfWeek recurring === option_map WeekDay (js_date_of_key tz date) then
       if String.eqb (r_time recurring) time24 then
         Some (mkEntry (if js_truthy_str (r_desc recurring) then r_desc recurring +++ " (Weekly)"
                        else "No Description (Weekly)") true (DelRecurring index))
       else None
     else None
   else if String.eqb (r_repeat recurring) "yearly" then
     let dateObj := js_date_of_key tz date in
     if (r_month recurring === option_map (fun d => MonthFromDay d + 1) dateObj) &&
        (r_day recurring === option_map DateFromDay dateObj) then
       if String.eqb (r_time recurring) time24 then
         Some (mkEntry (if js_truthy_str (r_desc recurring) then r_desc recurring +++ " (Yearly)"
                        else "No Description (Yearly)") true (DelRecurring index))
       else None
     else None
   else None) =
  if rule_matches r (key_fields tz date) && String.eqb (r_time r) time24
  then Some (recurring_entry (i, r)) else None.
Proof.
  unfold rule_matches, recurring_entry, key_fields. simpl.
  destruct (String.eqb (r_repeat r) "weekly"); [| destruct (String.eqb (r_repeat r) "yearly")];
    simpl; [| | done].
  all: destruct (_ === _); simpl; try destruct (_ === _); simpl; try done.
  all: by destruct (String.eqb (r_time r) time24), (js_truthy_str (r_desc r)).
Qed.

Lemma omap_filter_bool {A B} (p : A -> bool) (g : A -> B) (f : A -> option B) (l : list A) :
  (forall x, f x = if p x then Some (g x) else None) ->
  omap f l = map g (filter p l).
Proof.
  intros Hf. induction l as [|x l IH]; [done |].
  rewrite filter_cons. csimpl. rewrite Hf. by destruct (p x); rewrite IH.
Qed.

Lemma recurring_entries_at_lemma tz rs date time24 :
  recurring_entries tz rs date time24 = map recurring_entry (recurring_at tz rs date time24).
Proof.
  unfold recurring_entries, recurring_at. apply omap_filter_bool.
  intros [i r]. apply recurring_step.
Qed.

(** [C22] The recurring loop of the view is [recurring_at]: the rules that
    [hasTasks] counts, restricted to the slot, in storage order. *)
Theorem recurring_entries_at tz rs date time24 :
  recurring_entries tz rs date time24 = map recurring_entry (recurring_at tz rs date time24).
Proof. exact (recurring_entries_at_lemma tz rs date time24). Qed.

Lemma one_time_entries_slot ts date time24 :
  one_time_entries ts date time24 = imap (one_time_entry date time24) (slot_of ts date time24).
Proof. unfold one_time_entries, slot_of. by destruct (ts !! date ≫= lookup time24). Qed.

Lemma day_slot_entries_lemma tz st date hour :
  slot_entries (day_slot tz st date hour) =
  imap (one_time_entry date (time24_of_hour hour)) (slot_of (tasks st) date (time24_of_hour hour)) ++
  map recurring_entry (recurring_at tz (recurringTasks st) date (time24_of_hour hour)).
Proof. simpl. by rewrite one_time_entries_slot, recurring_entries_at_lemma. Qed.

(** ** The delete buttons *)

Lemma js_splice1_delete {A} (l : list A) (i : nat) :
  (i < length l)%nat -> js_splice1 (Z.of_nat i) l = delete i l.
Proof.
  intros Hi. rewrite js_splice1_in_range by lia. by rewrite Nat2Z.id, delete_take_drop.
Qed.

(** [C10] Spec section 4.4: the entries of slot [hour] are the one-time tasks
    of the slot in array order, each deleted by its position, then the
    matching rules of the hour in storage order, each deleted by its
    index. *)
Theorem day_slot_entries tz st date hour :
  slot_entries (day_slot tz st date hour) =
  imap (one_time_entry date (time24_of_hour hour)) (slot_of (tasks st) date (time24_of_hour hour)) ++
  map recurring_entry (recurring_at tz (recurringTasks st) date (time24_of_hour hour)).
Proof. exact (day_slot_entries_lemma tz st date hour). Qed.

Lemma elem_of_day_slot tz st date hour e :
  e ∈ slot_entries (day_slot tz st date hour) ->
  (exists i task, slot_of (tasks st) date (time24_of_hour hour) !! i = Some task /\
                  e = one_time_entry date (time24_of_hour hour) i task) \/
  (exists i r, (i, r) ∈ recurring_at tz (recurringTasks st) date (time24_of_hour hour) /\
               e = recurring_entry (i, r)).
Proof.
  rewrite day_slot_entries_lemma, elem_of_app, elem_of_lookup_imap, list_elem_of_fmap.
  intros [(i & task & -> & Hl) | ([i r] & -> & Hin)]; [left | right]; eauto.
Qed.

Lemma elem_of_recurring_at tz rs date time24 i r :
  (i, r) ∈ recurring_at tz rs date time24 ->
  rs !! i = Some r /\ rule_matches r (key_fields tz date) = true /\ r_time r = time24.
Proof.
  unfold recurring_at. rewrite list_elem_of_filter, elem_of_lookup_imap.
  intros [Hm (j & r' & [= <- <-] & Hl)]. apply Is_true_true, andb_true_iff in Hm as [Hm Ht].
  by apply String.eqb_eq in Ht.
Qed.

Lemma agenda_delete_task_lemma tz st date hour e d t i :
  e ∈ slot_entries (day_slot tz st date hour) -> entry_delete e = DelTask d t i ->
  d = date /\ t = time24_of_hour hour /\
  (exists task, slot_of (tasks st) d t !! i = Some task /\ e = one_time_entry d t i task) /\
  slot_of (deleteTask d t (Z.of_nat i) (tasks st)) d t = delete i (slot_of (tasks st) d t).
Proof.
  intros He Hd. apply elem_of_day_slot in He as [(j & task & Hl & ->) | (j & r & _ & ->)];
    [| discriminate].
  injection Hd as <- <- <-. split_and!; [done | done | eauto |].
  rewrite slot_of_deleteTask_lemma, decide_True by done.
  apply js_splice1_delete, lookup_lt_is_Some. by eexists.
Qed.

(** [C28] Safety of the one-time delete buttons: a button of the view of
    [date] calls [deleteTask(date, time24, index)] for a task that is at
    [index] of that slot, and the call removes exactly that element. *)
Theorem agenda_delete_task tz st date hour e d t i :
  e ∈ slot_entries (day_slot tz st date hour) -> entry_delete e = DelTask d t i ->
  d = date /\ t = time24_of_hour hour /\
  (exists task, slot_of (tasks st) d t !! i = Some task /\ e = one_time_entry d t i task) /\
  slot_of (deleteTask d t (Z.of_nat i) (tasks st)) d t = delete i (slot_of (tasks st) d t).
Proof. exact (agenda_delete_task_lemma tz st date hour e d t i). Qed.

Lemma agenda_delete_recurring_lemma tz st date hour e i :
  e ∈ slot_entries (day_slot tz st date hour) -> entry_delete e = DelRecurring i ->
  exists r, recurringTasks st !! i = Some r /\
    rule_matches r (key_fields tz date) = true /\ r_time r = time24_of_hour hour /\
    deleteRecurringTask (Z.of_nat i) (recurringTasks st) = delete i (recurringTasks st).
Proof.
  intros He Hd. apply elem_of_day_slot in He as [(j & task & _ & ->) | (j & r & Hin & ->)];
    [discriminate |].
  injection Hd as ->. apply elem_of_recurring_at in Hin as (Hl & Hm & Ht).
  exists r. split_and!; [done | done | done |].
  assert (Hi : (i < length (recurringTasks st))%nat) by (apply lookup_lt_is_Some; by eexists).
  unfold deleteRecurringTask. rewrite (proj2 (andb_true_iff _ _)) by lia.
  by apply js_splice1_delete.
Qed.

(** [C29] Safety of the recurring delete buttons: a button calls
    [deleteRecurringTask(index)] for a rule stored at [index] that matches
    the date and the hour, and the call removes exactly that rule. *)
Theorem agenda_delete_recurring tz st date hour e i :
  e ∈ slot_entries (day_slot tz st date hour) -> entry_delete e = DelRecurring i ->
  exists r, recurringTasks st !! i = Some r /\
    rule_matches r (key_fields tz date) = true /\ r_time r = time24_of_hour hour /\
    deleteRecurringTask (Z.of_nat i) (recurringTasks st) = delete i (recurringTasks st).
Proof. exact (agenda_delete_recurring_lemma tz st date hour e i). Qed.

(** ** The grid and the day view agree *)

(** The slot keys the view offers: ["00:00"] .. ["23:00"]. *)
Definition hour_slots : list string := map time24_of_hour (map Z.of_nat (seq 0 24)).

(** Every stored time is one of them: the task modal is only opened from
    a slot of the view (l. 283), which sets [selectedTime]. *)
Definition hour_keys (st : Store) : Prop :=
  map_Forall (fun _ day => map_Forall (fun time (_ : list Task) => time ∈ hour_slots) day) (tasks st) /\
  Forall (fun r => r_time r ∈ hour_slots) (recurringTasks st).

#[export] Instance hour_keys_dec st : Decision (hour_keys st).
Proof. unfold hour_keys. solve_decision. Defined.

Lemma slot_of_nonempty ts date time :
  slot_of ts date time <> [] -> exists day slot, ts !! date = Some day /\ day !! time = Some slot.
Proof.
  unfold slot_of. destruct (ts !! date) as [day|]; simpl; [| done].
  destruct (day !! time) as [slot|] eqn:Et; simpl; [eauto | done].
Qed.

Lemma slot_entries_nonempty tz st date hour :
  slot_entries (day_slot tz st date hour) <> [] <->
  slot_of (tasks st) date (time24_of_hour hour) <> [] \/
  recurring_at tz (recurringTasks st) date (time24_of_hour hour) <> [].
Proof.
  rewrite day_slot_entries_lemma, <- !length_zero_iff_nil, length_app, length_imap, length_map. lia.
Qed.

Lemma recurring_at_nonempty tz rs date r :
  r ∈ rs -> rule_matches r (key_fields tz date) = true ->
  recurring_at tz rs date (r_time r) <> [].
Proof.
  intros (i & Hl)%list_elem_of_lookup Hm Hnil.
  assert (Hin : (i, r) ∈ recurring_at tz rs date (r_time r)).
  { unfold recurring_at. apply list_elem_of_filter. split.
    - apply Is_true_true, andb_true_iff. split; [done | apply String.eqb_refl].
    - by apply (elem_of_lookup_imap_2 pair). }
  rewrite Hnil in Hin. set_solver.
Qed.

Lemma hasTasks_agenda_lemma tz st date :
  tasks_wf (tasks st) -> hour_keys st ->
  hasTasks tz st date = true <->
  exists s, s ∈ renderDayView tz st date /\ slot_entries s <> [].
Proof.
  intros Hwf [Hts Hrs]. unfold hasTasks, renderDayView.
  rewrite orb_true_iff, has_one_time_spec, existsb_exists by done.
  setoid_rewrite list_elem_of_fmap. split.
  - intros [[time Hne] | (r & Hr & Hm)].
    + destruct (slot_of_nonempty _ _ _ Hne) as (day & slot & Ed & Et).
      pose proof (Hts date day Ed time slot Et) as Hk.
      apply list_elem_of_fmap in Hk as (h & -> & Hh).
      exists (day_slot tz st date h). split; [eauto |].
      apply slot_entries_nonempty. by left.
    + apply list_elem_of_In in Hr. pose proof (proj1 (Forall_forall _ _) Hrs r Hr) as Ht.
      apply list_elem_of_fmap in Ht as (h & Ht & Hh).
      exists (day_slot tz st date h). split; [eauto |].
      apply slot_entries_nonempty. right. rewrite <- Ht. by apply recurring_at_nonempty.
  - intros (s & (h & -> & _) & Hne). apply slot_entries_nonempty in Hne as [Hne | Hne].
    + left. eauto.
    + right. destruct (recurring_at tz (recurringTasks st) date (time24_of_hour h))
        as [|[i r] l] eqn:Ea; [done |].
      destruct (elem_of_recurring_at tz (recurringTasks st) date (time24_of_hour h) i r)
        as (Hl & Hm & _); [rewrite Ea; set_solver |].
      exists r. split; [| done]. by eapply list_elem_of_In, list_elem_of_lookup_2.
Qed.

(** [C20] The mark of the month grid and the day view agree: on a well-formed
    store whose times are all slot keys, [hasTasks(date)] holds exactly
    when some slot of the view of [date] lists an entry. *)
Theorem hasTasks_agenda tz st date :
  tasks_wf (tasks st) -> hour_keys st ->
  hasTasks tz st date = true <->
  exists s, s ∈ renderDayView tz st date /\ slot_entries s <> [].
Proof. exact (hasTasks_agenda_lemma tz st date). Qed.

(** ** Outside the pruning invariant *)

Lemma recurring_at_none tz rs date time24 :
  Forall (fun r => rule_matches r (key_fields tz date) = false) rs ->
  recurring_at tz rs date time24 = [].
Proof.
  intros Hr. destruct (recurring_at tz rs date time24) as [|[i r] l] eqn:E; [done | exfalso].
  assert (Hin : (i, r) ∈ recurring_at tz rs date time24) by (rewrite E; left).
  apply elem_of_recurring_at in Hin as (Hl & Hm & _).
  rewrite (Forall_lookup_1 _ _ _ _ Hr Hl) in Hm. discriminate.
Qed.

Lemma empty_slots_mark_day_lemma tz st date day :
  tasks st !! date = Some day -> day <> ∅ -> map_Forall (fun _ sl => sl = []) day ->
  Forall (fun r => rule_matches r (key_fields tz date) = false) (recurringTasks st) ->
  hasTasks tz st date = true /\ Forall (fun sl => slot_entries sl = []) (renderDayView tz st date).
Proof.
  intros Ed Hne Hempty Hr. split.
  - unfold hasTasks, has_one_time. rewrite Ed.
    destruct (Nat.eqb_spec (size day) 0) as [Hs | _]; [by apply map_size_empty_inv in Hs | done].
  - unfold renderDayView. apply Forall_forall. intros sl (h & -> & _)%elem_of_map_iff.
    rewrite day_slot_entries_lemma, recurring_at_none by done.
    unfold slot_of. rewrite Ed. simpl.
    destruct (day !! time24_of_hour h) as [sl|] eqn:Et; [by rewrite (Hempty _ _ Et) | done].
Qed.

(** [C21] Without the pruning invariant the grid and the day view part
    (the gap at l. 143): a date object that has slot keys but only empty
    slot arrays, which [JSON.parse] reads from a stored text as it is,
    makes [hasTasks] mark the day, because l. 143 counts the keys of the
    date object, while the day view of that date lists nothing when no
    rule matches it.  [hasTasks_agenda] needs [tasks_wf]. *)
Theorem empty_slots_mark_day tz st date day :
  tasks st !! date = Some day -> day <> ∅ -> map_Forall (fun _ sl => sl = []) day ->
  Forall (fun r => rule_matches r (key_fields tz date) = false) (recurringTasks st) ->
  hasTasks tz st date = true /\ Forall (fun sl => slot_entries sl = []) (renderDayView tz st date).
Proof. exact (empty_slots_mark_day_lemma tz st date day). Qed.

(** The 24 slots carry the keys ["00:00"] .. ["23:00"] and the labels
    ["12:00 AM"] .. ["11:00 PM"], whatever the store and the date. *)
Theorem renderDayView_slots tz st date :
  map (fun s => (slot_time s, slot_label s)) (renderDayView tz st date) =
  zip hour_slots
   ["12:00 AM"; "1:00 AM"; "2:00 AM"; "3:00 AM"; "4:00 AM"; "5:00 AM"; "6:00 AM";
    "7:00 AM"; "8:00 AM"; "9:00 AM"; "10:00 AM"; "11:00 AM"; "12:00 PM";
    "1:00 PM"; "2:00 PM"; "3:00 PM"; "4:00 PM"; "5:00 PM"; "6:00 PM"; "7:00 PM";
    "8:00 PM"; "9:00 PM"; "10:00 PM"; "11:00 PM"]%string.
Proof.
  unfold renderDayView. rewrite map_map. simpl (slot_time _). simpl (slot_label _).
  vm_compute. reflexivity.
Qed.

(** ** Witnesses *)

(** Monday 6 May 2024: two tasks at 09:00 and the weekly Monday standup. *)
Definition agenda_store : Store :=
  {| tasks := add_one_time "2024-05-06" "09:00" "Lunch" (add_one_time "2024-05-06" "09:00" "Gym" ∅);
     recurringTasks := [standup] |}.

Definition lunch_entry : Entry := one_time_entry "2024-05-06" "09:00" 1 (mkTask "Lunch").
Definition standup_entry : Entry := recurring_entry (0%nat, standup).

Lemma agenda_delete_task_witness :
  (lunch_entry ∈ slot_entries (day_slot 0 agenda_store "2024-05-06" 9) /\
   entry_delete lunch_entry = DelTask "2024-05-06" "09:00" 1) /\
  ("2024-05-06"%string = "2024-05-06" /\ "09:00"%string = time24_of_hour 9 /\
   (exists task, slot_of (tasks agenda_store) "2024-05-06" "09:00" !! 1%nat = Some task /\
                 lunch_entry = one_time_entry "2024-05-06" "09:00" 1 task) /\
   slot_of (deleteTask "2024-05-06" "09:00" (Z.of_nat 1) (tasks agenda_store)) "2024-05-06" "09:00" =
   delete 1%nat (slot_of (tasks agenda_store) "2024-05-06" "09:00")).
Proof.
  split; [split; [apply (bool_decide_unpack _); vm_compute; exact I | reflexivity] |].
  apply (agenda_delete_task 0 agenda_store "2024-05-06" 9);
    [apply (bool_decide_unpack _); vm_compute; exact I | reflexivity].
Defined.

Lemma agenda_delete_recurring_witness :
  (standup_entry ∈ slot_entries (day_slot 0 agenda_store "2024-05-06" 10) /\
   entry_delete standup_entry = DelRecurring 0) /\
  (exists r, recurringTasks agenda_store !! 0%nat = Some r /\
    rule_matches r (key_fields 0 "2024-05-06") = true /\ r_time r = time24_of_hour 10 /\
    deleteRecurringTask (Z.of_nat 0) (recurringTasks agenda_store) =
    delete 0%nat (recurringTasks agenda_store)).
Proof.
  split; [split; [apply (bool_decide_unpack _); vm_compute; exact I | reflexivity] |].
  apply (agenda_delete_recurring 0 agenda_store "2024-05-06" 10 standup_entry);
    [apply (bool_decide_unpack _); vm_compute; exact I | reflexivity].
Defined.

Lemma hasTasks_agenda_witness :
  (tasks_wf (tasks agenda_store) /\ hour_keys agenda_store) /\
  (hasTasks 0 agenda_store "2024-05-06" = true <->
   exists s, s ∈ renderDayView 0 agenda_store "2024-05-06" /\ slot_entries s <> []).
Proof.
  split; [split; apply (bool_decide_unpack _); vm_compute; exact I |].
  apply hasTasks_agenda; apply (bool_decide_unpack _); vm_compute; exact I.
Defined.

Definition empty_slot_store : Store :=
  {| tasks := {["2024-05-06" := {["09:00" := []]}]}; recurringTasks := [] |}.

Lemma empty_slots_mark_day_witness :
  (tasks empty_slot_store !! "2024-05-06" = Some {["09:00" := []]} /\
   ({["09:00" := []]} : gmap string (list Task)) <> ∅ /\
   map_Forall (fun _ (sl : list Task) => sl = []) ({["09:00" := []]} : gmap string (list Task)) /\
   Forall (fun r => rule_matches r (key_fields 0 "2024-05-06") = false) (recurringTasks empty_slot_store)) /\
  hasTasks 0 empty_slot_store "2024-05-06" = true /\
  Forall (fun sl => slot_entries sl = []) (renderDayView 0 empty_slot_store "2024-05-06").
Proof.
  assert (Hne : ({["09:00" := []]} : gmap string (list Task)) <> ∅) by apply map_non_empty_singleton.
  assert (Hf : map_Forall (fun _ (sl : list Task) => sl = []) ({["09:00" := []]} : gmap string (list Task)))
    by (apply map_Forall_singleton; reflexivity).
  split; [split_and!; [reflexivity | exact Hne | exact Hf | constructor] |].
  exact (empty_slots_mark_day 0 empty_slot_store "2024-05-06" _ eq_refl Hne Hf (Forall_nil_2 _)).
Defined.
