(* ===== verification/Codec.v ===== *)
(** * The persistence interface: [JSON.stringify] and [JSON.parse]

    [saveTasks] and [saveRecurringTasks] (l. 401-410) write
    [JSON.stringify(tasks)] and [JSON.stringify(recurringTasks)] to
    [localStorage]; the start of the script (l. 32-35) reads them back
    with [JSON.parse(localStorage.getItem(key)) || default].  The
    handlers of [App] only need the two functions, and the reload theorem
    only needs that parsing what was printed gives the value back.  This
    file states that interface: [JsonCodec] holds the two functions (a
    failed parse, where [JSON.parse] throws, is [None]), [JsonCodecLaws]
    the round trip.  [Json] implements it for the task index and the rule
    array. *)

From S2P Require Import Prelude.

Class JsonCodec (A : Type) := {
  json_stringify : A -> string;
  json_parse : string -> option A
}.

Class JsonCodecLaws (A : Type) `{JsonCodec A} : Prop :=
  json_roundtrip : forall a, json_parse (json_stringify a) = Some a.

(** [JSON.parse(localStorage.getItem(key)) || dflt] (l. 32, 35): an
    absent key is [getItem] returning [null], which parses to [null] and
    falls back to the default. *)
Definition load_json {A} `{JsonCodec A} (ls : gmap string string) (key : string) (dflt : A)
    : option A :=
  match ls !! key with
  | Some s => json_parse s
  | None => Some dflt
  end.

(** [localStorage.setItem(key, JSON.stringify(v))] *)
Definition save_json {A} `{JsonCodec A} (ls : gmap string string) (key : string) (v : A)
    : gmap string string :=
  <[key := json_stringify v]> ls.

Lemma load_save_json {A} `{JsonCodecLaws A} ls key (v dflt : A) :
  load_json (save_json ls key v) key dflt = Some v.
Proof. unfold load_json, save_json. rewrite lookup_insert_eq. apply json_roundtrip. Qed.

Lemma load_save_json_ne {A B} `{JsonCodec A} `{JsonCodec B} ls key key' (v : A) (dflt : B) :
  key <> key' -> load_json (save_json ls key v) key' dflt = load_json ls key' dflt.
Proof. intros Hk. unfold load_json, save_json. by rewrite lookup_insert_ne. Qed.
