(* ===== verification/Json.v ===== *)
(** * [JSON.stringify] and [JSON.parse] for the stored values

    ECMA-262 25.5 on the values the program stores: [null], booleans,
    integral numbers, strings, arrays and objects (member lists in order,
    duplicates allowed).  [json_to_string] is [JSON.stringify] without
    indentation (25.5.2, [QuoteJSONString] for strings: the short escapes,
    [\u00XX] for the other control characters); [json_parse_text] is
    [JSON.parse] (25.5.1) on the fragment of JSON whose values the model
    represents: every JSON text without a number with a fraction or an
    exponent and without a [\u] escape above [0xFF] (a Rocq string is a
    string of 8-bit units).  Every text the program writes is in it.  On
    a text outside the fragment [json_parse_text] fails although
    [JSON.parse] returns a value, so a failure here is a [SyntaxError]
    only for texts that are not JSON: [JsonGrammar] gives the whole
    grammar and proves that the fragment is part of it.

    The codecs of [Codec] for the task index and the rule array print the
    JavaScript objects the program builds and read them back through
    [JSON.parse(...) || default] (l. 32, 35), with the last of duplicate
    members winning as in [JSON.parse].  The key order of a printed
    object is the order of the [gmap], not the insertion order JavaScript
    keeps; the parsed value is the same.  Values of another shape (a task
    without a string [desc], say) are outside the model and read as
    [None]. *)

From S2P Require Import Prelude JsLib TaskStore Codec.

Open Scope Z_scope.

Inductive json :=
| JNull
| JBool (b : bool)
| JNum (n : Z)
| JStr (s : string)
| JArr (l : list json)
| JObj (kvs : list (string * json)).

(** The double quote, code unit 34. *)
Abbreviation dq := (Ascii.Ascii false true false false false true false false).

(** ** [JSON.stringify] *)

Definition hex_char (d : Z) : ascii :=
  if d <? 10 then digit_char d else Ascii.ascii_of_nat (Z.to_nat (87 + d)).

(** 25.5.2.3 QuoteJSONString, one code unit. *)
Definition escape_char (c : ascii) : string :=
  let n := Z.of_nat (Ascii.nat_of_ascii c) in
  if n =? 8 then "\b"
  else if n =? 9 then "\t"
  else if n =? 10 then "\n"
  else if n =? 12 then "\f"
  else if n =? 13 then "\r"
  else if n =? 34 then String "\" (String dq EmptyString)
  else if n =? 92 then "\\"
  else if n <? 32 then
    String "\" (String "u" (String "0" (String "0"
      (String (hex_char (n / 16)) (String (hex_char (n mod 16)) EmptyString)))))
  else String c EmptyString.

Fixpoint escape_string (s : string) : string :=
  match s with
  | EmptyString => EmptyString
  | String c r => escape_char c +++ escape_string r
  end.

Definition quote_json (s : string) : string :=
  String dq (escape_string s +++ String dq EmptyString).

Fixpoint json_to_string (j : json) : string :=
  match j with
  | JNull => "null"
  | JBool b => if b then "true" else "false"
  | JNum n => js_int_to_string n
  | JStr s => quote_json s
  | JArr l => "[" +++ String.concat "," (map json_to_string l) +++ "]"
  | JObj kvs =>
      "{" +++ String.concat "," (map (fun kv => quote_json kv.1 +++ ":" +++ json_to_string kv.2) kvs)
      +++ "}"
  end.

(** ** [JSON.parse] *)

(** JSON white space: tab, line feed, carriage return, space. *)
Definition json_ws (c : ascii) : bool :=
  let n := Ascii.nat_of_ascii c in (n =? 9)%nat || (n =? 10)%nat || (n =? 13)%nat || (n =? 32)%nat.

Fixpoint skip_ws (s : string) : string :=
  match s with
  | String c r => if json_ws c then skip_ws r else s
  | EmptyString => EmptyString
  end.

Fixpoint span_digits (s : string) : list Z * string :=
  match s with
  | String c r =>
      match char_digit 10 c with
      | Some d => let '(ds, r') := span_digits r in (d :: ds, r')
      | None => ([], s)
      end
  | EmptyString => ([], EmptyString)
  end.

(** The optional minus sign of a number. *)
Definition json_sign (s : string) : Z * string :=
  match s with
  | String "-" r => (-1, r)
  | _ => (1, s)
  end.

(** [-? (0 | [1-9][0-9]* )]; a fraction or an exponent is refused. *)
Definition parse_number (s : string) : option (Z * string) :=
  let '(sign, s1) := json_sign s in
  match span_digits s1 with
  | ([], _) => None
  | (0 :: _ :: _, _) => None
  | (ds, rest) =>
      match rest with
      | String "." _ | String "e" _ | String "E" _ => None
      | _ => Some (sign * digits_value 10 ds, rest)
      end
  end.

(** The short escapes: a backslash followed by a quote, a backslash, a
    slash or one of [b f n r t]. *)
Definition short_escape (e : ascii) : option ascii :=
  if Ascii.eqb e dq then Some dq
  else if Ascii.eqb e "\" then Some "\"%char
  else if Ascii.eqb e "/" then Some "/"%char
  else if Ascii.eqb e "b" then Some (Ascii.ascii_of_nat 8)
  else if Ascii.eqb e "f" then Some (Ascii.ascii_of_nat 12)
  else if Ascii.eqb e "n" then Some (Ascii.ascii_of_nat 10)
  else if Ascii.eqb e "r" then Some (Ascii.ascii_of_nat 13)
  else if Ascii.eqb e "t" then Some (Ascii.ascii_of_nat 9)
  else None.

(** The four hex digits of [\uXXXX], when the code unit fits a byte. *)
Definition hex4 (h1 h2 h3 h4 : ascii) : option ascii :=
  match char_digit 16 h1, char_digit 16 h2, char_digit 16 h3, char_digit 16 h4 with
  | Some a, Some b, Some c, Some d =>
      let v := ((a * 16 + b) * 16 + c) * 16 + d in
      if v <? 256 then Some (Ascii.ascii_of_nat (Z.to_nat v)) else None
  | _, _, _, _ => None
  end.

Definition cons_unit (u : ascii) (res : option (string * string)) : option (string * string) :=
  match res with
  | Some (s', rest) => Some (String u s', rest)
  | None => None
  end.

(** The characters of a string literal up to its closing quote; a raw
    control character is a [SyntaxError]. *)
Fixpoint parse_chars (s : string) : option (string * string) :=
  match s with
  | EmptyString => None
  | String c r =>
      if Ascii.eqb c dq then Some (EmptyString, r)
      else if Ascii.eqb c "\" then
        match r with
        | String "u" (String h1 (String h2 (String h3 (String h4 r')))) =>
            match hex4 h1 h2 h3 h4 with
            | Some u => cons_unit u (parse_chars r')
            | None => None
            end
        | String e r' =>
            match short_escape e with
            | Some u => cons_unit u (parse_chars r')
            | None => None
            end
        | EmptyString => None
        end
      else if (Ascii.nat_of_ascii c <? 32)%nat then None
      else cons_unit c (parse_chars r)
  end.

(** The rest after the closing bracket [c], when it comes next. *)
Definition peek_close (c : ascii) (s : string) : option string :=
  match skip_ws s with
  | String c' r => if Ascii.eqb c' c then Some r else None
  | EmptyString => None
  end.

Fixpoint parse_value (fuel : nat) (s : string) : option (json * string) :=
  match fuel with
  | O => None
  | S f =>
      match skip_ws s with
      | String "n" (String "u" (String "l" (String "l" r))) => Some (JNull, r)
      | String "t" (String "r" (String "u" (String "e" r))) => Some (JBool true, r)
      | String "f" (String "a" (String "l" (String "s" (String "e" r)))) => Some (JBool false, r)
      | String dq r =>
          match parse_chars r with Some (str, r') => Some (JStr str, r') | None => None end
      | String "[" r =>
          match peek_close "]" r with
          | Some r' => Some (JArr [], r')
          | None => match parse_elems f r with Some (l, r') => Some (JArr l, r') | None => None end
          end
      | String "{" r =>
          match peek_close "}" r with
          | Some r' => Some (JObj [], r')
          | None => match parse_members f r with Some (l, r') => Some (JObj l, r') | None => None end
          end
      | s' => match parse_number s' with Some (n, r) => Some (JNum n, r) | None => None end
      end
  end
(** [value (, value)* ]] *)
with parse_elems (fuel : nat) (s : string) : option (list json * string) :=
  match fuel with
  | O => None
  | S f =>
      match parse_value f s with
      | Some (v, r) =>
          match skip_ws r with
          | String "," r' =>
              match parse_elems f r' with Some (vs, r'') => Some (v :: vs, r'') | None => None end
          | String "]" r' => Some ([v], r')
          | _ => None
          end
      | None => None
      end
  end
(** [string : value (, string : value)* }] *)
with parse_members (fuel : nat) (s : string) : option (list (string * json) * string) :=
  match fuel with
  | O => None
  | S f =>
      match skip_ws s with
      | String dq r =>
          match parse_chars r with
          | Some (k, r1) =>
              match skip_ws r1 with
              | String ":" r2 =>
                  match parse_value f r2 with
                  | Some (v, r3) =>
                      match skip_ws r3 with
                      | String "," r4 =>
                          match parse_members f r4 with
                          | Some (kvs, r5) => Some ((k, v) :: kvs, r5)
                          | None => None
                          end
                      | String "}" r4 => Some ([(k, v)], r4)
                      | _ => None
                      end
                  | None => None
                  end
              | _ => None
              end
          | None => None
          end
      | _ => None
      end
  end.

(** The end of [JSON.parse(text)]: one value, then only white space. *)
Definition json_finish (res : option (json * string)) : option json :=
  match res with
  | Some (j, r) => if String.eqb (skip_ws r) "" then Some j else None
  | None => None
  end.

(** [JSON.parse(text)].  The fuel is twice the length of the text plus
    one: [parse_value] spends one unit and [parse_elems] or
    [parse_members] another on each bracket, and every value consumes a
    character; [json_parse_total] shows that no larger fuel changes the
    result, so the fuel never stands in for a failure. *)
Definition json_parse_text (s : string) : option json :=
  json_finish (parse_value (S (2 * String.length s)) s).

(** ** The stored values as JSON *)

(** A member of a parsed object: the last one of that name. *)
Fixpoint obj_lookup (k : string) (kvs : list (string * json)) : option json :=
  match kvs with
  | [] => None
  | (k', v) :: r =>
      match obj_lookup k r with
      | Some v' => Some v'
      | None => if String.eqb k k' then Some v else None
      end
  end.

(** The falsy values, for [JSON.parse(...) || default]. *)
Definition json_falsy (j : json) : bool :=
  match j with
  | JNull => true
  | JBool b => negb b
  | JNum n => n =? 0
  | JStr s => String.eqb s ""
  | _ => false
  end.

Section Containers.
Context {V : Type} (enc : V -> json) (dec : json -> option V).

(** An array of values. *)
Definition list_to_json (l : list V) : json := JArr (map enc l).

Definition list_of_json (j : json) : option (list V) :=
  match j with
  | JArr l => mapM dec l
  | _ => None
  end.

(** A plain object used as a map, printed in the order of the [gmap]. *)
Definition map_to_json (m : gmap string V) : json :=
  JObj (map (fun kv => (kv.1, enc kv.2)) (map_to_list m)).

(** Members are assigned in order, so a later duplicate wins. *)
Definition map_of_json (j : json) : option (gmap string V) :=
  match j with
  | JObj kvs =>
      kvs' ← mapM (fun kv => v ← dec kv.2; Some (kv.1, v)) kvs;
      Some (foldl (fun m kv => <[kv.1 := kv.2]> m) ∅ kvs')
  | _ => None
  end.
End Containers.

(** [{desc: desc}] (l. 332). *)
Definition task_to_json (t : Task) : json := JObj [("desc", JStr (desc t))].

Definition task_of_json (j : json) : option Task :=
  match j with
  | JObj kvs => match obj_lookup "desc" kvs with Some (JStr d) => Some (mkTask d) | _ => None end
  | _ => None
  end.

(** A numeric field: [NaN] prints as [null]; a field the object lacks
    is not printed. *)
Definition num_field (k : string) (v : option Z) (present : bool) : list (string * json) :=
  match v with
  | Some n => [(k, JNum n)]
  | None => if present then [(k, JNull)] else []
  end.

(** The objects pushed at l. 336-341 (weekly) and l. 346-352 (yearly),
    in their key order. *)
Definition rule_to_json (r : Recurring) : json :=
  let weekly := String.eqb (r_repeat r) "weekly" in
  let yearly := String.eqb (r_repeat r) "yearly" in
  JObj (num_field "dayOfWeek" (r_dayOfWeek r) weekly ++ num_field "month" (r_month r) yearly ++
        num_field "day" (r_day r) yearly ++
        [("time", JStr (r_time r)); ("desc", JStr (r_desc r)); ("repeat", JStr (r_repeat r))]).

(** A numeric field read back: absent or [null] is no number. *)
Definition num_of_json (j : option json) : option (option Z) :=
  match j with
  | None | Some JNull => Some None
  | Some (JNum n) => Some (Some n)
  | Some _ => None
  end.

Definition rule_of_json (j : json) : option Recurring :=
  match j with
  | JObj kvs =>
      match obj_lookup "repeat" kvs, obj_lookup "time" kvs, obj_lookup "desc" kvs with
      | Some (JStr rep), Some (JStr t), Some (JStr d) =>
          dw ← num_of_json (obj_lookup "dayOfWeek" kvs);
          m ← num_of_json (obj_lookup "month" kvs);
          dy ← num_of_json (obj_lookup "day" kvs);
          Some (mkRecurring rep dw m dy t d)
      | _, _, _ => None
      end
  | _ => None
  end.

Definition index_to_json : TaskIndex -> json :=
  map_to_json (map_to_json (list_to_json task_to_json)).

Definition index_of_json : json -> option TaskIndex :=
  map_of_json (map_of_json (list_of_json task_of_json)).

(** [JSON.parse(text) || dflt], then the value read as [A]. *)
Definition parse_or_default {A} (dflt : A) (of_json : json -> option A) (s : string) : option A :=
  match json_parse_text s with
  | Some j => if json_falsy j then Some dflt else of_json j
  | None => None
  end.

#[export] Instance index_codec : JsonCodec TaskIndex := {
  json_stringify ts := json_to_string (index_to_json ts);
  json_parse := parse_or_default ∅ index_of_json
}.

#[export] Instance rules_codec : JsonCodec (list Recurring) := {
  json_stringify rs := json_to_string (list_to_json rule_to_json rs);
  json_parse := parse_or_default [] (list_of_json rule_of_json)
}.

(** ** Reading back what was printed: the values *)

Lemma task_of_to_json t : task_of_json (task_to_json t) = Some t.
Proof. by destruct t. Qed.

Lemma rule_of_to_json r : rule_of_json (rule_to_json r) = Some r.
Proof.
  destruct r as [rep dw m dy t d]. unfold rule_to_json. cbn [r_repeat r_dayOfWeek r_month r_day r_time r_desc].
  destruct (String.eqb rep "weekly"), (String.eqb rep "yearly"), dw, m, dy; reflexivity.
Qed.

Section ContainerLaws.
Context {V : Type} (enc : V -> json) (dec : json -> option V).
Hypothesis dec_enc : forall v, dec (enc v) = Some v.

Lemma list_of_to_json l : list_of_json dec (list_to_json enc l) = Some l.
Proof.
  unfold list_of_json, list_to_json. induction l as [|v l IH]; [done |].
  cbn [map mapM]. rewrite dec_enc. simpl. by rewrite IH.
Qed.

Lemma mapM_members (l : list (string * V)) :
  mapM (fun kv => v ← dec kv.2; Some (kv.1, v)) (map (fun kv => (kv.1, enc kv.2)) l) = Some l.
Proof.
  induction l as [|[k v] l IH]; [done |].
  cbn [map mapM]. simpl. rewrite dec_enc. simpl. rewrite IH. done.
Qed.

Lemma foldr_insert_comm (l : list (string * V)) (m : gmap string V) k v :
  k ∉ l.*1 ->
  foldr (fun kv => <[kv.1 := kv.2]>) (<[k := v]> m) l = <[k := v]> (foldr (fun kv => <[kv.1 := kv.2]>) m l).
Proof.
  induction l as [|[k' v'] l IH]; [done |]. simpl. rewrite not_elem_of_cons. intros [Hk Hl].
  rewrite IH by done. by apply insert_insert_ne.
Qed.

(** Without duplicates, assigning the members in order builds the map
    [list_to_map] builds. *)
Lemma foldl_insert_nodup (l : list (string * V)) (m : gmap string V) :
  NoDup l.*1 ->
  foldl (fun m kv => <[kv.1 := kv.2]> m) m l = foldr (fun kv => <[kv.1 := kv.2]>) m l.
Proof.
  revert m. induction l as [|[k v] l IH]; intros m; [done |]. simpl. rewrite NoDup_cons. intros [Hk Hl].
  rewrite IH by done. by apply foldr_insert_comm.
Qed.

Lemma map_of_to_json m : map_of_json dec (map_to_json enc m) = Some m.
Proof.
  unfold map_of_json, map_to_json. rewrite mapM_members. simpl.
  rewrite foldl_insert_nodup by apply NoDup_fst_map_to_list.
  f_equal. apply list_to_map_to_list.
Qed.
End ContainerLaws.

Lemma index_of_to_json ts : index_of_json (index_to_json ts) = Some ts.
Proof.
  apply map_of_to_json. intros day. apply map_of_to_json. intros slot.
  apply list_of_to_json, task_of_to_json.
Qed.

(** ** Reading back what was printed: the text *)

(** Each code unit comes back from its escape (checked on the 256 of
    them). *)
Lemma parse_escape_char c r : parse_chars (escape_char c +++ r) = cons_unit c (parse_chars r).
Proof. destruct c as [[] [] [] [] [] [] [] []]; reflexivity. Qed.

Lemma parse_chars_escape s rest :
  parse_chars (escape_string s +++ String dq rest) = Some (s, rest).
Proof.
  induction s as [|c s IH]; [reflexivity |].
  cbn [escape_string]. rewrite string_app_assoc, parse_escape_char, IH. reflexivity.
Qed.

(** *** Numbers *)

(** What may follow a printed value: the end, a comma, a closing bracket. *)
Definition json_stop (r : string) : Prop :=
  match r with
  | EmptyString => True
  | String c _ => c = ","%char \/ c = "]"%char \/ c = "}"%char
  end.

(** The most significant digit of a positive number is not [0]. *)
Lemma le_digits_top f n :
  0 < n < 10 ^ Z.of_nat f -> exists l d, le_digits f n = l ++ [d] /\ d <> 0.
Proof.
  revert n. induction f as [|f IH]; intros n Hn; [simpl in Hn; lia |].
  rewrite Nat2Z.inj_succ, Z.pow_succ_r in Hn by lia. cbn [le_digits].
  destruct (Z.ltb_spec n 10).
  - exists [], (n mod 10). rewrite Z.mod_small by lia. split; [done | lia].
  - destruct (IH (n / 10)) as (l & d & -> & Hd).
    { split; [apply Z.div_str_pos; lia | apply Z.div_lt_upper_bound; lia]. }
    by exists (n mod 10 :: l), d.
Qed.

Lemma digits10_head n : 0 < n -> exists d ds, digits10 n = d :: ds /\ 0 < d < 10.
Proof.
  intros Hn. destruct (le_digits_top (digit_fuel n) n) as (l & d & Hl & Hd).
  { split; [done | apply digit_fuel_enough; lia]. }
  assert (Hr : Forall (fun d => 0 <= d < 10) (digits10 n)) by (apply digits10_range; lia).
  unfold digits10 in *. rewrite Hl, rev_unit in *. exists d, (rev l).
  split; [done |]. apply Forall_cons in Hr as [? _]. lia.
Qed.

Lemma span_digits_string ds rest :
  Forall (fun d => 0 <= d < 10) ds ->
  span_digits (string_of_digits ds +++ rest) = (ds ++ (span_digits rest).1, (span_digits rest).2).
Proof.
  induction 1 as [|d ds Hd _ IH].
  { change (string_of_digits []) with EmptyString. rewrite append_EmptyString.
    by destruct (span_digits rest). }
  change (string_of_digits (d :: ds)) with (String (digit_char d) (string_of_digits ds)).
  rewrite append_String. cbn [span_digits]. rewrite char_digit_digit_char, IH by done.
  by destruct (span_digits rest).
Qed.

Lemma span_digits_stop r : json_stop r -> span_digits r = ([], r).
Proof. destruct r as [|c r]; [done |]. by intros [-> | [-> | ->]]. Qed.

Lemma json_sign_digit d x : 0 <= d < 10 -> json_sign (String (digit_char d) x) = (1, String (digit_char d) x).
Proof. intros Hd. zenum d 0 10; reflexivity. Qed.

(** The digits of a positive number after the sign, followed by what
    may follow a value, read back. *)
Lemma parse_number_digits s sign n rest :
  json_sign s = (sign, string_of_digits (digits10 n) +++ rest) -> 0 < n -> json_stop rest ->
  parse_number s = Some (sign * n, rest).
Proof.
  intros Hs Hn Hr. pose proof (digits10_value n) as Hv. unfold parse_number. rewrite Hs.
  rewrite span_digits_string, span_digits_stop by (done || apply digits10_range; lia).
  cbn [fst snd]. rewrite app_nil_r.
  destruct (digits10_head n Hn) as (d & ds & Hds & Hd). rewrite Hds in Hv |- *.
  destruct d as [|p|p]; [lia | | lia].
  destruct rest as [|c r]; [| destruct Hr as [-> | [-> | ->]]]; rewrite Hv by lia; done.
Qed.

Lemma parse_number_print n rest :
  json_stop rest -> parse_number (js_int_to_string n +++ rest) = Some (n, rest).
Proof.
  intros Hr. unfold js_int_to_string. destruct (Z.ltb_spec n 0).
  - rewrite (parse_number_digits _ (-1) (- n) rest); [f_equal; f_equal; lia | | lia | done].
    by rewrite string_app_assoc.
  - destruct (Z.eq_dec n 0) as [-> | Hn].
    + destruct rest as [|c r]; [| destruct Hr as [-> | [-> | ->]]]; reflexivity.
    + rewrite (parse_number_digits _ 1 n rest); [f_equal; f_equal; lia | | lia | done].
      destruct (digits10_head n) as (d & ds & Hds & Hd); [lia |]. rewrite Hds.
      change (string_of_digits (d :: ds)) with (String (digit_char d) (string_of_digits ds)).
      by rewrite append_String, json_sign_digit by lia.
Qed.

(** *** Values *)

(** Induction on [json] through the lists of its arrays and objects. *)
Section json_ind_nested.
Variable P : json -> Prop.
Hypothesis HNull : P JNull.
Hypothesis HBool : forall b, P (JBool b).
Hypothesis HNum : forall n, P (JNum n).
Hypothesis HStr : forall s, P (JStr s).
Hypothesis HArr : forall l, Forall P l -> P (JArr l).
Hypothesis HObj : forall kvs, Forall (fun kv => P kv.2) kvs -> P (JObj kvs).

Fixpoint json_ind_nested (j : json) : P j :=
  match j with
  | JNull => HNull
  | JBool b => HBool b
  | JNum n => HNum n
  | JStr s => HStr s
  | JArr l =>
      HArr l ((fix go (l : list json) : Forall P l :=
                 match l with
                 | [] => @ListDef.Forall_nil _ P
                 | v :: r => @ListDef.Forall_cons _ P v r (json_ind_nested v) (go r)
                 end) l)
  | JObj kvs =>
      HObj kvs ((fix go (kvs : list (string * json)) : Forall (fun kv => P kv.2) kvs :=
                   match kvs with
                   | [] => @ListDef.Forall_nil _ (fun kv => P kv.2)
                   | kv :: r => @ListDef.Forall_cons _ (fun kv => P kv.2) kv r (json_ind_nested kv.2) (go r)
                   end) kvs)
  end.
End json_ind_nested.

Lemma json_ws_digit d : 0 <= d < 10 -> json_ws (digit_char d) = false.
Proof. intros Hd. zenum d 0 10; reflexivity. Qed.

(** A printed value starts with a character that is not white space
    and closes nothing. *)
Lemma print_head j :
  exists c s', json_to_string j = String c s' /\ json_ws c = false /\
               Ascii.eqb c "]" = false /\ Ascii.eqb c "}" = false.
Proof.
  destruct j as [| [] | n | s | l | kvs]; cbn [json_to_string]; try (by eexists _, _).
  unfold js_int_to_string. destruct (Z.ltb_spec n 0); [by eexists _, _ |].
  destruct (digits10_cons n) as (d & ds & Hds).
  pose proof (digits10_range n ltac:(lia)) as Hr. rewrite Hds in Hr |- *.
  apply Forall_cons in Hr as [Hd _].
  exists (digit_char d), (string_of_digits ds). split; [done |]. zenum d 0 10; done.
Qed.

Lemma skip_ws_head c x : json_ws c = false -> skip_ws (String c x) = String c x.
Proof. intros Hw. cbn [skip_ws]. by rewrite Hw. Qed.

Lemma peek_close_head b c x :
  json_ws c = false -> Ascii.eqb c b = false -> peek_close b (String c x) = None.
Proof. intros Hw Hb. unfold peek_close. cbn [skip_ws]. by rewrite Hw, Hb. Qed.

(** A number starts with a minus sign or a digit, which [parse_value]
    hands to [parse_number]. *)
Lemma parse_value_number f n rest :
  parse_value (S f) (js_int_to_string n +++ rest) =
  match parse_number (js_int_to_string n +++ rest) with
  | Some (m, r) => Some (JNum m, r)
  | None => None
  end.
Proof.
  unfold js_int_to_string. destruct (Z.ltb_spec n 0); [reflexivity |].
  destruct (digits10_cons n) as (d & ds & Hds).
  pose proof (digits10_range n ltac:(lia)) as Hr. rewrite Hds in Hr |- *.
  apply Forall_cons in Hr as [Hd _].
  change (string_of_digits (d :: ds)) with (String (digit_char d) (string_of_digits ds)).
  rewrite append_String. zenum d 0 10; reflexivity.
Qed.

Lemma quote_app s x : quote_json s +++ x = String dq (escape_string s +++ String dq x).
Proof. unfold quote_json. by rewrite append_String, string_app_assoc, append_String, append_EmptyString. Qed.

Lemma concat_cons2 x y ys : String.concat "," (x :: y :: ys) = x +++ String "," (String.concat "," (y :: ys)).
Proof. reflexivity. Qed.

Lemma concat_cons_app x xs :
  String.concat "," (x :: xs) =
  x +++ match xs with [] => EmptyString | _ => String "," (String.concat "," xs) end.
Proof. destruct xs; [by rewrite string_app_nil_r | reflexivity]. Qed.

Lemma parse_value_quote f r :
  parse_value (S f) (String dq r) =
  match parse_chars r with Some (str, r') => Some (JStr str, r') | None => None end.
Proof. reflexivity. Qed.

Lemma parse_value_bracket f r :
  parse_value (S f) (String "[" r) =
  match peek_close "]" r with
  | Some r' => Some (JArr [], r')
  | None => match parse_elems f r with Some (l, r') => Some (JArr l, r') | None => None end
  end.
Proof. reflexivity. Qed.

Lemma parse_value_brace f r :
  parse_value (S f) (String "{" r) =
  match peek_close "}" r with
  | Some r' => Some (JObj [], r')
  | None => match parse_members f r with Some (l, r') => Some (JObj l, r') | None => None end
  end.
Proof. reflexivity. Qed.

(** [j] is read back from its text, with any fuel above its length,
    whatever may follow it. *)
Definition parses_back (j : json) : Prop :=
  forall f rest, (String.length (json_to_string j) < f)%nat -> json_stop rest ->
  parse_value f (json_to_string j +++ rest) = Some (j, rest).

Lemma parse_elems_print l rest f :
  Forall parses_back l -> l <> [] ->
  (S (String.length (String.concat "," (map json_to_string l))) < f)%nat ->
  parse_elems f (String.concat "," (map json_to_string l) +++ String "]" rest) = Some (l, rest).
Proof.
  intros Hl. revert f. induction Hl as [|v l Hv Hl IH]; intros f Hne Hf; [done |].
  destruct f as [|f]; [lia |]. cbn [parse_elems]. destruct l as [|v' l].
  - cbn [map String.concat] in *. rewrite Hv by (simpl; first [lia | auto]). reflexivity.
  - cbn [map] in *. rewrite concat_cons2 in *. rewrite string_length_app in Hf. cbn [String.length] in Hf.
    rewrite string_app_assoc, append_String, Hv by (simpl; first [lia | auto]).
    rewrite skip_ws_head by reflexivity. cbv iota. rewrite IH by (done || lia). reflexivity.
Qed.

Lemma parse_members_print kvs rest f :
  Forall (fun kv => parses_back kv.2) kvs -> kvs <> [] ->
  (S (String.length (String.concat ","
        (map (fun kv => quote_json kv.1 +++ ":" +++ json_to_string kv.2) kvs))) < f)%nat ->
  parse_members f
    (String.concat "," (map (fun kv => quote_json kv.1 +++ ":" +++ json_to_string kv.2) kvs) +++
     String "}" rest) = Some (kvs, rest).
Proof.
  intros Hl. revert f. induction Hl as [|[k v] kvs Hv Hl IH]; intros f Hne Hf; [done |].
  destruct f as [|f]; [lia |]. cbn [parse_members]. cbn [fst snd] in *.
  destruct kvs as [|kv' kvs].
  - cbn [map String.concat] in *. rewrite !string_length_app in Hf. cbn [String.length] in Hf.
    rewrite !string_app_assoc, quote_app, skip_ws_head, parse_chars_escape by reflexivity.
    rewrite append_String, append_EmptyString, skip_ws_head by reflexivity. cbv iota.
    cbn [fst snd] in *. rewrite Hv by (simpl; first [lia | auto]). reflexivity.
  - cbn [map] in *. rewrite concat_cons2 in *. rewrite !string_length_app in Hf. cbn [String.length] in Hf.
    rewrite !string_app_assoc, quote_app, skip_ws_head, parse_chars_escape by reflexivity.
    rewrite append_String, append_EmptyString, skip_ws_head by reflexivity. cbv iota.
    cbn [fst snd] in *. rewrite append_String, Hv by (simpl; first [lia | auto]).
    rewrite skip_ws_head by reflexivity. cbv iota. rewrite IH by (done || lia). reflexivity.
Qed.

(** Every value is read back from its text. *)
Lemma parse_print_value j : parses_back j.
Proof.
  induction j as [| b | n | s | l Hl | kvs Hkvs] using json_ind_nested;
    intros f rest Hf Hr; (destruct f as [|f]; [lia |]).
  - reflexivity.
  - by destruct b.
  - cbn [json_to_string]. by rewrite parse_value_number, parse_number_print.
  - cbn [json_to_string]. rewrite quote_app, parse_value_quote, parse_chars_escape. reflexivity.
  - cbn [json_to_string] in *. destruct l as [|v l]; [reflexivity |].
    rewrite !string_app_assoc, !append_String, !append_EmptyString, parse_value_bracket.
    rewrite !string_length_app in Hf. cbn [String.length] in Hf.
    destruct (print_head v) as (c & s' & Hc & Hw & Hb & _).
    assert (Hpk : forall x, peek_close "]" (String.concat "," (map json_to_string (v :: l)) +++ x) = None).
    { intros x. cbn [map]. rewrite concat_cons_app, Hc, !append_String. by apply peek_close_head. }
    rewrite Hpk, parse_elems_print by (done || lia). reflexivity.
  - cbn [json_to_string] in *. destruct kvs as [|[k v] kvs]; [reflexivity |].
    rewrite !string_app_assoc, !append_String, !append_EmptyString, parse_value_brace.
    rewrite !string_length_app in Hf. cbn [String.length] in Hf.
    assert (Hpk : forall x, peek_close "}" (String.concat ","
              (map (fun kv => quote_json kv.1 +++ ":" +++ json_to_string kv.2) ((k, v) :: kvs)) +++ x) = None).
    { intros x. cbn [map fst snd]. rewrite concat_cons_app, !string_app_assoc, quote_app.
      by apply peek_close_head. }
    rewrite Hpk, parse_members_print by (done || lia). reflexivity.
Qed.

(** [JSON.parse] reads back what [JSON.stringify] prints. *)
Lemma parse_print_lemma j : json_parse_text (json_to_string j) = Some j.
Proof.
  unfold json_parse_text.
  pose proof (parse_print_value j (S (2 * String.length (json_to_string j))) EmptyString) as H.
  rewrite string_app_nil_r in H. rewrite H by (done || lia). reflexivity.
Qed.

(** ** Termination of [JSON.parse] *)

Lemma skip_ws_length s : (String.length (skip_ws s) <= String.length s)%nat.
Proof. induction s as [|c r IH]; simpl; [lia |]. destruct (json_ws c); simpl; lia. Qed.

Lemma cons_unit_some u res k r1 :
  cons_unit u res = Some (k, r1) -> exists k', res = Some (k', r1).
Proof. destruct res as [[??]|]; simpl; [intros [= _ <-]; eauto | done]. Qed.

Lemma parse_chars_length r k r1 :
  parse_chars r = Some (k, r1) -> (String.length r1 < String.length r)%nat.
Proof.
  remember (String.length r) as n eqn:Hn. revert r k r1 Hn.
  induction n as [n IH] using lt_wf_ind. intros r k r1 Hn Hp.
  destruct r as [|c r]; [done |]. simpl in Hp, Hn.
  destruct (Ascii.eqb c dq); [injection Hp as <- <-; lia |].
  destruct (Ascii.eqb c "\").
  - repeat (case_match; simplify_eq/=; try done);
      match goal with H : cons_unit _ _ = _ |- _ => apply cons_unit_some in H as [k' Hc] end;
      (eapply IH in Hc; [| | reflexivity]; simpl in *; lia).
  - destruct (Ascii.nat_of_ascii c <? 32)%nat; [done |].
    apply cons_unit_some in Hp as [k' Hp]. eapply IH in Hp; [| | reflexivity]; lia.
Qed.

Lemma span_digits_length s ds r :
  span_digits s = (ds, r) -> (String.length r + length ds = String.length s)%nat.
Proof.
  revert ds r. induction s as [|c s IH]; intros ds r; simpl; [by intros [= <- <-] |].
  destruct (char_digit 10 c); [| intros [= <- <-]; simpl; lia].
  destruct (span_digits s) as [ds' r'] eqn:E. intros [= <- <-]. simpl. specialize (IH _ _ eq_refl). lia.
Qed.

Lemma json_sign_length s : (String.length (json_sign s).2 <= String.length s)%nat.
Proof. unfold json_sign. repeat case_match; simplify_eq/=; lia. Qed.

Lemma parse_number_length s n r :
  parse_number s = Some (n, r) -> (String.length r < String.length s)%nat.
Proof.
  unfold parse_number. destruct (json_sign s) as [sign s1] eqn:Es.
  assert (Hs1 : (String.length s1 <= String.length s)%nat).
  { pose proof (json_sign_length s) as H. rewrite Es in H. exact H. }
  destruct (span_digits s1) as [ds rest] eqn:Ed. apply span_digits_length in Ed.
  repeat (case_match; simplify_eq/=; try done); intros; simplify_eq/=; simpl in *; lia.
Qed.

Lemma peek_close_length c s r :
  peek_close c s = Some r -> (String.length r < String.length s)%nat.
Proof.
  unfold peek_close. pose proof (skip_ws_length s).
  destruct (skip_ws s) as [|c' r']; [done |]. simpl in *.
  destruct (Ascii.eqb c' c); [intros [= <-]; lia | done].
Qed.

(** Shorten the length facts the parser's branches leave. *)
Ltac length_facts :=
  repeat match goal with
  | H : parse_chars _ = Some _ |- _ => apply parse_chars_length in H
  | H : peek_close _ _ = Some _ |- _ => apply peek_close_length in H
  | H : parse_number _ = Some _ |- _ => apply parse_number_length in H
  | H : skip_ws ?s = _ |- _ =>
      let L := fresh "L" in pose proof (skip_ws_length s) as L; rewrite H in L; clear H
  end.



Lemma parse_progress f :
  (forall s v r, parse_value f s = Some (v, r) -> (String.length r < String.length s)%nat) /\
  (forall s vs r, parse_elems f s = Some (vs, r) -> (String.length r < String.length s)%nat) /\
  (forall s kvs r, parse_members f s = Some (kvs, r) -> (String.length r < String.length s)%nat).
Proof.
  induction f as [|f (IHv & IHe & IHm)]; [done |].
  split; [|split]; intros s x r; cbn [parse_value parse_elems parse_members].
  all: repeat (case_match; simplify_eq/=; try done); intros; simplify_eq/=.
  all: repeat match goal with
       | H : parse_value _ _ = Some _ |- _ => apply IHv in H
       | H : parse_elems _ _ = Some _ |- _ => apply IHe in H
       | H : parse_members _ _ = Some _ |- _ => apply IHm in H
       end; length_facts; simpl in *; lia.
Qed.

Ltac progress_facts :=
  repeat match goal with
  | H : parse_value _ _ = Some _ |- _ => apply (proj1 (parse_progress _)) in H
  | H : parse_elems _ _ = Some _ |- _ => apply (proj1 (proj2 (parse_progress _))) in H
  | H : parse_members _ _ = Some _ |- _ => apply (proj2 (proj2 (parse_progress _))) in H
  end; length_facts; simpl in *; lia.

Lemma parse_fuel_stable n :
  (forall s f, (2 * String.length s < n)%nat -> (n <= f)%nat -> parse_value f s = parse_value n s) /\
  (forall s f, (2 * String.length s + 1 < n)%nat -> (n <= f)%nat ->
     parse_elems f s = parse_elems n s) /\
  (forall s f, (2 * String.length s + 1 < n)%nat -> (n <= f)%nat ->
     parse_members f s = parse_members n s).
Proof.
  induction n as [|n (IHv & IHe & IHm)]; [split; [|split]; intros; lia |].
  split; [|split]; intros s [|f] Hs Hf; try lia; cbn [parse_value parse_elems parse_members].
  all: repeat (first [ rewrite (IHv _ f) by progress_facts
                     | rewrite (IHe _ f) by progress_facts
                     | rewrite (IHm _ f) by progress_facts
                     | case_match ]; simplify_eq/=); done.
Qed.

(** The fuel of [json_parse_text] is enough: any larger fuel gives the
    same answer. *)
Lemma json_parse_total s f :
  (2 * String.length s < f)%nat -> json_parse_text s = json_finish (parse_value f s).
Proof.
  intros Hf. unfold json_parse_text.
  by rewrite (proj1 (parse_fuel_stable (S (2 * String.length s))) s f) by lia.
Qed.

(** ** The schema of the stored index *)

(** JSON schemas for what the program stores: a string, an array
    (non-empty when [ne]), a plain object used as a map (member names
    distinct and allowed by [key], values of one schema), an object with
    one member. *)
Inductive jtype :=
| TStr
| TArr (ne : bool) (t : jtype)
| TMap (key : string -> Prop) (t : jtype)
| TField (name : string) (t : jtype).

Inductive has_type : jtype -> json -> Prop :=
| ht_str s : has_type TStr (JStr s)
| ht_arr ne t l :
    (ne = true -> l <> []) -> Forall (has_type t) l -> has_type (TArr ne t) (JArr l)
| ht_map key t kvs :
    NoDup (map fst kvs) -> Forall (fun kv => key kv.1) kvs -> Forall (has_type t) (map snd kvs) ->
    has_type (TMap key t) (JObj kvs)
| ht_field name t j : has_type t j -> has_type (TField name t) (JObj [(name, j)]).

(** [{date: {time: [{desc: string}, ...]}}], with the arrays non-empty. *)
Definition index_type (date_ok time_ok : string -> Prop) : jtype :=
  TMap date_ok (TMap time_ok (TArr true (TField "desc" TStr))).

Lemma map_to_json_typed {V} (enc : V -> json) (key : string -> Prop) t (m : gmap string V) :
  map_Forall (fun k v => key k /\ has_type t (enc v)) m -> has_type (TMap key t) (map_to_json enc m).
Proof.
  intros Hm. unfold map_to_json. constructor.
  - rewrite map_map. cbn. rewrite map_fmap. apply NoDup_fst_map_to_list.
  - apply Forall_forall. intros kv Hkv. apply elem_of_map_iff in Hkv as (kv' & -> & Hkv).
    destruct kv' as [k v]. apply elem_of_map_to_list in Hkv. exact (proj1 (Hm k v Hkv)).
  - apply Forall_forall. intros j Hj. apply elem_of_map_iff in Hj as (kv & -> & Hkv).
    apply elem_of_map_iff in Hkv as ([k v] & -> & Hkv). apply elem_of_map_to_list in Hkv.
    exact (proj2 (Hm k v Hkv)).
Qed.

Lemma slot_to_json_typed (l : list Task) :
  l <> [] -> has_type (TArr true (TField "desc" TStr)) (list_to_json task_to_json l).
Proof.
  intros Hl. constructor; [by destruct l |].
  apply Forall_forall. intros j Hj. apply elem_of_map_iff in Hj as (t & -> & _).
  by repeat constructor.
Qed.

(** What [saveTasks] prints for an index whose keys satisfy [date_ok] and
    [time_ok] and whose slots are non-empty has the schema [index_type]. *)
Lemma index_to_json_typed (date_ok time_ok : string -> Prop) (ts : TaskIndex) :
  map_Forall (fun d day => date_ok d /\ map_Forall (fun t sl => time_ok t /\ sl <> []) day) ts ->
  has_type (index_type date_ok time_ok) (index_to_json ts).
Proof.
  intros Hts. apply map_to_json_typed. intros d day Hd. destruct (Hts d day Hd) as [Hd1 Hd2].
  split; [done |]. apply map_to_json_typed. intros t sl Ht. destruct (Hd2 t sl Ht) as [Ht1 Ht2].
  split; [done |]. by apply slot_to_json_typed.
Qed.

(** ** The codec laws: the stored shapes read back *)

Lemma index_roundtrip_lemma (ts : TaskIndex) :
  parse_or_default ∅ index_of_json (json_to_string (index_to_json ts)) = Some ts.
Proof. unfold parse_or_default. rewrite parse_print_lemma. apply index_of_to_json. Qed.

Lemma rules_roundtrip_lemma (rs : list Recurring) :
  parse_or_default [] (list_of_json rule_of_json) (json_to_string (list_to_json rule_to_json rs))
  = Some rs.
Proof.
  unfold parse_or_default. rewrite parse_print_lemma. apply list_of_to_json, rule_of_to_json.
Qed.

#[export] Instance index_codec_laws : JsonCodecLaws TaskIndex.
Proof. intros ts. exact (index_roundtrip_lemma ts). Qed.

#[export] Instance rules_codec_laws : JsonCodecLaws (list Recurring).
Proof. intros rs. exact (rules_roundtrip_lemma rs). Qed.

