(* ===== verification/JsonGrammar.v ===== *)
(** * The JSON grammar: when [JSON.parse] throws

    [JSON.parse(text)] throws a [SyntaxError] exactly when [text] is not
    a JSON text (ECMA-262 25.5.1, the grammar of ECMA-404).  [Json]
    parses the fragment whose values the model represents (integers
    without fraction or exponent, strings of code units up to [0xFF]);
    this file gives the whole grammar as a recognizer, [json_valid],
    which accepts every number ([-? int frac? exp?]) and every [\uXXXX]
    escape, and proves
    - that whatever [json_parse_text] reads is a JSON text
      ([json_parse_valid]), so a text [json_valid] refuses is one on
      which [JSON.parse] throws;
    - that the fuel [json_valid] gives the recognizer, twice the length
      of the text plus one, is never what makes it refuse
      ([json_valid_total]). *)

From S2P Require Import Prelude JsLib TaskStore Codec Json.

Open Scope Z_scope.

(** ** The recognizer *)

(** One or more decimal digits. *)
Definition json_digits1 (s : string) : option string :=
  match span_digits s with
  | ([], _) => None
  | (_, r) => Some r
  end.

(** [(. [0-9]+)?] *)
Definition scan_frac (s : string) : option string :=
  match s with
  | String "." r => json_digits1 r
  | _ => Some s
  end.

(** [([eE] [+-]? [0-9]+)?] *)
Definition scan_exp (s : string) : option string :=
  match s with
  | String "e" r | String "E" r =>
      json_digits1 (match r with String "+" r' | String "-" r' => r' | _ => r end)
  | _ => Some s
  end.

(** An optional minus, [0] or a digit other than [0] followed by digits,
    then [frac] and [exp]. *)
Definition scan_number (s : string) : option string :=
  let '(_, s1) := json_sign s in
  match span_digits s1 with
  | ([], _) => None
  | (0 :: _ :: _, _) => None
  | (_, rest) => scan_frac rest ≫= scan_exp
  end.

Definition is_hex (h : ascii) : bool := bool_decide (is_Some (char_digit 16 h)).

(** The characters of a string literal up to its closing quote: any
    short escape, any [\u] with four hex digits, no raw control
    character. *)
Fixpoint scan_chars (s : string) : option string :=
  match s with
  | EmptyString => None
  | String c r =>
      if Ascii.eqb c dq then Some r
      else if Ascii.eqb c "\" then
        match r with
        | String "u" (String h1 (String h2 (String h3 (String h4 r')))) =>
            if is_hex h1 && is_hex h2 && is_hex h3 && is_hex h4 then scan_chars r' else None
        | String e r' =>
            match short_escape e with
            | Some _ => scan_chars r'
            | None => None
            end
        | EmptyString => None
        end
      else if (Ascii.nat_of_ascii c <? 32)%nat then None
      else scan_chars r
  end.

(** Values, array elements and object members, as [parse_value]. *)
Fixpoint scan_value (fuel : nat) (s : string) : option string :=
  match fuel with
  | O => None
  | S f =>
      match skip_ws s with
      | String "n" (String "u" (String "l" (String "l" r))) => Some r
      | String "t" (String "r" (String "u" (String "e" r))) => Some r
      | String "f" (String "a" (String "l" (String "s" (String "e" r)))) => Some r
      | String dq r => scan_chars r
      | String "[" r =>
          match peek_close "]" r with
          | Some r' => Some r'
          | None => scan_elems f r
          end
      | String "{" r =>
          match peek_close "}" r with
          | Some r' => Some r'
          | None => scan_members f r
          end
      | s' => scan_number s'
      end
  end
with scan_elems (fuel : nat) (s : string) : option string :=
  match fuel with
  | O => None
  | S f =>
      match scan_value f s with
      | Some r =>
          match skip_ws r with
          | String "," r' => scan_elems f r'
          | String "]" r' => Some r'
          | _ => None
          end
      | None => None
      end
  end
with scan_members (fuel : nat) (s : string) : option string :=
  match fuel with
  | O => None
  | S f =>
      match skip_ws s with
      | String dq r =>
          match scan_chars r with
          | Some r1 =>
              match skip_ws r1 with
              | String ":" r2 =>
                  match scan_value f r2 with
                  | Some r3 =>
                      match skip_ws r3 with
                      | String "," r4 => scan_members f r4
                      | String "}" r4 => Some r4
                      | _ => None
                      end
                  | None => None
                  end
              | _ => None
              end
          | None => None
          end
      | _ => None
      end
  end.

(** A JSON text: one value between white space. *)
Definition json_valid (s : string) : bool :=
  match scan_value (S (2 * String.length s)) s with
  | Some r => String.eqb (skip_ws r) ""
  | None => false
  end.

(** ** What [json_parse_text] reads is JSON *)

Lemma parse_number_scan s n r : parse_number s = Some (n, r) -> scan_number s = Some r.
Proof.
  unfold parse_number, scan_number. destruct (json_sign s) as [sg s1].
  destruct (span_digits s1) as [ds rest].
  repeat (case_match; simplify_eq/=; try done); intros; simplify_eq/=; done.
Qed.


Lemma hex4_is_hex h1 h2 h3 h4 u :
  hex4 h1 h2 h3 h4 = Some u -> is_hex h1 && is_hex h2 && is_hex h3 && is_hex h4 = true.
Proof.
  unfold hex4, is_hex. repeat case_match; try done.
Qed.

Lemma parse_chars_scan r k r1 : parse_chars r = Some (k, r1) -> scan_chars r = Some r1.
Proof.
  revert k r1. induction r as [r IH] using (induction_ltof1 _ String.length). intros k r1 Hp.
  destruct r as [|c r]; [done |]. simpl in Hp |- *.
  destruct (Ascii.eqb c dq); [by injection Hp as _ <- |].
  destruct (Ascii.eqb c "\").
  - repeat (case_match; simplify_eq/=; try done);
      repeat match goal with
      | H : cons_unit _ _ = _ |- _ => apply cons_unit_some in H as [? H]
      | H : hex4 _ _ _ _ = Some _ |- _ => apply hex4_is_hex in H
      end; simplify_eq/=;
      first [congruence | eapply IH; [unfold ltof; simpl; lia | eassumption]].
  - destruct (Ascii.nat_of_ascii c <? 32)%nat; [done |].
    apply cons_unit_some in Hp as [k' Hp]. eapply IH; [unfold ltof; simpl; lia | eassumption].
Qed.

Lemma parse_scan f :
  (forall s j r, parse_value f s = Some (j, r) -> scan_value f s = Some r) /\
  (forall s l r, parse_elems f s = Some (l, r) -> scan_elems f s = Some r) /\
  (forall s kvs r, parse_members f s = Some (kvs, r) -> scan_members f s = Some r).
Proof.
  induction f as [|f (IHv & IHe & IHm)]; [done |].
  split; [|split]; intros s x r; cbn [parse_value parse_elems parse_members scan_value scan_elems scan_members].
  all: repeat (case_match; simplify_eq/=; try done); intros; simplify_eq/=.
  all: repeat match goal with
       | H : parse_value _ _ = Some _ |- _ => apply IHv in H
       | H : parse_elems _ _ = Some _ |- _ => apply IHe in H
       | H : parse_members _ _ = Some _ |- _ => apply IHm in H
       | H : parse_chars _ = Some _ |- _ => apply parse_chars_scan in H
       | H : parse_number _ = Some _ |- _ => apply parse_number_scan in H
       end; congruence.
Qed.

(** ** The fuel of the recognizer is enough *)

Lemma scan_chars_length r r1 : scan_chars r = Some r1 -> (String.length r1 < String.length r)%nat.
Proof.
  revert r1. induction r as [r IH] using (induction_ltof1 _ String.length). intros r1 Hp.
  destruct r as [|c r]; [done |]. simpl in Hp |- *.
  destruct (Ascii.eqb c dq); [injection Hp as <-; lia |].
  destruct (Ascii.eqb c "\").
  - repeat (case_match; simplify_eq/=; try done);
      (apply IH in Hp; [simpl in *; lia | unfold ltof; simpl; lia]).
  - destruct (Ascii.nat_of_ascii c <? 32)%nat; [done |].
    apply IH in Hp; [lia | unfold ltof; simpl; lia].
Qed.

Lemma json_digits1_length s r : json_digits1 s = Some r -> (String.length r < String.length s)%nat.
Proof.
  unfold json_digits1. destruct (span_digits s) as [ds r'] eqn:E. apply span_digits_length in E.
  destruct ds; [done | intros [= <-]; simpl in E; lia].
Qed.

Ltac digits_length :=
  repeat (case_match; simplify_eq/=; try done); intros; simplify_eq/=;
  repeat match goal with H : json_digits1 _ = Some _ |- _ => apply json_digits1_length in H end;
  simpl in *; lia.

Lemma scan_frac_length s r : scan_frac s = Some r -> (String.length r <= String.length s)%nat.
Proof. unfold scan_frac. digits_length. Qed.

Lemma scan_exp_length s r : scan_exp s = Some r -> (String.length r <= String.length s)%nat.
Proof. unfold scan_exp. digits_length. Qed.

Lemma scan_number_length s r : scan_number s = Some r -> (String.length r < String.length s)%nat.
Proof.
  unfold scan_number. pose proof (json_sign_length s) as Hs1.
  destruct (json_sign s) as [sg s1]. simpl in Hs1.
  destruct (span_digits s1) as [ds rest] eqn:Ed. apply span_digits_length in Ed.
  assert (Hfe : forall r, scan_frac rest ≫= scan_exp = Some r -> (String.length r <= String.length rest)%nat).
  { intros r'. destruct (scan_frac rest) as [r0|] eqn:E; [simpl | done].
    apply scan_frac_length in E. intros H%scan_exp_length. lia. }
  repeat (case_match; simplify_eq/=; try done); intros H; apply Hfe in H; simpl in *; lia.
Qed.

Ltac scan_length_facts :=
  repeat match goal with
  | H : scan_chars _ = Some _ |- _ => apply scan_chars_length in H
  | H : scan_number _ = Some _ |- _ => apply scan_number_length in H
  end; length_facts.

Lemma scan_progress f :
  (forall s r, scan_value f s = Some r -> (String.length r < String.length s)%nat) /\
  (forall s r, scan_elems f s = Some r -> (String.length r < String.length s)%nat) /\
  (forall s r, scan_members f s = Some r -> (String.length r < String.length s)%nat).
Proof.
  induction f as [|f (IHv & IHe & IHm)]; [done |].
  split; [|split]; intros s r; cbn [scan_value scan_elems scan_members].
  all: repeat (case_match; simplify_eq/=; try done); intros; simplify_eq/=.
  all: repeat match goal with
       | H : scan_value _ _ = Some _ |- _ => apply IHv in H
       | H : scan_elems _ _ = Some _ |- _ => apply IHe in H
       | H : scan_members _ _ = Some _ |- _ => apply IHm in H
       end; scan_length_facts; simpl in *; lia.
Qed.

Ltac scan_progress_facts :=
  repeat match goal with
  | H : scan_value _ _ = Some _ |- _ => apply (proj1 (scan_progress _)) in H
  | H : scan_elems _ _ = Some _ |- _ => apply (proj1 (proj2 (scan_progress _))) in H
  | H : scan_members _ _ = Some _ |- _ => apply (proj2 (proj2 (scan_progress _))) in H
  end; scan_length_facts; simpl in *; lia.

Lemma scan_fuel_stable n :
  (forall s f, (2 * String.length s < n)%nat -> (n <= f)%nat -> scan_value f s = scan_value n s) /\
  (forall s f, (2 * String.length s + 1 < n)%nat -> (n <= f)%nat -> scan_elems f s = scan_elems n s) /\
  (forall s f, (2 * String.length s + 1 < n)%nat -> (n <= f)%nat ->
     scan_members f s = scan_members n s).
Proof.
  induction n as [|n (IHv & IHe & IHm)]; [split; [|split]; intros; lia |].
  split; [|split]; intros s [|f] Hs Hf; try lia; cbn [scan_value scan_elems scan_members].
  all: repeat (first [ rewrite (IHv _ f) by scan_progress_facts
                     | rewrite (IHe _ f) by scan_progress_facts
                     | rewrite (IHm _ f) by scan_progress_facts
                     | case_match ]; simplify_eq/=); done.
Qed.

Lemma json_valid_total s f :
  (2 * String.length s < f)%nat ->
  json_valid s = match scan_value f s with Some r => String.eqb (skip_ws r) "" | None => false end.
Proof.
  intros Hf. unfold json_valid.
  by rewrite (proj1 (scan_fuel_stable (S (2 * String.length s))) s f) by lia.
Qed.

Lemma json_parse_valid s j : json_parse_text s = Some j -> json_valid s = true.
Proof.
  unfold json_parse_text, json_finish, json_valid.
  destruct (parse_value _ s) as [[j' r]|] eqn:E; [| done].
  apply (proj1 (parse_scan _)) in E. rewrite E. by destruct (String.eqb (skip_ws r) "").
Qed.
