(* ===== verification/App.v ===== *)
(** * The program as a state machine: globals, handlers, events

    The state of the page is the record [AppState]: the globals of
    l. 27-39 ([currentDate] as its local day number, [selectedDate],
    [selectedTime], the store [tasks]/[recurringTasks], the journal text),
    the visibility of the two modals and of the journal sidebar, the two
    rendered views (the grid of [renderCalendar], the slots of
    [renderDayView]) and [localStorage].  Each handler of the source is
    one function on it, which calls the render and save functions exactly
    where the source does: [changeMonth] (l. 416-419), [openDayModal]
    (l. 173-178), [closeDayModal] (l. 183-186), [openTaskModal]
    (l. 294-301), [closeTaskModal] (l. 306-309), [addTask] (l. 315-362),
    [deleteTask] (l. 370-383), [deleteRecurringTask] (l. 389-396),
    [toggleJournal] (l. 443-445), [saveJournal] (l. 450-453); [init] is
    the start of the script (l. 27-39 and l. 461).

    [Event] lists what the listeners of l. 422-458 and the buttons built
    by the two renders react to; [enabled] says when the element that
    fires it is on the page (a day cell of the current grid, a slot or a
    delete button of the current day view inside the open modal, a close
    button of an open modal).  [step] applies the handler of an enabled
    event; [reachable] is the closure under [step] of a first visit and
    of reloads of the page from the storage a reachable state left.

    The handlers are proved against the [Codec] interface: [app_inv]
    holds in every reachable state and the theorems about clicks and
    reloads follow from it.  The schema of the stored text is proved for
    the [Json] codec, the one the program uses. *)

From S2P Require Import Prelude JsLib EcmaDate DateUtil TaskStore Recurrence Grid Agenda Codec Json JsonGrammar.

Open Scope Z_scope.

Record AppState := mkState {
  currentDate : Z;
  selectedDate : option string;
  selectedTime : option string;
  store : Store;
  day_modal : bool;        (** [dayModal.style.display === 'block'] *)
  task_modal : bool;       (** [taskModal.style.display === 'block'] *)
  journal_open : bool;     (** class [open] of the journal sidebar *)
  journal_text : string;   (** [journalText.value] *)
  grid : list Cell;        (** the children of [#days] *)
  view : list Slot;        (** the children of [#day-view] *)
  local_storage : gmap string string
}.

Inductive Event :=
| EvPrevMonth
| EvNextMonth
| EvClickDay (date : string)
| EvCloseDay                            (** close button, back button, backdrop *)
| EvClickSlot (time24 : string)
| EvCloseTask                           (** close button, backdrop *)
| EvSubmit (descInput repeat : string)  (** the form's values at submission *)
| EvClickDelete (a : DeleteAction)
| EvToggleJournal                       (** toggle or close button *)
| EvJournalInput (content : string).

Section App.
(** The local offset of the clock and the day [new Date()] gives. *)
Context (tz today : Z).
Context `{!JsonCodec TaskIndex} `{!JsonCodec (list Recurring)}.

Definition set_currentDate v s := mkState v (selectedDate s) (selectedTime s) (store s)
  (day_modal s) (task_modal s) (journal_open s) (journal_text s) (grid s) (view s) (local_storage s).
Definition set_selectedDate v s := mkState (currentDate s) v (selectedTime s) (store s)
  (day_modal s) (task_modal s) (journal_open s) (journal_text s) (grid s) (view s) (local_storage s).
Definition set_selectedTime v s := mkState (currentDate s) (selectedDate s) v (store s)
  (day_modal s) (task_modal s) (journal_open s) (journal_text s) (grid s) (view s) (local_storage s).
Definition set_store v s := mkState (currentDate s) (selectedDate s) (selectedTime s) v
  (day_modal s) (task_modal s) (journal_open s) (journal_text s) (grid s) (view s) (local_storage s).
Definition set_day_modal v s := mkState (currentDate s) (selectedDate s) (selectedTime s) (store s)
  v (task_modal s) (journal_open s) (journal_text s) (grid s) (view s) (local_storage s).
Definition set_task_modal v s := mkState (currentDate s) (selectedDate s) (selectedTime s) (store s)
  (day_modal s) v (journal_open s) (journal_text s) (grid s) (view s) (local_storage s).
Definition set_journal_open v s := mkState (currentDate s) (selectedDate s) (selectedTime s) (store s)
  (day_modal s) (task_modal s) v (journal_text s) (grid s) (view s) (local_storage s).
Definition set_journal_text v s := mkState (currentDate s) (selectedDate s) (selectedTime s) (store s)
  (day_modal s) (task_modal s) (journal_open s) v (grid s) (view s) (local_storage s).
Definition set_grid v s := mkState (currentDate s) (selectedDate s) (selectedTime s) (store s)
  (day_modal s) (task_modal s) (journal_open s) (journal_text s) v (view s) (local_storage s).
Definition set_view v s := mkState (currentDate s) (selectedDate s) (selectedTime s) (store s)
  (day_modal s) (task_modal s) (journal_open s) (journal_text s) (grid s) v (local_storage s).
Definition set_local_storage v s := mkState (currentDate s) (selectedDate s) (selectedTime s) (store s)
  (day_modal s) (task_modal s) (journal_open s) (journal_text s) (grid s) (view s) v.

(** [renderCalendar(currentDate)] *)
Definition render_calendar (s : AppState) : AppState :=
  set_grid (renderCalendar tz (store s) today (currentDate s)) s.

(** [tasks[selectedDate]] with [selectedDate === null] reads the key
    ["null"]; the handlers that render the view run only while a date is
    selected ([inv_day_modal] below), so the case does not arise. *)
Definition selected_key (sd : option string) : string := default "null" sd.

(** [renderDayView()] *)
Definition render_day_view (s : AppState) : AppState :=
  set_view (renderDayView tz (store s) (selected_key (selectedDate s))) s.

(** l. 401-403 *)
Definition saveTasks (s : AppState) : AppState :=
  set_local_storage (save_json (local_storage s) "tasks" (tasks (store s))) s.

(** l. 408-410 *)
Definition saveRecurringTasks (s : AppState) : AppState :=
  set_local_storage (save_json (local_storage s) "recurringTasks" (recurringTasks (store s))) s.

(** l. 416-419 *)
Definition changeMonth (delta : Z) (s : AppState) : AppState :=
  render_calendar
    (set_currentDate (js_set_month (currentDate s) (MonthFromDay (currentDate s) + delta)) s).

(** l. 173-178; the heading text is DOM only. *)
Definition openDayModal (date : string) (s : AppState) : AppState :=
  render_day_view (set_day_modal true (set_selectedDate (Some date) s)).

(** l. 183-186 *)
Definition closeDayModal (s : AppState) : AppState :=
  set_selectedDate None (set_day_modal false s).

(** l. 294-301; the form fields it clears are the widgets' business. *)
Definition openTaskModal (time24 : string) (s : AppState) : AppState :=
  set_task_modal true (set_selectedTime (Some time24) s).

(** l. 306-309 *)
Definition closeTaskModal (s : AppState) : AppState :=
  set_selectedTime None (set_task_modal false s).

(** l. 315-362: the guard of l. 320 returns before any effect; otherwise
    the store changes ([TaskStore.addTask]), both arrays are saved, both
    views are rebuilt and the modal closes. *)
Definition addTask_handler (descInput repeat : string) (s : AppState) : AppState :=
  if js_falsy_str (selectedDate s) || js_falsy_str (selectedTime s) then s
  else
    closeTaskModal (render_calendar (render_day_view (saveRecurringTasks (saveTasks
      (set_store (addTask tz (selectedDate s) (selectedTime s) (js_trim descInput) repeat (store s))
         s))))).

(** l. 370-383: guarded by [tasks[date] && tasks[date][time]]. *)
Definition deleteTask_handler (date time : string) (index : Z) (s : AppState) : AppState :=
  if bool_decide (is_Some (tasks (store s) !! date ≫= lookup time)) then
    render_calendar (render_day_view (saveTasks
      (set_store {| tasks := deleteTask date time index (tasks (store s));
                    recurringTasks := recurringTasks (store s) |} s)))
  else s.

(** l. 389-396: guarded by the bounds check. *)
Definition deleteRecurringTask_handler (index : Z) (s : AppState) : AppState :=
  if (0 <=? index) && (index <? Z.of_nat (length (recurringTasks (store s)))) then
    render_calendar (render_day_view (saveRecurringTasks
      (set_store {| tasks := tasks (store s);
                    recurringTasks := deleteRecurringTask index (recurringTasks (store s)) |} s)))
  else s.

(** l. 443-445 *)
Definition toggleJournal (s : AppState) : AppState := set_journal_open (negb (journal_open s)) s.

(** l. 450-453, after the [input] event has set the text area. *)
Definition saveJournal (content : string) (s : AppState) : AppState :=
  set_local_storage (<["journalEntry" := content]> (local_storage s)) (set_journal_text content s).

(** l. 27-39 and the first render (l. 461).  [None] is a [JSON.parse]
    that throws, which stops the script; it is also the answer for stored
    text the codec does not read (outside the represented fragment of
    JSON, or of another shape), where the script would run on. *)
Definition init (ls : gmap string string) : option AppState :=
  match load_json ls "tasks" (∅ : TaskIndex), load_json ls "recurringTasks" ([] : list Recurring) with
  | Some ts, Some rs =>
      Some (render_calendar
        (mkState today None None {| tasks := ts; recurringTasks := rs |} false false false
           (default "" (ls !! "journalEntry")) [] [] ls))
  | _, _ => None
  end.

(** The listeners: [prevBtn]/[nextBtn] (l. 422-423), the cells
    (l. 129), the close buttons and the backdrop (l. 425-436), the slots
    (l. 284), the delete buttons (l. 221-224, 245-248, 267-270), which
    read [selectedDate] when clicked, and the journal (l. 456-458).
    [script.js] adds no listener to the task form: [addTask(e)] is
    written for its [submit] event, which only the page's markup (not in
    the repository) can route to it; [EvSubmit] is that call. *)
Definition dispatch (e : Event) (s : AppState) : AppState :=
  match e with
  | EvPrevMonth => changeMonth (-1) s
  | EvNextMonth => changeMonth 1 s
  | EvClickDay date => openDayModal date s
  | EvCloseDay => closeDayModal s
  | EvClickSlot time24 => openTaskModal time24 s
  | EvCloseTask => closeTaskModal s
  | EvSubmit d r => addTask_handler d r s
  | EvClickDelete (DelTask _ time index) =>
      deleteTask_handler (selected_key (selectedDate s)) time (Z.of_nat index) s
  | EvClickDelete (DelRecurring index) => deleteRecurringTask_handler (Z.of_nat index) s
  | EvToggleJournal => toggleJournal s
  | EvJournalInput content => saveJournal content s
  end.

(** When the element that fires the event is on the page. *)
Definition enabled (s : AppState) (e : Event) : Prop :=
  match e with
  | EvClickDay date => exists c, c ∈ grid s /\ cell_key c = Some date
  | EvCloseDay => day_modal s = true
  | EvClickSlot time24 => day_modal s = true /\ exists sl, sl ∈ view s /\ slot_time sl = time24
  | EvCloseTask | EvSubmit _ _ => task_modal s = true
  | EvClickDelete a =>
      day_modal s = true /\
      exists sl en, sl ∈ view s /\ en ∈ slot_entries sl /\ entry_delete en = a
  | _ => True
  end.

Inductive step : AppState -> Event -> AppState -> Prop :=
| step_fire s e : enabled s e -> step s e (dispatch e s).

Inductive reachable : AppState -> Prop :=
| reach_first s : init ∅ = Some s -> reachable s
| reach_reload s s' : reachable s -> init (local_storage s) = Some s' -> reachable s'
| reach_step s e s' : reachable s -> step s e s' -> reachable s'.


(** ** The invariant of the reachable states *)

(** The keys the store operations leave are keys that were there or the
    slot they were given. *)
Lemma deleteTask_keys date time i ts d day' t sl' :
  deleteTask date time i ts !! d = Some day' -> day' !! t = Some sl' ->
  exists day sl, ts !! d = Some day /\ day !! t = Some sl.
Proof.
  unfold deleteTask. destruct (ts !! date) as [day|] eqn:Ed; [| eauto].
  destruct (day !! time) as [slot|] eqn:Et; [| eauto].
  rewrite lookup_set_day. case_decide as Hd; [subst d | eauto].
  case_decide; [done |]. intros [= <-]. rewrite lookup_set_slot.
  case_decide; [subst t; eauto | eauto].
Qed.

Lemma hour_keys_deleteTask st date time i :
  hour_keys st ->
  hour_keys {| tasks := deleteTask date time i (tasks st); recurringTasks := recurringTasks st |}.
Proof.
  intros [Hts Hrs]. split; [| done]. intros d day' Hd t sl' Ht. simpl in Hd.
  destruct (deleteTask_keys _ _ _ _ _ _ _ _ Hd Ht) as (day & sl & Ed & Et).
  exact (Hts d day Ed t sl Et).
Qed.

Lemma hour_keys_deleteRecurringTask st i :
  hour_keys st ->
  hour_keys {| tasks := tasks st; recurringTasks := deleteRecurringTask i (recurringTasks st) |}.
Proof.
  intros [Hts Hrs]. split; [done |]. simpl. unfold deleteRecurringTask.
  destruct (_ && _); [by apply js_splice1_Forall | done].
Qed.

Lemma hour_keys_addTask tz' st sd stime d repeat :
  hour_keys st -> (forall t, stime = Some t -> t ∈ hour_slots) ->
  hour_keys (addTask tz' sd stime d repeat st).
Proof.
  intros [Hts Hrs] Ht. unfold addTask.
  destruct (js_falsy_str sd || js_falsy_str stime) eqn:Hg; [by split |].
  assert (Hk : default "" stime ∈ hour_slots).
  { destruct stime as [t|]; [by apply Ht | by rewrite orb_true_r in Hg]. }
  destruct (String.eqb repeat "none").
  - split; [| done]. simpl. unfold add_one_time. apply map_Forall_insert_2; [| done].
    apply map_Forall_insert_2; [done |]. intros t' sl Hl.
    destruct (tasks st !! default "" sd) as [day|] eqn:Ed; [exact (Hts _ day Ed t' sl Hl) |].
    simpl in Hl. by rewrite lookup_empty in Hl.
  - assert (Hr : forall r, r_time r = default "" stime ->
                   Forall (fun r => r_time r ∈ hour_slots) (recurringTasks st ++ [r])).
    { intros r Hr. apply Forall_app. split; [done |]. apply Forall_singleton. by rewrite Hr. }
    destruct (String.eqb repeat "weekly"); [by split; [| apply Hr] |].
    destruct (String.eqb repeat "yearly"); [by split; [| apply Hr] | by split].
Qed.

(** The date keys of an index are keys [formatDate] makes for a day. *)
Definition date_keys (ts : TaskIndex) : Prop :=
  map_Forall (fun k (_ : gmap string (list Task)) => exists d, k = cal_key (cal_of_day d)) ts.

Lemma deleteTask_dom date time i ts d day' :
  deleteTask date time i ts !! d = Some day' -> exists day, ts !! d = Some day.
Proof.
  unfold deleteTask. destruct (ts !! date) as [day|] eqn:Ed; [| eauto].
  destruct (day !! time) as [slot|] eqn:Et; [| eauto].
  rewrite lookup_set_day. case_decide as Hd; [subst d; eauto | eauto].
Qed.

Lemma date_keys_deleteTask date time i ts :
  date_keys ts -> date_keys (deleteTask date time i ts).
Proof.
  intros Hk d day' Hd. destruct (deleteTask_dom _ _ _ _ _ _ Hd) as [day Ed]. exact (Hk d day Ed).
Qed.

Lemma date_keys_addTask tz' st sd stime d repeat :
  date_keys (tasks st) -> (forall k, sd = Some k -> exists d, k = cal_key (cal_of_day d)) ->
  date_keys (tasks (addTask tz' sd stime d repeat st)).
Proof.
  intros Hk Hsd. unfold addTask.
  destruct (js_falsy_str sd || js_falsy_str stime) eqn:Hg; [done |].
  destruct sd as [k|]; [| done]. simpl.
  destruct (String.eqb repeat "none"); [| repeat case_match; done].
  apply map_Forall_insert_2; [by apply Hsd | done].
Qed.

(** Reduce the projections of the setters, and nothing else (the
    renders must stay folded). *)
Ltac app_simpl :=
  cbn [currentDate selectedDate selectedTime store day_modal task_modal journal_open
       journal_text grid view local_storage set_currentDate set_selectedDate set_selectedTime
       set_store set_day_modal set_task_modal set_journal_open set_journal_text set_grid
       set_view set_local_storage render_calendar render_day_view saveTasks saveRecurringTasks
       closeTaskModal closeDayModal openTaskModal openDayModal changeMonth toggleJournal
       saveJournal tasks recurringTasks] in *.

(** The invariant of every reachable state. *)
Record app_inv (s : AppState) : Prop := {
  inv_wf : tasks_wf (tasks (store s));
  inv_hours : hour_keys (store s);
  inv_keys : date_keys (tasks (store s));
  inv_day_modal : day_modal s = true <-> is_Some (selectedDate s);
  inv_task_modal : task_modal s = true <-> is_Some (selectedTime s);
  inv_selected : forall k, selectedDate s = Some k -> exists d, k = cal_key (cal_of_day d);
  inv_time : forall t, selectedTime s = Some t -> t ∈ hour_slots;
  inv_grid : grid s = renderCalendar tz (store s) today (currentDate s);
  inv_view : day_modal s = true -> view s = renderDayView tz (store s) (selected_key (selectedDate s));
  inv_tasks_text : local_storage s !! "tasks" = Some (json_stringify (tasks (store s))) \/
                   (local_storage s !! "tasks" = None /\ tasks (store s) = ∅);
  inv_rules_saved : load_json (local_storage s) "recurringTasks" [] = Some (recurringTasks (store s));
  inv_journal_saved : journal_text s = default "" (local_storage s !! "journalEntry")
}.

Lemma renderCalendar_cell st date c :
  c ∈ renderCalendar tz st today date ->
  exists i, c = spec_cell tz st today (MonthFromDay date) (grid_day (YearFromDay date) (MonthFromDay date) i).
Proof.
  rewrite renderCalendar_spec_lemma. intros Hc.
  apply elem_of_map_iff in Hc. destruct Hc as (i & Hc & _). eauto.
Qed.

Lemma spec_cell_key st m d k :
  cell_key (spec_cell tz st today m d) = Some k -> exists d, k = cal_key (cal_of_day d).
Proof.
  intros Hk. unfold spec_cell in Hk. destruct (_ =? _); cbn [cell_key] in Hk; [| discriminate].
  apply (inj Some) in Hk. subst k. eauto.
Qed.

(** The cells of the grid open keys of real days. *)
Lemma grid_keys st date c k :
  c ∈ renderCalendar tz st today date -> cell_key c = Some k -> exists d, k = cal_key (cal_of_day d).
Proof.
  intros Hc Hk. destruct (renderCalendar_cell st date c Hc) as [i ->].
  by eapply spec_cell_key.
Qed.

Lemma view_slot_times st date sl : sl ∈ renderDayView tz st date -> slot_time sl ∈ hour_slots.
Proof.
  unfold renderDayView, hour_slots. intros Hs.
  apply elem_of_map_iff in Hs. destruct Hs as (h & Hs & Hh). subst sl.
  change (slot_time (day_slot tz st date h)) with (time24_of_hour h). by apply elem_of_map_2.
Qed.

Lemma none_not_some {A} : ~ is_Some (@None A).
Proof. by intros []. Qed.

Lemma init_inv ls s :
  init ls = Some s -> tasks_wf (tasks (store s)) -> hour_keys (store s) ->
  date_keys (tasks (store s)) ->
  (ls !! "tasks" = Some (json_stringify (tasks (store s))) \/ (ls !! "tasks" = None /\ tasks (store s) = ∅)) ->
  app_inv s.
Proof.
  unfold init. destruct (load_json ls "tasks" ∅) eqn:E1; [| done].
  destruct (load_json ls "recurringTasks" []) eqn:E2; [| done].
  intros [= <-] Hwf Hk Hd Ht. constructor; app_simpl; try done;
    try (split; [done | intros []%none_not_some]).
Qed.

Context `{!JsonCodecLaws TaskIndex} `{!JsonCodecLaws (list Recurring)}.

(** The preservation proofs never look inside the two renders. *)
#[local] Opaque renderCalendar renderDayView.

(** Storage goals: look through the [setItem]s, parse what was printed. *)
Ltac storage_solve :=
  unfold load_json, save_json in *; app_simpl;
  repeat first [rewrite lookup_insert_eq | rewrite lookup_insert_ne by done];
  try apply json_roundtrip; try done; try (left; reflexivity).

(** The text stored under ["tasks"] parses back to the index. *)
Lemma inv_tasks_saved s : app_inv s -> load_json (local_storage s) "tasks" ∅ = Some (tasks (store s)).
Proof.
  intros Hinv. unfold load_json.
  destruct (inv_tasks_text _ Hinv) as [-> | [-> ->]]; [apply json_roundtrip | done].
Qed.

Lemma is_Some_Some_iff {A} (x : A) : true = true <-> is_Some (Some x).
Proof. split; [eauto | done]. Qed.

Lemma false_is_Some_None {A} : false = true <-> is_Some (@None A).
Proof. split; [done | intros []%none_not_some]. Qed.

(** The fields a handler does not touch: closed syntactically, never by
    comparing unfolded renders. *)
Ltac inv_trivial :=
  first [ match goal with |- ?a = ?a => reflexivity end
        | match goal with |- _ -> ?a = ?a => intros _; reflexivity end
        | match goal with H : ?p |- ?p => exact H end
        | apply is_Some_Some_iff | apply false_is_Some_None ].

Lemma changeMonth_inv s delta : app_inv s -> app_inv (changeMonth delta s).
Proof. intros []. unfold changeMonth. constructor; app_simpl; try inv_trivial. Qed.

Lemma openDayModal_inv s date :
  app_inv s -> (exists c, c ∈ grid s /\ cell_key c = Some date) -> app_inv (openDayModal date s).
Proof.
  intros [] (c & Hc & Hk). unfold openDayModal. constructor; app_simpl; try inv_trivial.
  intros k [= <-]. rewrite inv_grid0 in Hc. by eapply grid_keys.
Qed.

Lemma closeDayModal_inv s : app_inv s -> app_inv (closeDayModal s).
Proof. intros []. unfold closeDayModal. constructor; app_simpl; try inv_trivial; done. Qed.

Lemma openTaskModal_inv s time24 :
  app_inv s -> day_modal s = true -> (exists sl, sl ∈ view s /\ slot_time sl = time24) ->
  app_inv (openTaskModal time24 s).
Proof.
  intros [] Hd (sl & Hsl & <-). unfold openTaskModal. constructor; app_simpl; try inv_trivial.
  intros t [= <-]. rewrite (inv_view0 Hd) in Hsl. by eapply view_slot_times.
Qed.

Lemma closeTaskModal_inv s : app_inv s -> app_inv (closeTaskModal s).
Proof. intros []. unfold closeTaskModal. constructor; app_simpl; try inv_trivial; done. Qed.

Lemma toggleJournal_inv s : app_inv s -> app_inv (toggleJournal s).
Proof. intros []. unfold toggleJournal. constructor; app_simpl; try inv_trivial. Qed.

Lemma saveJournal_inv s content : app_inv s -> app_inv (saveJournal content s).
Proof.
  intros []. unfold saveJournal. constructor; app_simpl; try inv_trivial; storage_solve.
Qed.

Lemma addTask_handler_inv s descInput repeat :
  app_inv s -> app_inv (addTask_handler descInput repeat s).
Proof.
  intros []. unfold addTask_handler.
  destruct (js_falsy_str (selectedDate s) || js_falsy_str (selectedTime s)); [done |].
  constructor; app_simpl; try inv_trivial; try (intros ? [=]); try storage_solve.
  - by apply addTask_wf_lemma.
  - by apply hour_keys_addTask.
  - by apply date_keys_addTask.
Qed.

Lemma deleteTask_handler_inv s date time i :
  app_inv s -> app_inv (deleteTask_handler date time i s).
Proof.
  intros []. unfold deleteTask_handler. case_bool_decide; [| done].
  constructor; app_simpl; try inv_trivial; try storage_solve.
  - by apply deleteTask_wf_lemma.
  - by apply hour_keys_deleteTask.
  - by apply date_keys_deleteTask.
Qed.

Lemma deleteRecurringTask_handler_inv s i :
  app_inv s -> app_inv (deleteRecurringTask_handler i s).
Proof.
  intros []. unfold deleteRecurringTask_handler. destruct (_ && _); [| done].
  constructor; app_simpl; try inv_trivial; try storage_solve.
  by apply hour_keys_deleteRecurringTask.
Qed.

(** Every handler keeps the invariant when its element is on the page. *)
Lemma step_inv s e s' : app_inv s -> step s e s' -> app_inv s'.
Proof.
  intros Hinv Hstep. destruct Hstep as [s e He].
  destruct e as [| | date | | time24 | | d r | [date time i | i] | | c]; cbn [enabled dispatch] in He |- *.
  - by apply changeMonth_inv.
  - by apply changeMonth_inv.
  - by apply openDayModal_inv.
  - by apply closeDayModal_inv.
  - destruct He. by apply openTaskModal_inv.
  - by apply closeTaskModal_inv.
  - by apply addTask_handler_inv.
  - by apply deleteTask_handler_inv.
  - by apply deleteRecurringTask_handler_inv.
  - by apply toggleJournal_inv.
  - by apply saveJournal_inv.
Qed.

(** What [init] read from the storage is the store of the new page. *)
Lemma init_store ls s :
  init ls = Some s ->
  load_json ls "tasks" ∅ = Some (tasks (store s)) /\
  load_json ls "recurringTasks" [] = Some (recurringTasks (store s)).
Proof.
  unfold init. destruct (load_json ls "tasks" ∅) eqn:E1; [| done].
  destruct (load_json ls "recurringTasks" []) eqn:E2; [| done]. by intros [= <-].
Qed.

Lemma store_eta st : {| tasks := tasks st; recurringTasks := recurringTasks st |} = st.
Proof. by destruct st. Qed.

(** A reload from the storage of a state with the invariant restores its
    store. *)
Lemma init_restores s s' :
  app_inv s -> init (local_storage s) = Some s' -> store s' = store s.
Proof.
  intros Hinv Hinit. destruct (init_store _ _ Hinit) as [H1 H2].
  rewrite (inv_tasks_saved _ Hinv) in H1. rewrite (inv_rules_saved _ Hinv) in H2.
  injection H1 as H1. injection H2 as H2.
  by rewrite <- (store_eta (store s')), <- H1, <- H2, store_eta.
Qed.

Lemma init_empty s : init ∅ = Some s -> store s = {| tasks := ∅; recurringTasks := [] |}.
Proof.
  intros Hinit. destruct (init_store _ _ Hinit) as [H1 H2]. cbv [load_json] in H1, H2.
  rewrite lookup_empty in H1, H2. injection H1 as H1. injection H2 as H2.
  by rewrite <- (store_eta (store s)), <- H1, <- H2.
Qed.

Lemma reachable_inv_lemma s : reachable s -> app_inv s.
Proof.
  induction 1 as [s Hinit | s s' Hr IH Hinit | s e s' Hr IH Hstep].
  - apply (init_inv ∅); [done | | | |]; rewrite (init_empty _ Hinit);
      [apply map_Forall_empty | | apply map_Forall_empty | by right].
    split; [apply map_Forall_empty | constructor].
  - apply (init_inv (local_storage s)); [done | | | |]; rewrite (init_restores s s' IH Hinit);
      apply IH.
  - by eapply step_inv.
Qed.

(** [C1] Every reachable state satisfies [app_inv]: the store is pruned,
    its date keys are keys [formatDate] makes for a day and its times are
    the 24 slot keys, a modal is open exactly when its selection is set,
    the selected date is the key of a day, both views show the current
    store (the delete buttons are never stale), and [localStorage] holds
    the printed index, rules that parse back to the store, and the
    journal. *)
Theorem reachable_inv s : reachable s -> app_inv s.
Proof. exact (reachable_inv_lemma s). Qed.

(** [C5] Reloading the page in a reachable state succeeds and restores the
    tasks, the rules and the journal text. *)
Theorem reload_restores s :
  reachable s ->
  exists s', init (local_storage s) = Some s' /\ store s' = store s /\ journal_text s' = journal_text s.
Proof.
  intros Hr. pose proof (reachable_inv_lemma s Hr) as Hinv.
  unfold init. rewrite (inv_tasks_saved _ Hinv), (inv_rules_saved _ Hinv).
  eexists. split; [reflexivity |]. app_simpl.
  split; [apply store_eta | symmetry; apply (inv_journal_saved _ Hinv)].
Qed.

(** ** What the user sees and what a click does, in reachable states *)

#[local] Transparent renderCalendar renderDayView.

Lemma spec_cell_has_task st m d k :
  cell_key (spec_cell tz st today m d) = Some k ->
  cell_has_task (spec_cell tz st today m d) = hasTasks tz st k.
Proof.
  unfold spec_cell. destruct (_ =? _); cbn [cell_key cell_has_task]; [| discriminate].
  intros Hk. apply (inj Some) in Hk. by subst k.
Qed.

(** [C7] The [has-task] mark of a day of the grid is set exactly when the day
    view that a click on the day opens lists an entry. *)
Theorem grid_mark_agenda s c k :
  reachable s -> c ∈ grid s -> cell_key c = Some k ->
  cell_has_task c = true <-> exists sl, sl ∈ renderDayView tz (store s) k /\ slot_entries sl <> [].
Proof.
  intros Hr Hc Hk. pose proof (reachable_inv_lemma s Hr) as Hinv.
  rewrite (inv_grid _ Hinv) in Hc. destruct (renderCalendar_cell _ _ _ Hc) as [i ->].
  rewrite (spec_cell_has_task _ _ _ _ Hk).
  apply hasTasks_agenda_lemma; [apply Hinv | apply Hinv].
Qed.

Lemma day_view_slot s sl :
  app_inv s -> day_modal s = true -> sl ∈ view s ->
  exists k h, selectedDate s = Some k /\ sl = day_slot tz (store s) k h.
Proof.
  intros Hinv Hd Hsl. destruct (proj1 (inv_day_modal _ Hinv) Hd) as [k Hk].
  rewrite (inv_view _ Hinv Hd), Hk in Hsl. apply elem_of_map_iff in Hsl as (h & -> & _). eauto.
Qed.

Lemma deleteTask_handler_store s date time i :
  is_Some (tasks (store s) !! date ≫= lookup time) ->
  store (deleteTask_handler date time i s) =
  {| tasks := deleteTask date time i (tasks (store s)); recurringTasks := recurringTasks (store s) |}.
Proof. intros Hs. unfold deleteTask_handler. rewrite bool_decide_eq_true_2 by done. by app_simpl. Qed.

Lemma slot_of_is_Some ts date time i task :
  slot_of ts date time !! i = Some task -> is_Some (ts !! date ≫= lookup time).
Proof.
  intros Hl. destruct (slot_of_nonempty ts date time) as (day & slot & Ed & Et).
  { intros Hnil. by rewrite Hnil in Hl. }
  rewrite Ed. simpl. by rewrite Et.
Qed.

(** [C4] A click on the delete button of a one-time task removes that task,
    the one the button shows, from the slot of the selected date, and
    changes no other slot and no rule: the index captured by the render
    is still right when the button is clicked (spec section 9). *)
Theorem click_delete_task s s' d t i :
  reachable s -> step s (EvClickDelete (DelTask d t i)) s' ->
  exists k task, selectedDate s = Some k /\ d = k /\
    slot_of (tasks (store s)) k t !! i = Some task /\
    recurringTasks (store s') = recurringTasks (store s) /\
    forall k' t', slot_of (tasks (store s')) k' t' =
      if decide (k' = k /\ t' = t) then delete i (slot_of (tasks (store s)) k t)
      else slot_of (tasks (store s)) k' t'.
Proof.
  intros Hr Hstep. pose proof (reachable_inv_lemma s Hr) as Hinv.
  inversion Hstep as [s0 e0 He]; subst s0 e0 s'. cbn [enabled] in He.
  destruct He as (Hd & sl & en & Hsl & Hen & Hdel).
  destruct (day_view_slot s sl Hinv Hd Hsl) as (k & h & Hk & ->).
  destruct (agenda_delete_task_lemma _ _ _ _ _ _ _ _ Hen Hdel) as (-> & -> & (task & Hl & _) & Hdelete).
  exists k, task. split_and!; [done | done | done | |].
  all: cbn [dispatch]; rewrite Hk; cbn [selected_key default];
    rewrite deleteTask_handler_store by (by eapply slot_of_is_Some); cbn [tasks recurringTasks].
  { done. }
  intros k' t'. rewrite slot_of_deleteTask_lemma.
  case_decide as H1; case_decide as H2; [| tauto | tauto | done].
  destruct H1 as [-> ->]. by rewrite <- Hdelete, slot_of_deleteTask_lemma, decide_True.
Qed.

(** [C19] A click on the delete button of a rule removes that rule, one that
    matches the selected date at the slot's hour, and changes no one-time
    task. *)
Theorem click_delete_recurring s s' i :
  reachable s -> step s (EvClickDelete (DelRecurring i)) s' ->
  exists k r, selectedDate s = Some k /\ recurringTasks (store s) !! i = Some r /\
    rule_matches r (key_fields tz k) = true /\
    recurringTasks (store s') = delete i (recurringTasks (store s)) /\
    tasks (store s') = tasks (store s).
Proof.
  intros Hr Hstep. pose proof (reachable_inv_lemma s Hr) as Hinv.
  inversion Hstep as [s0 e0 He]; subst s0 e0 s'. cbn [enabled] in He.
  destruct He as (Hd & sl & en & Hsl & Hen & Hdel).
  destruct (day_view_slot s sl Hinv Hd Hsl) as (k & h & Hk & ->).
  destruct (agenda_delete_recurring_lemma _ _ _ _ _ _ Hen Hdel) as (r & Hl & Hm & _ & Hdelete).
  exists k, r. split_and!; [done | done | done | |].
  all: cbn [dispatch]; unfold deleteRecurringTask_handler.
  all: assert (Hi : (i < length (recurringTasks (store s)))%nat) by (apply lookup_lt_is_Some; by eexists).
  all: rewrite (proj2 (andb_true_iff _ _)) by lia; by app_simpl.
Qed.

(** ** Which events are enabled, decidably *)

Lemma enabled_click_day s k : k ∈ omap cell_key (grid s) -> enabled s (EvClickDay k).
Proof. intros (c & Hc & Hk)%list_elem_of_omap. by exists c. Qed.

Lemma enabled_click_slot s t :
  day_modal s = true -> t ∈ map slot_time (view s) -> enabled s (EvClickSlot t).
Proof. intros Hd Ht. split; [done |]. apply elem_of_map_iff in Ht as (sl & -> & Hsl). eauto. Qed.

Lemma enabled_click_delete s a :
  day_modal s = true ->
  a ∈ concat (map (fun sl => map entry_delete (slot_entries sl)) (view s)) ->
  enabled s (EvClickDelete a).
Proof.
  intros Hd Ha. split; [done |]. apply list_elem_of_In, in_concat in Ha as (l & Hl & Ha).
  apply in_map_iff in Hl as (sl & <- & Hsl). apply in_map_iff in Ha as (en & <- & Hen).
  exists sl, en. split_and!; [by apply list_elem_of_In | by apply list_elem_of_In | done].
Qed.

(** A submission with a date and a time selected: the store gets
    [addTask]'s update, the day view shows the new store, the task modal
    closes and the selection of the date stays. *)
Lemma addTask_handler_selected s date time descInput repeat :
  selectedDate s = Some date -> selectedTime s = Some time -> date <> ""%string -> time <> ""%string ->
  let s' := addTask_handler descInput repeat s in
  store s' = addTask tz (Some date) (Some time) (js_trim descInput) repeat (store s) /\
  selectedDate s' = Some date /\ day_modal s' = day_modal s /\ task_modal s' = false /\
  view s' = renderDayView tz (store s') date.
Proof.
  intros Hd Ht Hdn Htn. unfold addTask_handler. rewrite Hd, Ht. cbn [js_falsy_str].
  rewrite (proj2 (String.eqb_neq date "") Hdn), (proj2 (String.eqb_neq time "") Htn).
  simpl orb. cbv iota. app_simpl. rewrite ?Hd, ?Ht. split_and!; reflexivity.
Qed.

End App.

(** ** The schema of the stored tasks *)

(** The three invariants on the index, read as the schema of its JSON. *)
Lemma index_schema st :
  tasks_wf (tasks st) -> hour_keys st -> date_keys (tasks st) ->
  map_Forall (fun d day => (exists n, d = cal_key (cal_of_day n)) /\
    map_Forall (fun t sl => t ∈ hour_slots /\ sl <> []) day) (tasks st).
Proof.
  intros Hwf [Hh _] Hk d day Hd. split; [exact (Hk d day Hd) |].
  intros t sl Ht. exact (conj (Hh d day Hd t sl Ht) (proj2 (Hwf d day Hd) t sl Ht)).
Qed.

Lemma stored_tasks_typed_lemma tz today s text :
  reachable tz today s -> local_storage s !! "tasks" = Some text ->
  exists j, json_parse_text text = Some j /\
    has_type (index_type (fun k => exists n, k = cal_key (cal_of_day n)) (fun t => t ∈ hour_slots)) j.
Proof.
  intros Hr Ht. pose proof (reachable_inv_lemma tz today s Hr) as Hinv.
  destruct (inv_tasks_text _ _ _ Hinv) as [Hs | [Hs _]]; rewrite Ht in Hs; [| discriminate].
  injection Hs as ->. exists (index_to_json (tasks (store s))).
  split; [exact (parse_print_lemma (index_to_json (tasks (store s)))) |].
  apply index_to_json_typed, index_schema; apply Hinv.
Qed.

(** [C14] The schema of what the program stores: in every reachable state
    the text under ["tasks"] in [localStorage], when there is one, is JSON
    of the shape [{date: {time: [{desc: string}, ...]}}], its date
    members keys [formatDate] makes for a day, its time members the slot
    keys ["00:00"] .. ["23:00"], no member name twice in an object and no
    array empty. *)
Theorem stored_tasks_typed tz today s text :
  reachable tz today s -> local_storage s !! "tasks" = Some text ->
  exists j, json_parse_text text = Some j /\
    has_type (index_type (fun k => exists n, k = cal_key (cal_of_day n)) (fun t => t ∈ hour_slots)) j.
Proof. exact (stored_tasks_typed_lemma tz today s text). Qed.

(** ** [changeMonth] *)

(** [C18] [setMonth(getMonth() + delta)] keeps the day of the month, so the
    month shown is the intended one exactly when that day exists in it:
    from the 31st (or from the 29th-30th towards February) the date rolls
    over and the calendar skips a month. *)
Theorem changeMonth_month tz today s delta :
  let d := currentDate s in
  let m' := (MonthFromDay d + delta) mod 12 in
  let y' := YearFromDay d + (MonthFromDay d + delta) / 12 in
  MonthFromDay (currentDate (changeMonth tz today delta s)) = m' <->
  DateFromDay d <= days_in_month y' m'.
Proof.
  intros d m' y'. unfold changeMonth, render_calendar. cbn [currentDate set_grid set_currentDate].
  unfold js_set_month. rewrite MakeDay_norm. fold d m' y'.
  pose proof (fields_of_day_valid d) as [_ Hdt]. pose proof (days_in_month_range (YearFromDay d) (MonthFromDay d)).
  pose proof (days_in_month_range y' m'). assert (Hm : 0 <= m' < 12) by (apply Z.mod_pos_bound; lia).
  destruct (Z.le_gt_cases (DateFromDay d) (days_in_month y' m')) as [Hle | Hgt].
  - destruct (fields_MakeDay y' m' (DateFromDay d)) as (_ & -> & _); [done | lia |]. tauto.
  - replace (MakeDay y' m' (DateFromDay d)) with (MakeDay y' m' 1 + (DateFromDay d - 1))
      by (rewrite <- MakeDay_shift; f_equal; lia).
    rewrite fields_after_month by lia.
    pose proof (days_in_month_range (y' + (m' + 1) / 12) ((m' + 1) mod 12)).
    destruct (fields_MakeDay (y' + (m' + 1) / 12) ((m' + 1) mod 12) (DateFromDay d - 1 - days_in_month y' m' + 1))
      as (_ & -> & _); [apply Z.mod_pos_bound; lia | lia |].
    split; [intros Heq; by apply mod12_succ_ne in Heq | lia].
Qed.

(** ** Stored text that does not parse *)

Lemma load_json_invalid {A} `{JsonCodec A} (of_json : json -> option A) dflt ls key text :
  (forall t, json_parse t = parse_or_default dflt of_json t) ->
  ls !! key = Some text -> json_valid text = false -> load_json ls key dflt = None.
Proof.
  intros Hp Hk Hv. unfold load_json. rewrite Hk, Hp. unfold parse_or_default.
  destruct (json_parse_text text) as [j|] eqn:E; [| done].
  apply json_parse_valid in E. congruence.
Qed.

Lemma init_parse_error_lemma tz today ls key text :
  key = "tasks"%string \/ key = "recurringTasks"%string ->
  ls !! key = Some text -> json_valid text = false -> init tz today ls = None.
Proof.
  intros [-> | ->] Hk Hv; unfold init.
  - by rewrite (load_json_invalid index_of_json ∅ ls "tasks" text) by done.
  - rewrite (load_json_invalid (list_of_json rule_of_json) [] ls "recurringTasks" text) by done.
    by destruct (load_json ls "tasks" ∅).
Qed.

(** [C24] l. 32 and 35: when the text stored under ["tasks"] or
    ["recurringTasks"] is not a JSON text, [JSON.parse] throws a
    [SyntaxError], nothing catches it, and the script stops before its
    first render (spec section 7 promises the empty defaults). *)
Theorem init_parse_error tz today ls key text :
  key = "tasks"%string \/ key = "recurringTasks"%string ->
  ls !! key = Some text -> json_valid text = false -> init tz today ls = None.
Proof. exact (init_parse_error_lemma tz today ls key text). Qed.

(** ** A session, for the witnesses

    Monday 6 May 2024 in UTC: a first visit, a click on the 6th, on the
    09:00 slot, a one-time task "Gym"; then the 10:00 slot and a weekly
    rule "Standup". *)

Definition w_today : Z := MakeDay 2024 4 6.

Definition w_s0 : AppState :=
  render_calendar 0 w_today
    (mkState w_today None None {| tasks := ∅; recurringTasks := [] |} false false false "" [] [] ∅).

Definition w_s1 : AppState := dispatch 0 w_today (EvClickDay "2024-05-06") w_s0.
Definition w_s2 : AppState := dispatch 0 w_today (EvClickSlot "09:00") w_s1.
Definition w_s3 : AppState := dispatch 0 w_today (EvSubmit "Gym" "none") w_s2.
Definition w_s4 : AppState := dispatch 0 w_today (EvClickDelete (DelTask "2024-05-06" "09:00" 0)) w_s3.
Definition w_s5 : AppState :=
  dispatch 0 w_today (EvSubmit "Standup" "weekly") (dispatch 0 w_today (EvClickSlot "10:00") w_s3).
Definition w_s6 : AppState := dispatch 0 w_today (EvClickDelete (DelRecurring 0)) w_s5.

Lemma w_reach3 : reachable 0 w_today w_s3.
Proof.
  apply (reach_step 0 w_today w_s2 (EvSubmit "Gym" "none")); [| apply step_fire; vm_compute; reflexivity].
  apply (reach_step 0 w_today w_s1 (EvClickSlot "09:00")).
  2: { apply step_fire, enabled_click_slot; [vm_compute; reflexivity |].
       apply (bool_decide_unpack _). vm_compute. exact I. }
  apply (reach_step 0 w_today w_s0 (EvClickDay "2024-05-06")).
  2: { apply step_fire, enabled_click_day. apply (bool_decide_unpack _). vm_compute. exact I. }
  apply reach_first. vm_compute. reflexivity.
Qed.

Lemma w_reach5 : reachable 0 w_today w_s5.
Proof.
  apply (reach_step 0 w_today (dispatch 0 w_today (EvClickSlot "10:00") w_s3) (EvSubmit "Standup" "weekly"));
    [| apply step_fire; vm_compute; reflexivity].
  apply (reach_step 0 w_today w_s3 (EvClickSlot "10:00")); [apply w_reach3 |].
  apply step_fire, enabled_click_slot; [vm_compute; reflexivity |].
  apply (bool_decide_unpack _). vm_compute. exact I.
Qed.

Lemma w_step4 : step 0 w_today w_s3 (EvClickDelete (DelTask "2024-05-06" "09:00" 0)) w_s4.
Proof.
  apply step_fire, enabled_click_delete; [vm_compute; reflexivity |].
  apply (bool_decide_unpack _). vm_compute. exact I.
Qed.

Lemma w_step6 : step 0 w_today w_s5 (EvClickDelete (DelRecurring 0)) w_s6.
Proof.
  apply step_fire, enabled_click_delete; [vm_compute; reflexivity |].
  apply (bool_decide_unpack _). vm_compute. exact I.
Qed.

(** The cell of 6 May 2024 in the grid of the session. *)
Definition w_cell : Cell := default (mkCell 0 true false false None) (grid w_s3 !! 8%nat).

Lemma w_cell_in : w_cell ∈ grid w_s3.
Proof.
  unfold w_cell. destruct (grid w_s3 !! 8%nat) as [c|] eqn:E.
  - by apply list_elem_of_lookup_2 with 8%nat.
  - vm_compute in E. discriminate.
Qed.

Lemma reachable_inv_witness : reachable 0 w_today w_s3 /\ app_inv 0 w_today w_s3.
Proof. split; [exact w_reach3 | exact (reachable_inv 0 w_today w_s3 w_reach3)]. Defined.

Lemma reload_restores_witness :
  reachable 0 w_today w_s3 /\
  exists s', init 0 w_today (local_storage w_s3) = Some s' /\ store s' = store w_s3 /\
             journal_text s' = journal_text w_s3.
Proof. split; [exact w_reach3 | exact (reload_restores 0 w_today w_s3 w_reach3)]. Defined.

Lemma grid_mark_agenda_witness :
  (reachable 0 w_today w_s3 /\ w_cell ∈ grid w_s3 /\ cell_key w_cell = Some "2024-05-06"%string) /\
  (cell_has_task w_cell = true <->
   exists sl, sl ∈ renderDayView 0 (store w_s3) "2024-05-06" /\ slot_entries sl <> []).
Proof.
  split; [split_and!; [exact w_reach3 | exact w_cell_in | vm_compute; reflexivity] |].
  apply (grid_mark_agenda 0 w_today w_s3 w_cell); [exact w_reach3 | exact w_cell_in | vm_compute; reflexivity].
Defined.

Lemma click_delete_task_witness :
  (reachable 0 w_today w_s3 /\ step 0 w_today w_s3 (EvClickDelete (DelTask "2024-05-06" "09:00" 0)) w_s4) /\
  exists k task, selectedDate w_s3 = Some k /\ "2024-05-06"%string = k /\
    slot_of (tasks (store w_s3)) k "09:00" !! 0%nat = Some task /\
    recurringTasks (store w_s4) = recurringTasks (store w_s3) /\
    forall k' t', slot_of (tasks (store w_s4)) k' t' =
      if decide (k' = k /\ t' = "09:00"%string) then delete 0%nat (slot_of (tasks (store w_s3)) k "09:00")
      else slot_of (tasks (store w_s3)) k' t'.
Proof. split; [split; [exact w_reach3 | exact w_step4] | apply (click_delete_task 0 w_today w_s3); [exact w_reach3 | exact w_step4]]. Defined.

Lemma click_delete_recurring_witness :
  (reachable 0 w_today w_s5 /\ step 0 w_today w_s5 (EvClickDelete (DelRecurring 0)) w_s6) /\
  exists k r, selectedDate w_s5 = Some k /\ recurringTasks (store w_s5) !! 0%nat = Some r /\
    rule_matches r (key_fields 0 k) = true /\
    recurringTasks (store w_s6) = delete 0%nat (recurringTasks (store w_s5)) /\
    tasks (store w_s6) = tasks (store w_s5).
Proof. split; [split; [exact w_reach5 | exact w_step6] | apply (click_delete_recurring 0 w_today w_s5); [exact w_reach5 | exact w_step6]]. Defined.

(** Next month from 31 January 2025 shows March. *)
Example changeMonth_jan31 :
  MonthFromDay (currentDate (changeMonth 0 w_today 1 (mkState (MakeDay 2025 0 31) None None
     {| tasks := ∅; recurringTasks := [] |} false false false "" [] [] ∅))) = 2.
Proof. vm_compute. reflexivity. Qed.

Lemma init_parse_error_witness :
  ("recurringTasks"%string = "tasks"%string \/ "recurringTasks"%string = "recurringTasks"%string) /\
  (<["recurringTasks" := "[1,]"]> ∅ : gmap string string) !! "recurringTasks" = Some "[1,]"%string /\
  json_valid "[1,]" = false /\
  init 0 w_today (<["recurringTasks" := "[1,]"]> ∅) = None.
Proof.
  split_and!; [right; reflexivity | reflexivity | vm_compute; reflexivity |].
  apply (init_parse_error 0 w_today _ "recurringTasks" "[1,]"); [right | | vm_compute]; reflexivity.
Defined.

Lemma w_tasks_text :
  local_storage w_s3 !! "tasks" = Some (json_to_string (index_to_json (tasks (store w_s3)))).
Proof. vm_compute. reflexivity. Qed.

Lemma stored_tasks_typed_witness :
  (reachable 0 w_today w_s3 /\
   local_storage w_s3 !! "tasks" = Some (json_to_string (index_to_json (tasks (store w_s3))))) /\
  exists j, json_parse_text (json_to_string (index_to_json (tasks (store w_s3)))) = Some j /\
    has_type (index_type (fun k => exists n, k = cal_key (cal_of_day n)) (fun t => t ∈ hour_slots)) j.
Proof.
  split; [split; [exact w_reach3 | exact w_tasks_text] |].
  exact (stored_tasks_typed 0 w_today w_s3 _ w_reach3 w_tasks_text).
Defined.
