(* ===== verification/Session.v ===== *)
(** * Sessions: what a user can do with a sequence of clicks

    [App] gives one step per event; this file strings steps together.
    [steps s es s'] is a run of the page from [s] through the events
    [es], each enabled when it fires.  The theorems are about what a user
    can always achieve from a reachable state: add a task to any day of
    the grid at any hour, see it at once in the day view, and take it
    back with the delete button the view shows, which gives the store of
    before; and a weekly task, once submitted, shows in the same slot of
    the day view of every date with its weekday.  The witnesses run the
    session of [App] one step further. *)

From S2P Require Import Prelude JsLib EcmaDate DateUtil TaskStore Recurrence Grid Agenda Codec Json App.

Open Scope Z_scope.

Section Session.
Context (tz today : Z).
Context `{!JsonCodec TaskIndex} `{!JsonCodec (list Recurring)}.
Context `{!JsonCodecLaws TaskIndex} `{!JsonCodecLaws (list Recurring)}.

(** A run of the page: each event enabled when it fires. *)
Inductive steps : AppState -> list Event -> AppState -> Prop :=
| steps_nil s : steps s [] s
| steps_cons s e s1 es s2 : step tz today s e s1 -> steps s1 es s2 -> steps s (e :: es) s2.

Lemma steps_app s es1 s1 es2 s2 :
  steps s es1 s1 -> steps s1 es2 s2 -> steps s (es1 ++ es2) s2.
Proof. induction 1 as [|s e s1' es s2' Hst Hs IH]; [done |]. intros Hr. econstructor; eauto. Qed.

Lemma steps_reachable s es s' : reachable tz today s -> steps s es s' -> reachable tz today s'.
Proof. intros Hr Hs. induction Hs; [done |]. apply IHHs. by eapply reach_step. Qed.

(** One enabled event. *)
Lemma steps_one s e : enabled s e -> steps s [e] (dispatch tz today e s).
Proof. intros He. econstructor; [by constructor | constructor]. Qed.

Lemma cal_key_neq_nil c : cal_key c <> ""%string.
Proof. unfold cal_key, formatDate. apply string_app_cons_neq_nil. Qed.

Lemma time24_of_hour_neq_nil h : time24_of_hour h <> ""%string.
Proof. unfold time24_of_hour. apply string_app_cons_neq_nil. Qed.

Lemma day_slot_in_view st date hour :
  0 <= hour < 24 -> day_slot tz st date hour ∈ renderDayView tz st date.
Proof.
  intros Hh. unfold renderDayView. apply elem_of_map_2, elem_of_map_iff.
  exists (Z.to_nat hour). split; [lia | apply elem_of_seq; lia].
Qed.

(** The last task of a slot is shown with its position as the index of
    its delete button. *)
Lemma one_time_entry_last date time24 l task :
  one_time_entry date time24 (length l) task ∈ imap (one_time_entry date time24) (l ++ [task]).
Proof.
  rewrite imap_app. apply elem_of_app. right. simpl. rewrite Nat.add_0_r. by left.
Qed.

(** A day cell of a reachable state opens a non-empty key. *)
Lemma grid_key_neq_nil s date :
  reachable tz today s -> date ∈ omap cell_key (grid s) -> date <> ""%string.
Proof.
  intros Hr Hd. pose proof (reachable_inv_lemma tz today s Hr) as Hinv.
  apply list_elem_of_omap in Hd as (c & Hc & Hk). rewrite (inv_grid tz today s Hinv) in Hc.
  destruct (grid_keys tz today _ _ _ _ Hc Hk) as [d ->]. apply cal_key_neq_nil.
Qed.

(** The three clicks that add a task: a day cell, the slot of the hour,
    the form's submission with a description and a repeat mode. *)
Definition add_clicks (date : string) (hour : Z) (descInput repeat : string) : list Event :=
  [EvClickDay date; EvClickSlot (time24_of_hour hour); EvSubmit descInput repeat].

Lemma add_task_run s date hour descInput repeat :
  reachable tz today s -> date ∈ omap cell_key (grid s) -> 0 <= hour < 24 ->
  exists s', steps s (add_clicks date hour descInput repeat) s' /\
    store s' = addTask tz (Some date) (Some (time24_of_hour hour)) (js_trim descInput) repeat (store s) /\
    day_modal s' = true /\ selectedDate s' = Some date /\
    view s' = renderDayView tz (store s') date.
Proof.
  intros Hr Hd Hh. pose proof (grid_key_neq_nil s date Hr Hd) as Hdn.
  set (s1 := dispatch tz today (EvClickDay date) s).
  set (s2 := dispatch tz today (EvClickSlot (time24_of_hour hour)) s1).
  exists (dispatch tz today (EvSubmit descInput repeat) s2). split.
  - apply steps_cons with s1; [constructor; by apply enabled_click_day |].
    apply steps_cons with s2; [constructor; apply enabled_click_slot; [reflexivity |] |].
    { apply elem_of_map_iff. exists (day_slot tz (store s) date hour).
      split; [reflexivity | by apply day_slot_in_view]. }
    apply steps_one. reflexivity.
  - destruct (addTask_handler_selected tz today s2 date (time24_of_hour hour) descInput repeat)
      as (Hst & Hsd & Hdm & _ & Hv); [reflexivity | reflexivity | done | apply time24_of_hour_neq_nil |].
    split_and!; [exact Hst | exact Hdm | exact Hsd | exact Hv].
Qed.

Lemma add_task_live_lemma s date hour descInput :
  reachable tz today s -> date ∈ omap cell_key (grid s) -> 0 <= hour < 24 ->
  let t := time24_of_hour hour in
  let old := slot_of (tasks (store s)) date t in
  exists s', steps s (add_clicks date hour descInput "none") s' /\
    (forall date' time', slot_of (tasks (store s')) date' time' =
       if decide (date' = date /\ time' = t) then old ++ [mkTask (js_trim descInput)]
       else slot_of (tasks (store s)) date' time') /\
    recurringTasks (store s') = recurringTasks (store s) /\
    exists sl, sl ∈ view s' /\ slot_time sl = t /\
      one_time_entry date t (length old) (mkTask (js_trim descInput)) ∈ slot_entries sl.
Proof.
  intros Hr Hd Hh t old. pose proof (grid_key_neq_nil s date Hr Hd) as Hdn.
  destruct (add_task_run s date hour descInput "none" Hr Hd Hh) as (s' & Hsteps & Hst & _ & _ & Hv).
  exists s'. rewrite Hst, addTask_none_eq by (done || apply time24_of_hour_neq_nil). cbn [tasks recurringTasks].
  split_and!; [done | intros; apply slot_of_add_one_time_lemma | done |].
  exists (day_slot tz (store s') date hour). rewrite Hv. split_and!; [by apply day_slot_in_view | done |].
  rewrite Hst, addTask_none_eq by (done || apply time24_of_hour_neq_nil).
  rewrite day_slot_entries_lemma. apply elem_of_app. left. cbn [tasks].
  rewrite slot_of_add_one_time_lemma, decide_True by done. apply one_time_entry_last.
Qed.

(** [C6] Liveness of adding: from every reachable state, the user can add a
    one-time task to any day the grid shows, at any hour.  The three
    clicks (the day cell, the slot, the submission) are enabled in turn;
    afterwards the task is the last of its slot, no other slot and no
    rule has changed, and the open day view shows the task in the slot of
    the hour with a delete button that names its position. *)
Theorem add_task_live s date hour descInput :
  reachable tz today s -> date ∈ omap cell_key (grid s) -> 0 <= hour < 24 ->
  let t := time24_of_hour hour in
  let old := slot_of (tasks (store s)) date t in
  exists s', steps s (add_clicks date hour descInput "none") s' /\
    (forall date' time', slot_of (tasks (store s')) date' time' =
       if decide (date' = date /\ time' = t) then old ++ [mkTask (js_trim descInput)]
       else slot_of (tasks (store s)) date' time') /\
    recurringTasks (store s') = recurringTasks (store s) /\
    exists sl, sl ∈ view s' /\ slot_time sl = t /\
      one_time_entry date t (length old) (mkTask (js_trim descInput)) ∈ slot_entries sl.
Proof. exact (add_task_live_lemma s date hour descInput). Qed.

Lemma add_then_undo_lemma s date hour descInput :
  reachable tz today s -> date ∈ omap cell_key (grid s) -> 0 <= hour < 24 ->
  let t := time24_of_hour hour in
  exists s'', steps s (add_clicks date hour descInput "none" ++
      [EvClickDelete (DelTask date t (length (slot_of (tasks (store s)) date t)))]) s'' /\
    store s'' = store s.
Proof.
  intros Hr Hd Hh t. pose proof (grid_key_neq_nil s date Hr Hd) as Hdn.
  pose proof (time24_of_hour_neq_nil hour) as Htn.
  pose proof (reachable_inv_lemma tz today s Hr) as Hinv.
  destruct (add_task_run s date hour descInput "none" Hr Hd Hh) as (s' & Hsteps & Hst & Hdm & Hsd & Hv).
  rewrite addTask_none_eq in Hst by done.
  set (old := slot_of (tasks (store s)) date t).
  set (a := EvClickDelete (DelTask date t (length old))).
  exists (dispatch tz today a s'). split.
  - apply (steps_app _ _ s'); [done |]. apply steps_one. split; [done |].
    exists (day_slot tz (store s') date hour),
      (one_time_entry date t (length old) (mkTask (js_trim descInput))).
    rewrite Hv. split_and!; [by apply day_slot_in_view | | done].
    rewrite day_slot_entries_lemma. apply elem_of_app. left.
    rewrite Hst. cbn [tasks]. rewrite slot_of_add_one_time_lemma, decide_True by done.
    apply one_time_entry_last.
  - cbn [dispatch a]. rewrite Hsd. cbn [selected_key default].
    rewrite deleteTask_handler_store.
    + rewrite Hst. cbn [tasks recurringTasks]. unfold old.
      rewrite add_then_delete_lemma by apply (inv_wf tz today s Hinv). apply store_eta.
    + apply (slot_of_is_Some _ _ _ (length old) (mkTask (js_trim descInput))).
      rewrite Hst. cbn [tasks]. rewrite slot_of_add_one_time_lemma, decide_True by done.
      by apply list_lookup_middle.
Qed.

(** [C11] Undo: from a reachable state, adding a task with the three clicks
    and then pressing the delete button the day view shows for it gives
    back the store of before (the date key disappears again if the task
    was the date's first). *)
Theorem add_then_undo s date hour descInput :
  reachable tz today s -> date ∈ omap cell_key (grid s) -> 0 <= hour < 24 ->
  let t := time24_of_hour hour in
  exists s'', steps s (add_clicks date hour descInput "none" ++
      [EvClickDelete (DelTask date t (length (slot_of (tasks (store s)) date t)))]) s'' /\
    store s'' = store s.
Proof. exact (add_then_undo_lemma s date hour descInput). Qed.

(** The rule at position [i] of the array shows in the slot of its time
    on every date it matches. *)
Lemma in_recurring_at rs date time24 i r :
  rs !! i = Some r -> rule_matches r (key_fields tz date) = true -> r_time r = time24 ->
  (i, r) ∈ recurring_at tz rs date time24.
Proof.
  intros Hl Hm Ht. unfold recurring_at. rewrite list_elem_of_filter, elem_of_lookup_imap.
  split; [| by exists i, r]. apply Is_true_true, andb_true_iff. split; [done |].
  by apply String.eqb_eq.
Qed.

(** A submission in a recurring mode that appends the rule [r]: the rule
    shows, in the slot of the hour, on every date it matches. *)
Lemma recurring_task_run s date hour descInput repeat (r : Recurring) :
  reachable tz today s -> date ∈ omap cell_key (grid s) -> 0 <= hour < 24 ->
  r_time r = time24_of_hour hour ->
  addTask tz (Some date) (Some (time24_of_hour hour)) (js_trim descInput) repeat (store s) =
    {| tasks := tasks (store s); recurringTasks := recurringTasks (store s) ++ [r] |} ->
  exists s', steps s (add_clicks date hour descInput repeat) s' /\
    recurringTasks (store s') = recurringTasks (store s) ++ [r] /\
    tasks (store s') = tasks (store s) /\
    forall date', rule_matches r (key_fields tz date') = true ->
      recurring_entry (length (recurringTasks (store s)), r) ∈
        slot_entries (day_slot tz (store s') date' hour).
Proof.
  intros Hr Hd Hh Ht Hadd.
  destruct (add_task_run s date hour descInput repeat Hr Hd Hh) as (s' & Hsteps & Hst & _).
  rewrite Hadd in Hst. exists s'. rewrite Hst. cbn [tasks recurringTasks].
  split_and!; [done | done | done |]. intros date' Hm.
  rewrite day_slot_entries_lemma. apply elem_of_app. right. cbn [recurringTasks].
  apply elem_of_map_2, in_recurring_at; [| done | done].
  by rewrite lookup_app_r, Nat.sub_diag by lia.
Qed.

Lemma weekly_task_live_lemma s c hour descInput :
  reachable tz today s -> cal_key c ∈ omap cell_key (grid s) -> cal_valid c -> 0 <= hour < 24 ->
  let t := time24_of_hour hour in
  let r := weekly_rule tz (cal_key c) t (js_trim descInput) in
  exists s', steps s (add_clicks (cal_key c) hour descInput "weekly") s' /\
    recurringTasks (store s') = recurringTasks (store s) ++ [r] /\
    tasks (store s') = tasks (store s) /\
    forall c', cal_valid c' -> WeekDay (cal_daynum c') = WeekDay (cal_daynum c) ->
      recurring_entry (length (recurringTasks (store s)), r) ∈
        slot_entries (day_slot tz (store s') (cal_key c') hour).
Proof.
  intros Hr Hd Hc Hh t r.
  destruct (recurring_task_run s (cal_key c) hour descInput "weekly" r Hr Hd Hh eq_refl)
    as (s' & Hsteps & Hrs & Hts & Hin).
  { exact (proj1 (addTask_recurring_lemma _ _ _ _ _ (cal_key_neq_nil c) (time24_of_hour_neq_nil hour))). }
  exists s'. split_and!; [done | done | done |]. intros c' Hc' Hw. apply Hin.
  unfold r. rewrite weekly_rule_recurs_lemma by done. by rewrite Hw, Z.eqb_refl.
Qed.

Lemma yearly_task_live_lemma s c hour descInput :
  0 <= tz < 1440 ->
  reachable tz today s -> cal_key c ∈ omap cell_key (grid s) -> cal_valid c -> 0 <= hour < 24 ->
  let t := time24_of_hour hour in
  let r := yearly_rule tz (cal_key c) t (js_trim descInput) in
  exists s', steps s (add_clicks (cal_key c) hour descInput "yearly") s' /\
    recurringTasks (store s') = recurringTasks (store s) ++ [r] /\
    tasks (store s') = tasks (store s) /\
    forall c', cal_valid c' -> c_month c' = c_month c -> c_day c' = c_day c ->
      recurring_entry (length (recurringTasks (store s)), r) ∈
        slot_entries (day_slot tz (store s') (cal_key c') hour).
Proof.
  intros Htz Hr Hd Hc Hh t r.
  destruct (recurring_task_run s (cal_key c) hour descInput "yearly" r Hr Hd Hh eq_refl)
    as (s' & Hsteps & Hrs & Hts & Hin).
  { exact (proj2 (addTask_recurring_lemma _ _ _ _ _ (cal_key_neq_nil c) (time24_of_hour_neq_nil hour))). }
  exists s'. split_and!; [done | done | done |]. intros c' Hc' Hm Hday. apply Hin.
  unfold r. rewrite yearly_rule_recurs_east by done. by rewrite Hm, Hday, !Z.eqb_refl.
Qed.

(** [C12] A weekly task recurs in the day view: from a reachable state,
    submitting a task with the mode ["weekly"] on a day of the grid (of a
    year from 1000 on) at some hour appends one rule, leaves the one-time
    tasks alone, and from then on the day view of every date with the same
    weekday lists the task, marked "(Weekly)", in the slot of that hour,
    with a delete button naming the rule's index.  This holds in every
    time zone. *)
Theorem weekly_task_live s c hour descInput :
  reachable tz today s -> cal_key c ∈ omap cell_key (grid s) -> cal_valid c -> 0 <= hour < 24 ->
  let t := time24_of_hour hour in
  let r := weekly_rule tz (cal_key c) t (js_trim descInput) in
  exists s', steps s (add_clicks (cal_key c) hour descInput "weekly") s' /\
    recurringTasks (store s') = recurringTasks (store s) ++ [r] /\
    tasks (store s') = tasks (store s) /\
    forall c', cal_valid c' -> WeekDay (cal_daynum c') = WeekDay (cal_daynum c) ->
      recurring_entry (length (recurringTasks (store s)), r) ∈
        slot_entries (day_slot tz (store s') (cal_key c') hour).
Proof. exact (weekly_task_live_lemma s c hour descInput). Qed.

(** [C13] A yearly task recurs in the day view: east of UTC (an offset from
    0 to under 24 hours), submitting a task with the mode ["yearly"] on a
    day of the grid (of a year from 1000 on) at some hour appends one
    rule, leaves the one-time tasks alone, and from then on the day view
    of every date with the same month and day, in any year, lists the
    task, marked "(Yearly)", in the slot of that hour.  West of UTC the
    rule and the test both read the previous day ([hasTasks_west]). *)
Theorem yearly_task_live s c hour descInput :
  0 <= tz < 1440 ->
  reachable tz today s -> cal_key c ∈ omap cell_key (grid s) -> cal_valid c -> 0 <= hour < 24 ->
  let t := time24_of_hour hour in
  let r := yearly_rule tz (cal_key c) t (js_trim descInput) in
  exists s', steps s (add_clicks (cal_key c) hour descInput "yearly") s' /\
    recurringTasks (store s') = recurringTasks (store s) ++ [r] /\
    tasks (store s') = tasks (store s) /\
    forall c', cal_valid c' -> c_month c' = c_month c -> c_day c' = c_day c ->
      recurring_entry (length (recurringTasks (store s)), r) ∈
        slot_entries (day_slot tz (store s') (cal_key c') hour).
Proof. exact (yearly_task_live_lemma s c hour descInput). Qed.

End Session.

(** ** Witnesses: the session of [App], one more task on 7 May 2024 *)

Lemma w_day_in_grid : "2024-05-07"%string ∈ omap cell_key (grid w_s3).
Proof. apply (bool_decide_unpack _). vm_compute. exact I. Qed.

Lemma add_task_live_witness :
  (reachable 0 w_today w_s3 /\ "2024-05-07"%string ∈ omap cell_key (grid w_s3) /\ 0 <= 10 < 24) /\
  let t := time24_of_hour 10 in
  let old := slot_of (tasks (store w_s3)) "2024-05-07" t in
  exists s', steps 0 w_today w_s3 (add_clicks "2024-05-07" 10 "Read" "none") s' /\
    (forall date' time', slot_of (tasks (store s')) date' time' =
       if decide (date' = "2024-05-07"%string /\ time' = t) then old ++ [mkTask (js_trim "Read")]
       else slot_of (tasks (store w_s3)) date' time') /\
    recurringTasks (store s') = recurringTasks (store w_s3) /\
    exists sl, sl ∈ view s' /\ slot_time sl = t /\
      one_time_entry "2024-05-07" t (length old) (mkTask (js_trim "Read")) ∈ slot_entries sl.
Proof.
  split; [split; [exact w_reach3 | split; [exact w_day_in_grid | lia]] |].
  exact (add_task_live 0 w_today w_s3 "2024-05-07" 10 "Read" w_reach3 w_day_in_grid ltac:(lia)).
Defined.

Lemma add_then_undo_witness :
  (reachable 0 w_today w_s3 /\ "2024-05-07"%string ∈ omap cell_key (grid w_s3) /\ 0 <= 10 < 24) /\
  exists s'', steps 0 w_today w_s3 (add_clicks "2024-05-07" 10 "Read" "none" ++
      [EvClickDelete (DelTask "2024-05-07" (time24_of_hour 10)
         (length (slot_of (tasks (store w_s3)) "2024-05-07" (time24_of_hour 10))))]) s'' /\
    store s'' = store w_s3.
Proof.
  split; [split; [exact w_reach3 | split; [exact w_day_in_grid | lia]] |].
  exact (add_then_undo 0 w_today w_s3 "2024-05-07" 10 "Read" w_reach3 w_day_in_grid ltac:(lia)).
Defined.

Lemma w_may7_in_grid : cal_key may7 ∈ omap cell_key (grid w_s3).
Proof. apply (bool_decide_unpack _). vm_compute. exact I. Qed.

Lemma w_may7_valid : cal_valid may7.
Proof. unfold cal_valid. vm_compute. split_and!; congruence. Qed.

Lemma weekly_task_live_witness :
  (reachable 0 w_today w_s3 /\ cal_key may7 ∈ omap cell_key (grid w_s3) /\ cal_valid may7 /\
   0 <= 10 < 24) /\
  let t := time24_of_hour 10 in
  let r := weekly_rule 0 (cal_key may7) t (js_trim "Yoga") in
  exists s', steps 0 w_today w_s3 (add_clicks (cal_key may7) 10 "Yoga" "weekly") s' /\
    recurringTasks (store s') = recurringTasks (store w_s3) ++ [r] /\
    tasks (store s') = tasks (store w_s3) /\
    forall c', cal_valid c' -> WeekDay (cal_daynum c') = WeekDay (cal_daynum may7) ->
      recurring_entry (length (recurringTasks (store w_s3)), r) ∈
        slot_entries (day_slot 0 (store s') (cal_key c') 10).
Proof.
  split; [split_and!; [exact w_reach3 | exact w_may7_in_grid | exact w_may7_valid | lia | lia] |].
  exact (weekly_task_live 0 w_today w_s3 may7 10 "Yoga" w_reach3 w_may7_in_grid w_may7_valid
           ltac:(lia)).
Defined.

Lemma yearly_task_live_witness :
  (0 <= 0 < 1440 /\ reachable 0 w_today w_s3 /\ cal_key may7 ∈ omap cell_key (grid w_s3) /\
   cal_valid may7 /\ 0 <= 10 < 24) /\
  let t := time24_of_hour 10 in
  let r := yearly_rule 0 (cal_key may7) t (js_trim "Birthday") in
  exists s', steps 0 w_today w_s3 (add_clicks (cal_key may7) 10 "Birthday" "yearly") s' /\
    recurringTasks (store s') = recurringTasks (store w_s3) ++ [r] /\
    tasks (store s') = tasks (store w_s3) /\
    forall c', cal_valid c' -> c_month c' = c_month may7 -> c_day c' = c_day may7 ->
      recurring_entry (length (recurringTasks (store w_s3)), r) ∈
        slot_entries (day_slot 0 (store s') (cal_key c') 10).
Proof.
  split; [split_and!; [lia | lia | exact w_reach3 | exact w_may7_in_grid | exact w_may7_valid | lia | lia] |].
  exact (yearly_task_live 0 w_today w_s3 may7 10 "Birthday" ltac:(lia) w_reach3 w_may7_in_grid
           w_may7_valid ltac:(lia)).
Defined.
